(** * The SDLC helper scripts: pattern scanning, scoring and merge readiness

    A shallow embedding of the JavaScript sources

      - the sample utilities ([validateEmail], [Calculator]),
      - [AICodeReviewer]      (scripts/ai-code-review.js),
      - [CodeStyleReviewer]   (scripts/code-style-review.js),
      - [PerformanceAnalyzer],
      - [MergeReadinessAssessor],

    together with the part of the JavaScript host they rely on (string
    primitives, regular-expression matching, JSON values read from disk).

    Conventions.  Source text is ASCII: a JavaScript string is a Rocq
    [string], one character per code unit.  Scores are integers ([Z]); the
    scripts only ever add and subtract integer constants.  Numbers read
    from JSON reports are rationals ([Q]): every finite double denotes
    one, and the scripts only compare them with integer constants.  The
    style review's modernization ratio is computed in exact arithmetic. *)

From Stdlib Require Import ZArith QArith Qround Ascii String List Bool Lia.
From Stdlib Require Import DecimalString.
From stdpp Require Import gmap strings list.

Local Open Scope Z_scope.
Local Open Scope string_scope.
Local Open Scope list_scope.

(* ================================================================== *)
(** * The JavaScript host                                              *)
(* ================================================================== *)

Module JS.

(** ** Exceptions *)

(** The outcome of a computation that may throw. *)
Inductive outcome (A : Type) : Type :=
| Returned (a : A)
| Thrown (message : string).
Arguments Returned {A} a.
Arguments Thrown {A} message.

#[export] Instance outcome_ret : MRet outcome := fun A a => Returned a.

#[export] Instance outcome_bind : MBind outcome := fun A B k m =>
  match m with
  | Returned a => k a
  | Thrown e => Thrown e
  end.

(** ** Strings *)

Definition tab : ascii := ascii_of_nat 9.
Definition newline : ascii := ascii_of_nat 10.
Definition double_quote : ascii := ascii_of_nat 34.

(** [s.indexOf(needle)]: offset of the first occurrence, or -1. *)
Definition indexOf (s needle : string) : Z :=
  match String.index 0 needle s with
  | Some i => Z.of_nat i
  | None => -1
  end.

(** [s.includes(needle)] *)
Definition includes (s needle : string) : bool :=
  match String.index 0 needle s with
  | Some _ => true
  | None => false
  end.

(** [s.substring(from, to)]: both ends are clamped to [0, s.length] and
    swapped when out of order. *)
Definition clamp_index (s : string) (i : Z) : nat :=
  Z.to_nat (Z.max 0 (Z.min i (Z.of_nat (String.length s)))).

Definition substring (s : string) (from to : Z) : string :=
  let a := clamp_index s from in
  let b := clamp_index s to in
  String.substring (Nat.min a b) (Nat.max a b - Nat.min a b) s.

(** [s.split(sep)] for a one-character separator. *)
Fixpoint split (sep : ascii) (s : string) : list string :=
  match s with
  | EmptyString => [EmptyString]
  | String c rest =>
      if Ascii.eqb c sep then EmptyString :: split sep rest
      else match split sep rest with
           | piece :: pieces => String c piece :: pieces
           | [] => [String c EmptyString]
           end
  end.

(** Number of occurrences of a character. *)
Fixpoint count_char (c : ascii) (s : string) : nat :=
  match s with
  | EmptyString => O
  | String d rest => ((if Ascii.eqb d c then 1 else 0) + count_char c rest)%nat
  end.

(** White space, as [\s] and [trim] see it (ASCII part): TAB, LF, VT, FF,
    CR and SPACE. *)
Definition is_space (c : ascii) : bool :=
  let n := nat_of_ascii c in
  ((9 <=? n) && (n <=? 13) || (n =? 32))%nat.

Definition is_digit (c : ascii) : bool :=
  let n := nat_of_ascii c in ((48 <=? n) && (n <=? 57))%nat.

(** [\w]: letters, digits and underscore. *)
Definition is_word (c : ascii) : bool :=
  let n := nat_of_ascii c in
  ((65 <=? n) && (n <=? 90) || (97 <=? n) && (n <=? 122)
   || is_digit c || (n =? 95))%nat.

(** Line terminators (ASCII part): LF and CR. *)
Definition is_line_terminator (c : ascii) : bool :=
  let n := nat_of_ascii c in ((n =? 10) || (n =? 13))%nat.

Fixpoint trimStart (s : string) : string :=
  match s with
  | EmptyString => EmptyString
  | String c rest => if is_space c then trimStart rest else s
  end.

Fixpoint trimEnd (s : string) : string :=
  match s with
  | EmptyString => EmptyString
  | String c rest =>
      match trimEnd rest with
      | EmptyString => if is_space c then EmptyString else String c EmptyString
      | kept => String c kept
      end
  end.

Definition trim (s : string) : string := trimEnd (trimStart s).

(** ** Regular expressions

    The fragment of the pattern language the scripts use: literals, [.],
    character classes with [\s], [\w], [\d] and ranges, concatenation,
    alternation, greedy [*] and [+], and the assertions [^], [$] and
    [\b]. *)

Inductive class_item : Type :=
| CChar (c : ascii)
| CRange (lo hi : ascii)
| CSpace
| CWord
| CDigit.

Inductive regex : Type :=
| Empty
| Char (c : ascii)
| Dot
| Class (negated : bool) (items : list class_item)
| Seq (r1 r2 : regex)
| Alt (r1 r2 : regex)
| Star (r : regex)
| Bol
| Eol
| WordBoundary.

Definition Plus (r : regex) : regex := Seq r (Star r).

Fixpoint Lit (s : string) : regex :=
  match s with
  | EmptyString => Empty
  | String c EmptyString => Char c
  | String c rest => Seq (Char c) (Lit rest)
  end.

Fixpoint cat (rs : list regex) : regex :=
  match rs with
  | [] => Empty
  | [r] => r
  | r :: rest => Seq r (cat rest)
  end.

Fixpoint alt (rs : list regex) : regex :=
  match rs with
  | [] => Class false []
  | [r] => r
  | r :: rest => Alt r (alt rest)
  end.

Definition ws : regex := Class false [CSpace].
Definition word : regex := Class false [CWord].
Definition digit : regex := Class false [CDigit].

Definition item_mem (c : ascii) (it : class_item) : bool :=
  match it with
  | CChar d => Ascii.eqb c d
  | CRange lo hi =>
      ((nat_of_ascii lo <=? nat_of_ascii c)
       && (nat_of_ascii c <=? nat_of_ascii hi))%nat
  | CSpace => is_space c
  | CWord => is_word c
  | CDigit => is_digit c
  end.

Definition class_mem (items : list class_item) (c : ascii) : bool :=
  existsb (item_mem c) items.

(** The matcher is the backtracking one of the language definition: for
    a pattern and a start offset it lists the end offsets of all ways to
    match, in the order backtracking tries them.  The first is the match. *)
Section Matcher.

Variable multiline : bool.
Variable input : string.

(** Greedy iteration.  An iteration that consumes nothing is rejected,
    so every round moves forward and [fuel] bounds the rounds left. *)
Fixpoint star_ends (body : nat -> list nat) (fuel : nat) (i : nat)
  : list nat :=
  match fuel with
  | O => [i]
  | S fuel' =>
      flat_map (fun j => if (i <? j)%nat then star_ends body fuel' j else [])
               (body i) ++ [i]
  end.

Definition one (p : ascii -> bool) (i : nat) : list nat :=
  match String.get i input with
  | Some c => if p c then [S i] else []
  | None => []
  end.

Definition preceded_by_terminator (i : nat) : bool :=
  match i with
  | O => false
  | S j => match String.get j input with
           | Some c => is_line_terminator c
           | None => false
           end
  end.

Definition followed_by_terminator (i : nat) : bool :=
  match String.get i input with
  | Some c => is_line_terminator c
  | None => false
  end.

Definition word_at (i : nat) : bool :=
  match String.get i input with
  | Some c => is_word c
  | None => false
  end.

Definition word_before (i : nat) : bool :=
  match i with
  | O => false
  | S j => word_at j
  end.

Fixpoint ends (r : regex) (i : nat) : list nat :=
  match r with
  | Empty => [i]
  | Char c => one (Ascii.eqb c) i
  | Dot => one (fun c => negb (is_line_terminator c)) i
  | Class negated items => one (fun c => xorb negated (class_mem items c)) i
  | Seq r1 r2 => flat_map (ends r2) (ends r1 i)
  | Alt r1 r2 => ends r1 i ++ ends r2 i
  | Star r1 => star_ends (ends r1) (String.length input - i) i
  | Bol =>
      if (i =? 0)%nat || multiline && preceded_by_terminator i
      then [i] else []
  | Eol =>
      if (i =? String.length input)%nat
         || multiline && followed_by_terminator i
      then [i] else []
  | WordBoundary => if xorb (word_before i) (word_at i) then [i] else []
  end.

(** Match at exactly offset [i]; the end offset on success. *)
Definition match_at (r : regex) (i : nat) : option nat := head (ends r i).

(** The first offset at or after [i] where the pattern matches; offsets
    [i], ..., [i + fuel] are tried. *)
Fixpoint search_from (r : regex) (fuel : nat) (i : nat)
  : option (nat * nat) :=
  match match_at r i with
  | Some e => Some (i, e)
  | None =>
      match fuel with
      | O => None
      | S fuel' => search_from r fuel' (S i)
      end
  end.

(** One [exec] of a pattern whose [lastIndex] is [last]. *)
Definition exec (r : regex) (last : nat) : option (nat * nat) :=
  if (String.length input <? last)%nat then None
  else search_from r (String.length input - last) last.

(** The loop of [input.match(r)] for a global pattern: the matches
    from left to right as (start, end) offsets, the search restarting
    at the end of each match (one further when the match was empty). *)
Fixpoint match_loop (r : regex) (fuel : nat) (last : nat)
  : list (nat * nat) :=
  match fuel with
  | O => []
  | S fuel' =>
      match exec r last with
      | None => []
      | Some (i, e) =>
          (i, e) :: match_loop r fuel' (if (e =? i)%nat then S e else e)
      end
  end.

(** Every round moves [lastIndex] forward, and [exec] fails beyond the
    end of the input, so one round more than there are characters is
    enough. *)
Definition occurrences (r : regex) : list (nat * nat) :=
  match_loop r (S (String.length input)) 0.

Definition matched_text (m : nat * nat) : string :=
  String.substring (fst m) (snd m - fst m) input.

End Matcher.

(** [input.match(new RegExp(r, 'g'))], or with the flags ['gm']: the
    matched texts in textual order.  The script's [null] for "no match"
    is the empty list here; the scripts test it with [if (matches)] and
    iterate otherwise. *)
Definition match_g (multiline : bool) (r : regex) (input : string)
  : list string :=
  map (matched_text input) (occurrences multiline input r).

(** [r.test(input)] for a pattern without flags. *)
Definition test (r : regex) (input : string) : bool :=
  match exec false input r 0 with
  | Some _ => true
  | None => false
  end.

(** ** Values read from JSON

    What [JSON.parse] returns, plus [undefined], which reading a missing
    property gives.  An object is the list of its properties. *)

#[warnings="-register-all"]
Inductive value : Type :=
| VUndefined
| VNull
| VBool (b : bool)
| VNum (q : Q)
| VStr (s : string)
| VArr (elements : list value)
| VObj (properties : list (string * value)).

Fixpoint assoc (key : string) (properties : list (string * value))
  : option value :=
  match properties with
  | [] => None
  | (k, v) :: rest => if String.eqb k key then Some v else assoc key rest
  end.

Definition of_nat (n : nat) : value := VNum (inject_Z (Z.of_nat n)).

(** [v.key] for a property name that is neither an index nor an
    inherited method: reading from [null] or [undefined] throws, an
    array or a string has [length], an object has what it was given. *)
Definition get (v : value) (key : string) : outcome value :=
  match v with
  | VUndefined | VNull =>
      Thrown ("TypeError: Cannot read properties of null or undefined")
  | VObj properties => Returned (default VUndefined (assoc key properties))
  | VArr elements =>
      Returned (if String.eqb key "length" then of_nat (length elements)
                else VUndefined)
  | VStr s =>
      Returned (if String.eqb key "length" then of_nat (String.length s)
                else VUndefined)
  | VBool _ | VNum _ => Returned VUndefined
  end.

(** [v?.key] *)
Definition get_opt (v : value) (key : string) : value :=
  match get v key with
  | Returned x => x
  | Thrown _ => VUndefined
  end.

(** What a condition makes of a value. *)
Definition truthy (v : value) : bool :=
  match v with
  | VUndefined | VNull => false
  | VBool b => b
  | VNum q => negb (Qeq_bool q 0)
  | VStr s => negb (String.eqb s "")
  | VArr _ | VObj _ => true
  end.

(** [v || w] *)
Definition or (v w : value) : value := if truthy v then v else w.

(** [v === n] for a number [n] *)
Definition strict_eq_num (v : value) (n : Q) : bool :=
  match v with
  | VNum q => Qeq_bool q n
  | _ => false
  end.

(** [v === s] for a string [s] *)
Definition strict_eq_str (v : value) (s : string) : bool :=
  match v with
  | VStr t => String.eqb t s
  | _ => false
  end.

(** Comparison with a number converts the value to a number first.  On
    strings, arrays and objects the conversion is the host's
    ([to_number], [None] for [NaN]); every comparison with [NaN] is
    false. *)
Section Comparison.

Variable to_number : value -> option Q.

Definition ToNumber (v : value) : option Q :=
  match v with
  | VUndefined => None
  | VNull => Some 0%Q
  | VBool b => Some (if b then 1%Q else 0%Q)
  | VNum q => Some q
  | VStr _ | VArr _ | VObj _ => to_number v
  end.

(** [v >= n] *)
Definition ge_num (v : value) (n : Q) : bool :=
  match ToNumber v with
  | Some q => Qle_bool n q
  | None => false
  end.

(** [v > n] *)
Definition gt_num (v : value) (n : Q) : bool :=
  match ToNumber v with
  | Some q => negb (Qle_bool q n)
  | None => false
  end.

End Comparison.

(** ** The working directory

    A file holds text; what matters of it here is what
    [JSON.parse(fs.readFileSync(name, 'utf8'))] makes of it: a value, or
    an exception when the file cannot be read or is not JSON. *)

Inductive file : Type :=
| Unparsable
| Json (v : value).

(** The files by name, and whether the directory accepts writes. *)
Record world : Type := World {
  files : gmap string file;
  writable : bool
}.

(** [fs.existsSync(name)] *)
Definition existsSync (w : world) (name : string) : bool :=
  match files w !! name with
  | Some _ => true
  | None => false
  end.

(** [JSON.parse(fs.readFileSync(name, 'utf8'))] *)
Definition readJson (w : world) (name : string) : outcome value :=
  match files w !! name with
  | Some (Json v) => Returned v
  | Some Unparsable => Thrown "SyntaxError: Unexpected token"
  | None => Thrown "ENOENT: no such file or directory"
  end.

(** [fs.writeFileSync(name, JSON.stringify(v))]: the file is replaced. *)
Definition writeJson (w : world) (name : string) (v : value) : outcome world :=
  if writable w
  then Returned (World (<[name := Json v]> (files w)) (writable w))
  else Thrown "EACCES: permission denied".

(** ** Further string primitives *)

(** [s.startsWith(p)] *)
Definition startsWith (s p : string) : bool := String.prefix p s.

(** [s.endsWith(p)] *)
Definition endsWith (s p : string) : bool :=
  (String.length p <=? String.length s)%nat
  && String.eqb (String.substring (String.length s - String.length p)
                                  (String.length p) s) p.

(** [s.charAt(0)]: the first character as a string, or the empty string. *)
Definition charAt0 (s : string) : string :=
  match s with
  | EmptyString => EmptyString
  | String c _ => String c EmptyString
  end.

(** [s.slice(1)]: all but the first character. *)
Definition slice1 (s : string) : string :=
  match s with
  | EmptyString => EmptyString
  | String _ rest => rest
  end.

Definition is_lower (c : ascii) : bool :=
  let n := nat_of_ascii c in ((97 <=? n) && (n <=? 122))%nat.

Definition is_upper (c : ascii) : bool :=
  let n := nat_of_ascii c in ((65 <=? n) && (n <=? 90))%nat.

Definition upper_char (c : ascii) : ascii :=
  if is_lower c then ascii_of_nat (nat_of_ascii c - 32) else c.

Definition lower_char (c : ascii) : ascii :=
  if is_upper c then ascii_of_nat (nat_of_ascii c + 32) else c.

Fixpoint map_chars (f : ascii -> ascii) (s : string) : string :=
  match s with
  | EmptyString => EmptyString
  | String c rest => String (f c) (map_chars f rest)
  end.

(** [s.toUpperCase()] and [s.toLowerCase()], on ASCII text. *)
Definition toUpperCase (s : string) : string := map_chars upper_char s.
Definition toLowerCase (s : string) : string := map_chars lower_char s.

(** ** Loops that may throw, and numbers in templates *)

(** A [for ... of] loop over [l] whose body may throw. *)
Fixpoint for_each {A S : Type} (body : S -> A -> outcome S) (l : list A)
  (s : S) : outcome S :=
  match l with
  | [] => Returned s
  | x :: rest =>
      match body s x with
      | Returned s' => for_each body rest s'
      | Thrown e => Thrown e
      end
  end.

(** A count interpolated in a template string: its decimal digits. *)
Definition count_text (n : nat) : string :=
  NilZero.string_of_uint (Nat.to_uint n).

Definition of_Z (z : Z) : value := VNum (inject_Z z).

(** ** Directory trees and file names

    What [fs.readdirSync] and [fs.statSync] show of a directory: its
    entries in listing order, each a file, a directory with its own
    listing ([None] when it cannot be read), or an entry that cannot be
    examined.  A path is the list of names from the scanned directory
    down. *)

#[warnings="-register-all"]
Inductive entry : Type :=
| File (name : string)
| Directory (name : string) (listing : option (list entry))
| Unstattable (name : string).

(** The offset of the last dot of a name. *)
Fixpoint last_dot (s : string) : option nat :=
  match s with
  | EmptyString => None
  | String c rest =>
      match last_dot rest with
      | Some i => Some (S i)
      | None => if Ascii.eqb c "." then Some O else None
      end
  end.

(** [path.extname(name)] for a name without separators: from the last
    dot on, unless there is no dot, the only dot comes first, or the
    name is [..]. *)
Definition extname (name : string) : string :=
  match last_dot name with
  | None => ""
  | Some O => ""
  | Some i =>
      if String.eqb name ".." then ""
      else String.substring i (String.length name - i) name
  end.

(** [array.includes(x)] on an array of strings. *)
Definition array_includes (l : list string) (x : string) : bool :=
  existsb (String.eqb x) l.

(** The property names every object literal inherits from
    [Object.prototype].  Reading one of them on an object that has no
    property of its own under that name finds the inherited one: a
    function, or the prototype itself for [__proto__]. *)
Definition object_prototype_names : list string :=
  [ "constructor"; "__defineGetter__"; "__defineSetter__";
    "hasOwnProperty"; "__lookupGetter__"; "__lookupSetter__";
    "isPrototypeOf"; "propertyIsEnumerable"; "toString"; "valueOf";
    "__proto__"; "toLocaleString" ].

(** The loop over the entries of a directory: an entry that cannot be
    examined throws, and the [catch] around the loop ends it with what
    was found so far. *)
Fixpoint scan_entries (scan : entry -> list (list string))
  (items : list entry) : list (list string) :=
  match items with
  | [] => []
  | Unstattable _ :: _ => []
  | item :: rest => scan item ++ scan_entries scan rest
  end.

End JS.

(* ================================================================== *)
(** * Severities                                                       *)
(* ================================================================== *)

(** The four severity tags the scripts attach to their findings. *)
Inductive Severity : Type := critical | high | medium | low.

#[export] Instance Severity_eq_dec : EqDecision Severity.
Proof. solve_decision. Defined.

(* ================================================================== *)
(** * The sample utilities                                             *)
(* ================================================================== *)

Module Utils.

(** [/^[^\s@]+@[^\s@]+\.[^\s@]+$/] *)
Definition emailRegex : JS.regex :=
  let part := JS.Plus (JS.Class true [JS.CSpace; JS.CChar "@"]) in
  JS.cat [JS.Bol; part; JS.Char "@"; part; JS.Char "."; part; JS.Eol].

Definition validateEmail (email : string) : bool :=
  JS.test emailRegex email.

(** One line of a calculator's history. *)
Record entry : Type := Entry {
  operation : string;
  a : Z;
  b : Z;
  result : Z
}.

(** The calculator object: its only field is the history array.  Methods
    take the object and give back their return value and the object as
    they leave it; the operands are integers. *)
Record Calculator : Type := { history : list entry }.

Definition new : Calculator := {| history := [] |}.

Definition add (this : Calculator) (a b : Z) : Z * Calculator :=
  let result := a + b in
  (result, {| history := history this ++ [Entry "add" a b result] |}).

Definition subtract (this : Calculator) (a b : Z) : Z * Calculator :=
  let result := a - b in
  (result, {| history := history this ++ [Entry "subtract" a b result] |}).

Definition getHistory (this : Calculator) : list entry := history this.

Definition clearHistory (this : Calculator) : Calculator :=
  {| history := [] |}.


(** [add(a, b)], on arbitrary arguments.  The sum of two numbers is the
    host's ([number_plus]). *)
Definition add_numbers (number_plus : Q -> Q -> Q) (a b : JS.value)
  : JS.outcome JS.value :=
  match a, b with
  | JS.VNum x, JS.VNum y => JS.Returned (JS.VNum (number_plus x y))
  | _, _ => JS.Thrown "Both arguments must be numbers"
  end.

(** [formatString(str)], on an arbitrary argument. *)
Definition formatString (str : JS.value) : JS.outcome string :=
  match str with
  | JS.VStr s =>
      JS.Returned (JS.toUpperCase (JS.charAt0 s)
                   ++ JS.toLowerCase (JS.slice1 s))%string
  | _ => JS.Thrown "Argument must be a string"
  end.

(** A call on a calculator, and a program of such calls run in order. *)
Inductive call : Type :=
| CallAdd (a b : Z)
| CallSubtract (a b : Z)
| CallGetHistory
| CallClearHistory.

Definition step (this : Calculator) (c : call) : Calculator :=
  match c with
  | CallAdd a b => snd (add this a b)
  | CallSubtract a b => snd (subtract this a b)
  | CallGetHistory => this
  | CallClearHistory => clearHistory this
  end.

End Utils.

(* ================================================================== *)
(** * The line computation shared by the three scanners                *)
(* ================================================================== *)

(** All three scanners locate a match the same way: the matched text is
    looked up again with [indexOf], and the lines of what precedes the
    offset found are counted:
    [content.substring(0, content.indexOf(matched)).split('\n').length]. *)
Definition lineNumber (content matched : string) : nat :=
  let index := JS.indexOf content matched in
  length (JS.split JS.newline (JS.substring content 0 index)).

(* ================================================================== *)
(** * scripts/ai-code-review.js                                        *)
(* ================================================================== *)

Module AICodeReviewer.

(** A rule: the pattern as written in the script, the same pattern as a
    syntax tree, a severity and a message. *)
Record rule : Type := Rule {
  rule_source : string;
  rule_pattern : JS.regex;
  rule_severity : Severity;
  rule_message : string
}.

(** An entry of an [issues] array; [pattern] is [pattern.toString()]. *)
Record issue : Type := Issue {
  severity : Severity;
  message : string;
  line : nat;
  pattern : string
}.

Import JS.

(** [this.patterns.securityIssues] *)
Definition securityIssues : list rule :=
  [ Rule "/eval\s*\(/"
         (cat [Lit "eval"; Star ws; Char "("]) high
         "Use of eval() detected - potential security risk";
    Rule "/innerHTML\s*=/"
         (cat [Lit "innerHTML"; Star ws; Char "="]) medium
         "innerHTML assignment detected - potential XSS vulnerability";
    Rule "/document\.write\s*\(/"
         (cat [Lit "document.write"; Star ws; Char "("]) medium
         "document.write() detected - potential security issue";
    Rule "/Math\.random\(\)/"
         (Lit "Math.random()") low
         "Math.random() detected - not cryptographically secure" ].

(** [this.patterns.performanceIssues] *)
Definition performanceIssues : list rule :=
  [ Rule "/for\s*\(\s*.*\s*in\s*.*\s*\)/"
         (cat [Lit "for"; Star ws; Char "("; Star ws; Star Dot; Star ws;
               Lit "in"; Star ws; Star Dot; Star ws; Char ")"]) medium
         "for...in loop detected - consider using for...of or Array methods";
    Rule "/\.\s*getElementById\s*\(/"
         (cat [Char "."; Star ws; Lit "getElementById"; Star ws; Char "("]) low
         "Direct DOM access - consider caching references";
    Rule "/console\.log\s*\(/"
         (cat [Lit "console.log"; Star ws; Char "("]) low
         "console.log() detected - remove in production" ].

(** [this.patterns.codeQuality] *)
Definition codeQuality : list rule :=
  [ Rule "/var\s+\w+\s*=/"
         (cat [Lit "var"; Plus ws; Plus word; Star ws; Char "="]) low
         "var keyword detected - consider using let or const";
    Rule "/==\s*[^=]/"
         (cat [Lit "=="; Star ws; Class true [CChar "="]]) medium
         "== operator detected - consider using === for strict equality";
    Rule "/function\s*\(\s*\)\s*{/"
         (cat [Lit "function"; Star ws; Char "("; Star ws; Char ")"; Star ws;
               Char "{"]) low
         "Empty function detected - verify if needed" ].

(** The inner loop of [checkPatterns]: one rule, every match pushed onto
    [issues]. *)
Definition checkPattern (content : string) (r : rule) (issues : list issue)
  : list issue :=
  fold_left
    (fun issues matched =>
       issues ++ [Issue (rule_severity r) (rule_message r)
                        (lineNumber content matched) (rule_source r)])
    (match_g false (rule_pattern r) content)
    issues.

(** [checkPatterns(content, patterns, issues)]; the array [issues] is
    mutated in place, so it is threaded through. *)
Definition checkPatterns (content : string) (patterns : list rule)
  (issues : list issue) : list issue :=
  fold_left (fun issues r => checkPattern content r issues) patterns issues.

(** [calculateMetrics(content).complexity]: the number of matches of
    [/if|for|while|switch|catch/g]. *)
Definition complexity (content : string) : nat :=
  length (match_g false
            (alt [Lit "if"; Lit "for"; Lit "while"; Lit "switch"; Lit "catch"])
            content).

(** The part of a [fileAnalysis] object the review uses further. *)
Record fileAnalysis : Type := FileAnalysis {
  fa_issues : list issue;
  fa_suggestions : list string;
  fa_positives : list string
}.

Definition push_if {A} (cond : bool) (x : A) (l : list A) : list A :=
  if cond then l ++ [x] else l.

Definition generateSuggestions (content : string) (suggestions : list string)
  : list string :=
  let s := suggestions in
  let s := push_if (includes content "var ")
             "Consider using let/const instead of var for better scoping" s in
  let s := push_if (includes content "function"
                    && negb (includes content "typeof"))
             "Consider adding input validation to functions" s in
  let s := push_if (includes content "try" && negb (includes content "catch"))
             "Consider adding error handling with try-catch blocks" s in
  let s := push_if (includes content "function"
                    && negb (includes content "/**"))
             "Consider adding JSDoc comments for better documentation" s in
  push_if (10 <? complexity content)%nat
    "Consider reducing complexity or adding more tests" s.

Definition identifyPositives (content : string) (positives : list string)
  : list string :=
  let p := positives in
  let p := push_if (includes content "use strict")
             "Uses strict mode - good practice" p in
  let p := push_if (includes content "/**")
             "Includes JSDoc documentation" p in
  let p := push_if (includes content "const "
                    && negb (includes content "var "))
             "Uses modern const/let declarations" p in
  let p := push_if (includes content "async " || includes content "await ")
             "Uses modern async/await syntax" p in
  let p := push_if (includes content "=>")
             "Uses arrow functions - modern syntax" p in
  push_if (complexity content <? 5)%nat
    "Low complexity - easy to maintain" p.

(** [this.reviewResults] *)
Record reviewResults : Type := ReviewResults {
  score : Z;
  issues : list issue;
  suggestions : list string;
  positives : list string
}.

(** The state the constructor leaves. *)
Definition new : reviewResults := ReviewResults 0 [] [] [].

(** [analyzeFile], from the point where the file has been read. *)
Definition analyzeContent (content : string) : fileAnalysis :=
  let issues := checkPatterns content securityIssues [] in
  let issues := checkPatterns content performanceIssues issues in
  let issues := checkPatterns content codeQuality issues in
  FileAnalysis issues (generateSuggestions content [])
               (identifyPositives content []).

Definition analyzeFile (content : string) (this : reviewResults)
  : reviewResults :=
  let fa := analyzeContent content in
  ReviewResults (score this)
                (issues this ++ fa_issues fa)
                (suggestions this ++ fa_suggestions fa)
                (positives this ++ fa_positives fa).

(** The points one issue costs; the [switch] has no case for [critical]. *)
Definition penalty (s : Severity) : Z :=
  match s with
  | high => 10
  | medium => 5
  | low => 2
  | critical => 0
  end.

(** [calculateScore()] *)
Definition calculateScore (this : reviewResults) : reviewResults :=
  let score :=
    fold_left (fun score i => score - penalty (severity i)) (issues this) 100 in
  let score :=
    score + Z.min (Z.of_nat (length (positives this)) * 2) 20 in
  ReviewResults (Z.max 0 (Z.min 100 score))
                (issues this) (suggestions this) (positives this).


(** The object [calculateMetrics] returns. *)
Record metrics : Type := Metrics {
  totalLines : nat;
  codeLines : nat;
  commentLines : nat;
  metrics_complexity : nat;
  commentRatio : Q
}.

(** [line.trim().length > 0] *)
Definition nonEmptyLine (line : string) : bool :=
  (0 <? String.length (trim line))%nat.

(** A line whose trimmed text starts a comment. *)
Definition commentLine (line : string) : bool :=
  startsWith (trim line) "//"
  || startsWith (trim line) "/*"
  || startsWith (trim line) "*".

(** [calculateMetrics(content)].  The ratio is [commentLines.length /
    nonEmptyLines.length || 0]: with no non-empty line the quotient is
    not a number and [|| 0] replaces it. *)
Definition calculateMetrics (content : string) : metrics :=
  let lines := split newline content in
  let nonEmptyLines := List.filter nonEmptyLine lines in
  let commentLines := List.filter commentLine lines in
  Metrics (length lines) (length nonEmptyLines) (length commentLines)
          (complexity content)
          (if (length nonEmptyLines =? 0)%nat then 0%Q
           else (inject_Z (Z.of_nat (length commentLines))
                 / inject_Z (Z.of_nat (length nonEmptyLines)))%Q).

(** The object [groupIssuesBySeverity] fills: it has the keys [high],
    [medium] and [low] and no other. *)
Record grouped : Type := Grouped {
  group_high : list issue;
  group_medium : list issue;
  group_low : list issue
}.

(** [grouped[issue.severity].push(issue)]: under a key the object does
    not have there is nothing to push onto, and the call throws. *)
Definition group_push (g : grouped) (i : issue) : outcome grouped :=
  match severity i with
  | high => Returned (Grouped (group_high g ++ [i]) (group_medium g)
                              (group_low g))
  | medium => Returned (Grouped (group_high g) (group_medium g ++ [i])
                                (group_low g))
  | low => Returned (Grouped (group_high g) (group_medium g)
                             (group_low g ++ [i]))
  | critical =>
      Thrown "TypeError: Cannot read properties of undefined (reading 'push')"
  end.

(** [groupIssuesBySeverity()] *)
Definition groupIssuesBySeverity (this : reviewResults) : outcome grouped :=
  for_each group_push (issues this) (Grouped [] [] []).

(** [performReview], from the contents of the files found and read, up
    to the score. *)
Definition performReview (contents : list string) : reviewResults :=
  calculateScore (fold_left (fun this content => analyzeFile content this)
                            contents new).

Definition extensions : list string := [".js"; ".jsx"; ".ts"; ".tsx"].

Definition skipped_directories : list string :=
  ["node_modules"; ".git"; "coverage"; "dist"].

(** One turn of the loop of [scanDir(dir)] on an entry that can be
    examined.  A directory that is not skipped is scanned by a call of
    its own, which catches what it throws. *)
Fixpoint scanItem (dir : list string) (item : entry) : list (list string) :=
  match item with
  | Unstattable _ => []
  | Directory name listing =>
      if negb (array_includes skipped_directories name)
      then match listing with
           | Some below => scan_entries (scanItem (dir ++ [name])) below
           | None => []
           end
      else []
  | File name =>
      if array_includes extensions (extname name)
         && negb (includes name ".test.")
         && negb (includes name ".spec.")
      then [dir ++ [name]]
      else []
  end.

(** [scanDir(dir)] once the directory has been listed. *)
Definition scanItems (dir : list string) (items : list entry)
  : list (list string) :=
  scan_entries (scanItem dir) items.

(** [findFilesToReview(targetPath)], on the listing of the target. *)
Definition findFilesToReview (target : option (list entry))
  : list (list string) :=
  match target with
  | Some items => scanItems [] items
  | None => []
  end.
End AICodeReviewer.

(* ================================================================== *)
(** * The performance analyzer                                         *)
(* ================================================================== *)

Module PerformanceAnalyzer.

Import JS.

Record rule : Type := Rule {
  rule_pattern : regex;
  rule_message : string
}.

Definition quote : regex := Class false [CChar double_quote; CChar "'"].

(** [this.performancePatterns], in the order [Object.entries] lists it. *)
Definition performancePatterns : list (Severity * list rule) :=
  [ (critical,
     [ (* /for\s*\(\s*.*\s*in\s*.*\s*\)/ *)
       Rule (cat [Lit "for"; Star ws; Char "("; Star ws; Star Dot; Star ws;
                  Lit "in"; Star ws; Star Dot; Star ws; Char ")"])
            "for...in loop on arrays - use for...of or Array methods";
       (* /\.length\s*===\s*\d+/ *)
       Rule (cat [Lit ".length"; Star ws; Lit "==="; Star ws; Plus digit])
            "Length comparison in loop condition - cache length first";
       (* /innerHTML\s*\+=/ *)
       Rule (cat [Lit "innerHTML"; Star ws; Lit "+="])
            "innerHTML concatenation - use DOM methods or fragments";
       (* /document\.write\s*\(/ *)
       Rule (cat [Lit "document.write"; Star ws; Char "("])
            "document.write() - blocks page rendering" ]);
    (high,
     [ (* /setTimeout\s*\(\s*[\"']0[\"']/ *)
       Rule (cat [Lit "setTimeout"; Star ws; Char "("; Star ws;
                  quote; Char "0"; quote])
            "setTimeout(0) - use requestAnimationFrame instead";
       (* /setInterval\s*\(/ *)
       Rule (cat [Lit "setInterval"; Star ws; Char "("])
            "setInterval detected - ensure proper cleanup";
       (* /\.\s*getElementById\s*\(/ *)
       Rule (cat [Char "."; Star ws; Lit "getElementById"; Star ws; Char "("])
            "Repeated DOM queries - cache references";
       (* /new\s+Date\(\)\.getTime\(\)/ *)
       Rule (cat [Lit "new"; Plus ws; Lit "Date().getTime()"])
            "Date.now() is more efficient than new Date().getTime()" ]);
    (medium,
     [ (* /console\.log\s*\(/ *)
       Rule (cat [Lit "console.log"; Star ws; Char "("])
            "console.log in production - remove or use conditional logging";
       (* /\.\s*style\s*\./ *)
       Rule (cat [Char "."; Star ws; Lit "style"; Star ws; Char "."])
            "Direct style manipulation - use CSS classes";
       (* /Math\.floor\(Math\.random\(\)/ *)
       Rule (Lit "Math.floor(Math.random()")
            "Math.random() for integers - use bitwise operations for better performance" ]) ].

Record issue : Type := Issue {
  severity : Severity;
  message : string;
  line : nat;
  code : string
}.

Record optimization : Type := Optimization {
  opt_type : string;
  opt_message : string
}.

Record fileAnalysis : Type := FileAnalysis {
  fa_issues : list issue;
  fa_optimizations : list optimization
}.

Definition push_if {A} (cond : bool) (x : A) (l : list A) : list A :=
  if cond then l ++ [x] else l.

Definition generateOptimizations (content : string) (fa : fileAnalysis)
  : fileAnalysis :=
  let o := fa_optimizations fa in
  let o := push_if (includes content "import "
                    && (1000 <? String.length content)%nat)
             (Optimization "lazy-loading"
                "Consider dynamic imports for better initial load performance")
             o in
  let o := push_if (includes content "addEventListener"
                    && includes content "input")
             (Optimization "debouncing"
                "Consider debouncing input event handlers for better performance")
             o in
  let o := if includes content "function" && includes content "return"
           then
             let functionCount := length (match_g false (Lit "function") content) in
             push_if (3 <? functionCount)%nat
               (Optimization "memoization"
                  "Consider memoizing expensive function calls") o
           else o in
  let o := push_if (includes content "map(" && includes content "Array")
             (Optimization "virtual-scrolling"
                "Consider virtual scrolling for large lists") o in
  FileAnalysis (fa_issues fa) o.

(** The innermost loop of [checkPerformancePatterns]: one rule. *)
Definition checkPattern (content : string) (sev : Severity) (r : rule)
  (issues : list issue) : list issue :=
  fold_left
    (fun issues matched =>
       issues ++ [Issue sev (rule_message r) (lineNumber content matched)
                        (trim matched)])
    (match_g false (rule_pattern r) content)
    issues.

Definition scan (content : string) (table : list (Severity * list rule))
  (issues : list issue) : list issue :=
  fold_left
    (fun issues '(sev, patterns) =>
       fold_left (fun issues r => checkPattern content sev r issues)
                 patterns issues)
    table issues.

(** [checkPerformancePatterns(content, fileAnalysis)] *)
Definition checkPerformancePatterns (content : string) (fa : fileAnalysis)
  : fileAnalysis :=
  let fa := FileAnalysis (scan content performancePatterns (fa_issues fa))
                         (fa_optimizations fa) in
  generateOptimizations content fa.

(** [this.results], without the per-file metrics and the summary, which
    the score does not read. *)
Record results : Type := Results {
  score : Z;
  issues : list issue;
  optimizations : list optimization
}.

Definition new : results := Results 0 [] [].

(** [analyzeFile], from the point where the file has been read. *)
Definition analyzeFile (content : string) (this : results) : results :=
  let fa := checkPerformancePatterns content (FileAnalysis [] []) in
  Results (score this)
          (issues this ++ fa_issues fa)
          (optimizations this ++ fa_optimizations fa).

(** The points one issue costs; the [switch] has no case for [low]. *)
Definition penalty (s : Severity) : Z :=
  match s with
  | critical => 15
  | high => 8
  | medium => 3
  | low => 0
  end.

(** [calculateScore()] *)
Definition calculateScore (this : results) : results :=
  let score :=
    fold_left (fun score i => score - penalty (severity i)) (issues this) 100 in
  let score :=
    score + Z.min (Z.of_nat (length (optimizations this)) * 2) 15 in
  Results (Z.max 0 (Z.min 100 score)) (issues this) (optimizations this).


(** The object [calculateFileMetrics] returns. *)
Record fileMetrics : Type := FileMetrics {
  totalLines : nat;
  functions : nat;
  loops : nat;
  domQueries : nat;
  complexity : nat
}.

Definition count (r : regex) (content : string) : nat :=
  length (match_g false r content).

(** [calculateFileMetrics(content)] *)
Definition calculateFileMetrics (content : string) : fileMetrics :=
  let lines := split newline content in
  (* /function\s+\w+|=>\s*{|\w+\s*:\s*function/g *)
  let functions :=
    count (alt [cat [Lit "function"; Plus ws; Plus word];
                cat [Lit "=>"; Star ws; Char "{"];
                cat [Plus word; Star ws; Char ":"; Star ws; Lit "function"]])
          content in
  (* /for\s*\(|while\s*\(|\.forEach/g *)
  let loops :=
    count (alt [cat [Lit "for"; Star ws; Char "("];
                cat [Lit "while"; Star ws; Char "("];
                Lit ".forEach"])
          content in
  (* /\.getElementById|\.querySelector|\.querySelectorAll/g *)
  let domQueries :=
    count (alt [Lit ".getElementById"; Lit ".querySelector";
                Lit ".querySelectorAll"])
          content in
  FileMetrics (length lines) functions loops domQueries
              (functions + loops * 2 + domQueries).

(** [metrics.reduce((sum, m) => sum + m.field, 0)] *)
Definition sum_of (field : fileMetrics -> nat) (ms : list fileMetrics) : nat :=
  fold_left (fun sum m => (sum + field m)%nat) ms O.

(** The object [calculateOverallMetrics] returns. *)
Record overallMetrics : Type := OverallMetrics {
  overall_totalLines : nat;
  totalFunctions : nat;
  totalLoops : nat;
  totalDomQueries : nat;
  averageComplexity : Q
}.

(** [calculateOverallMetrics()], on [this.results.metrics], which the
    record of results above leaves out and which is passed alongside. *)
Definition calculateOverallMetrics (ms : list fileMetrics) : overallMetrics :=
  let totalLines := sum_of totalLines ms in
  let totalFunctions := sum_of functions ms in
  let totalLoops := sum_of loops ms in
  let totalDomQueries := sum_of domQueries ms in
  OverallMetrics totalLines totalFunctions totalLoops totalDomQueries
    (if (0 <? totalLines)%nat
     then (inject_Z (Z.of_nat (totalFunctions + totalLoops * 2
                               + totalDomQueries))
           / inject_Z (Z.of_nat (length ms)))%Q
     else 0%Q).

(** The object [groupIssuesBySeverity] fills: it has the keys
    [critical], [high] and [medium] and no other. *)
Record grouped : Type := Grouped {
  group_critical : list issue;
  group_high : list issue;
  group_medium : list issue
}.

(** [grouped[issue.severity].push(issue)] *)
Definition group_push (g : grouped) (i : issue) : outcome grouped :=
  match severity i with
  | critical => Returned (Grouped (group_critical g ++ [i]) (group_high g)
                                  (group_medium g))
  | high => Returned (Grouped (group_critical g) (group_high g ++ [i])
                              (group_medium g))
  | medium => Returned (Grouped (group_critical g) (group_high g)
                                (group_medium g ++ [i]))
  | low =>
      Thrown "TypeError: Cannot read properties of undefined (reading 'push')"
  end.

(** [groupIssuesBySeverity()] *)
Definition groupIssuesBySeverity (this : results) : outcome grouped :=
  for_each group_push (issues this) (Grouped [] [] []).

(** [generateRecommendations()] *)
Definition generateRecommendations (ms : list fileMetrics) (this : results)
  : list string :=
  let r := [] in
  let r := push_if
             (0 <? length (List.filter
                             (fun i => bool_decide (severity i = critical))
                             (issues this)))%nat
             "🚨 Address critical performance issues immediately - they impact user experience"
             r in
  let r := push_if (20 <? sum_of domQueries ms)%nat
             "🔍 High DOM query count - consider caching references" r in
  let r := push_if (10 <? sum_of loops ms)%nat
             "⚡ Optimize loops - consider using built-in methods or reducing iterations"
             r in
  push_if (score this <? 70)%Z
    "📈 Overall performance score low - focus on critical and high-priority issues"
    r.

Definition severity_name (s : Severity) : string :=
  match s with
  | critical => "critical"
  | high => "high"
  | medium => "medium"
  | low => "low"
  end.

Definition issue_value (i : issue) : value :=
  VObj [ ("severity", VStr (severity_name (severity i)));
         ("message", VStr (message i));
         ("line", of_nat (line i));
         ("code", VStr (code i)) ].

Definition overallMetrics_value (m : overallMetrics) : value :=
  VObj [ ("totalLines", of_nat (overall_totalLines m));
         ("totalFunctions", of_nat (totalFunctions m));
         ("totalLoops", of_nat (totalLoops m));
         ("totalDomQueries", of_nat (totalDomQueries m));
         ("averageComplexity", VNum (averageComplexity m)) ].

(** The object [generateReport] serialises, without its time stamp. *)
Definition report (ms : list fileMetrics) (this : results) : outcome value :=
  g ← groupIssuesBySeverity this;
  mret (VObj [ ("score", of_Z (score this));
               ("totalIssues", of_nat (length (issues this)));
               ("totalOptimizations", of_nat (length (optimizations this)));
               ("issuesBySeverity",
                VObj [ ("critical", VArr (map issue_value (group_critical g)));
                       ("high", VArr (map issue_value (group_high g)));
                       ("medium", VArr (map issue_value (group_medium g))) ]);
               ("metrics",
                overallMetrics_value (calculateOverallMetrics ms));
               ("recommendations",
                VArr (map VStr (generateRecommendations ms this))) ]).

(** [generateReport()] *)
Definition generateReport (ms : list fileMetrics) (w : world) (this : results)
  : outcome world :=
  r ← report ms this;
  writeJson w "performance-analysis-results.json" r.

(** [analyze(targetPath)], from the contents of the files found and
    read: every file is analyzed, the score computed and the report
    written.  An exception is logged and thrown again. *)
Definition analyze (contents : list string) (w : world)
  : outcome results * world :=
  let this := fold_left (fun this content => analyzeFile content this)
                        contents new in
  let ms := map calculateFileMetrics contents in
  let this := calculateScore this in
  match generateReport ms w this with
  | Returned w' => (Returned this, w')
  | Thrown error => (Thrown error, w)
  end.

Definition extensions : list string := [".js"; ".jsx"; ".ts"; ".tsx"].

Definition skipped_directories : list string :=
  ["node_modules"; ".git"; "coverage"; "dist"].

(** One turn of the loop of [scanDir(dir)] on an entry that can be
    examined.  Here a skipped directory falls through to the test on
    the extension, like a file. *)
Fixpoint scanItem (dir : list string) (item : entry) : list (list string) :=
  match item with
  | Unstattable _ => []
  | Directory name listing =>
      if negb (array_includes skipped_directories name)
      then match listing with
           | Some below => scan_entries (scanItem (dir ++ [name])) below
           | None => []
           end
      else if array_includes extensions (extname name)
           then [dir ++ [name]]
           else []
  | File name =>
      if array_includes extensions (extname name)
      then [dir ++ [name]]
      else []
  end.

(** [scanDir(dir)] once the directory has been listed. *)
Definition scanItems (dir : list string) (items : list entry)
  : list (list string) :=
  scan_entries (scanItem dir) items.

(** [findFiles(targetPath)], on the listing of the target. *)
Definition findFiles (target : option (list entry))
  : list (list string) :=
  match target with
  | Some items => scanItems [] items
  | None => []
  end.
End PerformanceAnalyzer.

(* ================================================================== *)
(** * scripts/code-style-review.js                                     *)
(* ================================================================== *)

Module CodeStyleReviewer.

Import JS.

Record rule : Type := Rule {
  rule_pattern : regex;
  rule_message : string;
  rule_severity : Severity;
  rule_autoFixable : bool
}.

Definition not_char (c : ascii) : regex := Class true [CChar c].

(** [this.stylePatterns], in the order [Object.entries] lists it. *)
Definition stylePatterns : list (string * list rule) :=
  [ ("formatting",
     [ (* /^\s*\t/m *)
       Rule (cat [Bol; Star ws; Char tab])
            "Use spaces instead of tabs for indentation" medium true;
       (* /;\s*\n\s*}/m *)
       Rule (cat [Char ";"; Star ws; Char newline; Star ws; Char "}"])
            "Unnecessary semicolon before closing brace" low true;
       (* /\s+\n\s*\n\s*\n/m *)
       Rule (cat [Plus ws; Char newline; Star ws; Char newline; Star ws;
                  Char newline])
            "Too many consecutive blank lines" low true ]);
    ("naming",
     [ (* /\b(a|an|the|is|has|have)\s+[a-z][A-Z]/ *)
       Rule (cat [WordBoundary;
                  alt [Lit "a"; Lit "an"; Lit "the"; Lit "is"; Lit "has";
                       Lit "have"];
                  Plus ws; Class false [CRange "a" "z"];
                  Class false [CRange "A" "Z"]])
            "Variable names should follow camelCase convention" medium false;
       (* /function\s+[A-Z]/ *)
       Rule (cat [Lit "function"; Plus ws; Class false [CRange "A" "Z"]])
            "Function names should use camelCase, not PascalCase" medium false;
       (* /const\s+[A-Z]/ *)
       Rule (cat [Lit "const"; Plus ws; Class false [CRange "A" "Z"]])
            "Constants should use UPPER_SNAKE_CASE" low false ]);
    ("structure",
     [ (* /if\s*\([^)]+\)\s*[^{]/ *)
       Rule (cat [Lit "if"; Star ws; Char "("; Plus (not_char ")"); Char ")";
                  Star ws; not_char "{"])
            "Use braces for single-line if statements" medium true;
       (* /for\s*\([^)]+\)\s*[^{]/ *)
       Rule (cat [Lit "for"; Star ws; Char "("; Plus (not_char ")"); Char ")";
                  Star ws; not_char "{"])
            "Use braces for single-line for loops" medium true;
       (* /while\s*\([^)]+\)\s*[^{]/ *)
       Rule (cat [Lit "while"; Star ws; Char "("; Plus (not_char ")");
                  Char ")"; Star ws; not_char "{"])
            "Use braces for single-line while loops" medium true ]);
    ("bestPractices",
     [ (* /var\s+\w+/ *)
       Rule (cat [Lit "var"; Plus ws; Plus word])
            "Use let or const instead of var" medium true;
       (* /==\s*[^=]/ *)
       Rule (cat [Lit "=="; Star ws; not_char "="])
            "Use === for strict equality comparison" medium true;
       (* /!=\s*[^=]/ *)
       Rule (cat [Lit "!="; Star ws; not_char "="])
            "Use !== for strict inequality comparison" medium true;
       (* /function\s*\(\s*\)\s*{[\s]*}/ *)
       Rule (cat [Lit "function"; Star ws; Char "("; Star ws; Char ")";
                  Star ws; Char "{"; Star ws; Char "}"])
            "Empty function should have a comment explaining why" low false ])
  ].

Record violation : Type := Violation {
  category : string;
  severity : Severity;
  message : string;
  autoFixable : bool;
  line : nat;
  code : string
}.

(** The innermost loop of [checkStylePatterns]: one rule, compiled with
    the flags [gm]. *)
Definition checkPattern (content : string) (cat : string) (r : rule)
  (violations : list violation) : list violation :=
  fold_left
    (fun violations matched =>
       violations ++ [Violation cat (rule_severity r) (rule_message r)
                                (rule_autoFixable r)
                                (lineNumber content matched) (trim matched)])
    (match_g true (rule_pattern r) content)
    violations.

Definition scan (content : string) (table : list (string * list rule))
  (violations : list violation) : list violation :=
  fold_left
    (fun violations '(cat, patterns) =>
       fold_left (fun violations r => checkPattern content cat r violations)
                 patterns violations)
    table violations.

(** [checkStylePatterns(content, fileAnalysis)], on the violations array
    of the file analysis. *)
Definition checkStylePatterns (content : string) (violations : list violation)
  : list violation :=
  scan content stylePatterns violations.

(** [this.results], without the suggestions and the summary, which the
    score does not read.  [metrics] is an object used as a map from
    property names to numbers. *)
Record results : Type := Results {
  score : Z;
  violations : list violation;
  metrics : gmap string Q
}.

Definition new : results := Results 0 [] ∅.

(** [reviewFile], from the point where the file has been read. *)
Definition reviewFile (content : string) (this : results) : results :=
  Results (score this)
          (violations this ++ checkStylePatterns content [])
          (metrics this).

(** [this.results.metrics.key || 0] *)
Definition metric (this : results) (key : string) : Q :=
  default 0%Q (metrics this !! key).

(** [calculateModernizationBonus()] *)
Definition calculateModernizationBonus (this : results) : Z :=
  let totalConst := metric this "const" in
  let totalLet := metric this "let" in
  let totalVar := metric this "var" in
  let totalFunctions := metric this "functions" in
  let totalArrowFunctions := metric this "arrowFunctions" in
  let modernizationRatio :=
    ((totalConst + totalLet + totalArrowFunctions) /
     (totalConst + totalLet + totalVar + totalFunctions + 1))%Q in
  Qfloor (modernizationRatio * 10)%Q.

(** The points one violation costs; the [switch] has no case for
    [critical]. *)
Definition penalty (s : Severity) : Z :=
  match s with
  | high => 10
  | medium => 5
  | low => 2
  | critical => 0
  end.

(** [calculateScore()] *)
Definition calculateScore (this : results) : results :=
  let score :=
    fold_left (fun score v => score - penalty (severity v))
              (violations this) 100 in
  let modernFiles := calculateModernizationBonus this in
  let score := score + Z.min (modernFiles * 5) 20 in
  Results (Z.max 0 (Z.min 100 score)) (violations this) (metrics this).

(** The counts [calculateFileMetrics] takes from one file that
    [calculateOverallMetrics] adds up. *)
Record fileMetrics : Type := FileMetrics {
  totalLines : nat;
  functions : nat;
  arrowFunctions : nat;
  constDeclarations : nat;
  letDeclarations : nat;
  varDeclarations : nat
}.

Definition count (r : regex) (content : string) : nat :=
  length (match_g false r content).

Definition calculateFileMetrics (content : string) : fileMetrics :=
  FileMetrics
    (length (split newline content))
    (* /function\s+\w+|=>\s*{|\w+\s*:\s*function/g *)
    (count (alt [cat [Lit "function"; Plus ws; Plus word];
                 cat [Lit "=>"; Star ws; Char "{"];
                 cat [Plus word; Star ws; Char ":"; Star ws; Lit "function"]])
           content)
    (* /=>\s*{/g *)
    (count (cat [Lit "=>"; Star ws; Char "{"]) content)
    (* /const\s+/g, /let\s+/g, /var\s+/g *)
    (count (cat [Lit "const"; Plus ws]) content)
    (count (cat [Lit "let"; Plus ws]) content)
    (count (cat [Lit "var"; Plus ws]) content).

Definition sum_of (f : fileMetrics -> nat) (ms : list fileMetrics) : Q :=
  inject_Z (Z.of_nat (fold_left (fun total m => (total + f m)%nat) ms O)).

(** [calculateOverallMetrics()], given the contents of the files it could
    read: [metrics] is replaced by a fresh object. *)
Definition calculateOverallMetrics (contents : list string) (this : results)
  : results :=
  let ms := map calculateFileMetrics contents in
  let totalLines := sum_of totalLines ms in
  let totalFunctions := sum_of functions ms in
  let totalConst := sum_of constDeclarations ms in
  let totalLet := sum_of letDeclarations ms in
  let totalVar := sum_of varDeclarations ms in
  let totalArrowFunctions := sum_of arrowFunctions ms in
  Results (score this) (violations this)
    (<["totalLines" := totalLines]>
     (<["totalFunctions" := totalFunctions]>
      (<["totalConst" := totalConst]>
       (<["totalLet" := totalLet]>
        (<["totalVar" := totalVar]>
         (<["totalArrowFunctions" := totalArrowFunctions]>
          (<["modernizationScore" :=
               ((totalConst + totalLet + totalArrowFunctions) /
                (totalConst + totalLet + totalVar + totalFunctions + 1))%Q]>
           ∅))))))).


(** [grouped[violation.category]], an object used as a map whose keys
    are the categories of the rule table, kept in insertion order. *)
Fixpoint category_group (key : string)
  (grouped : list (string * list violation)) : option (list violation) :=
  match grouped with
  | [] => None
  | (k, vs) :: rest =>
      if String.eqb k key then Some vs else category_group key rest
  end.

(** [grouped[key].push(v)] on a key that is there. *)
Fixpoint category_push (key : string) (v : violation)
  (grouped : list (string * list violation))
  : list (string * list violation) :=
  match grouped with
  | [] => []
  | (k, vs) :: rest =>
      if String.eqb k key then (k, vs ++ [v]) :: rest
      else (k, vs) :: category_push key v rest
  end.

(** One turn of the loop of [groupViolationsByCategory()].  A category
    met for the first time gets an empty array, then the violation is
    pushed.  [grouped] starts as [{}]: under a category that names an
    inherited property, [grouped[category]] is that property, which is
    truthy, so no array is made, and calling [push] on it throws. *)
Definition group_by_category (grouped : list (string * list violation))
  (v : violation) : outcome (list (string * list violation)) :=
  match category_group (category v) grouped with
  | Some _ => Returned (category_push (category v) v grouped)
  | None =>
      if array_includes object_prototype_names (category v)
      then Thrown
             "TypeError: grouped[violation.category].push is not a function"
      else Returned (category_push (category v) v
                                   (grouped ++ [(category v, [])]))
  end.

(** [groupViolationsByCategory()] *)
Definition groupViolationsByCategory (this : results)
  : outcome (list (string * list violation)) :=
  for_each group_by_category (violations this) [].

(** The object [groupViolationsBySeverity] fills: it has the keys
    [high], [medium] and [low] and no other. *)
Record grouped : Type := Grouped {
  group_high : list violation;
  group_medium : list violation;
  group_low : list violation
}.

(** [grouped[violation.severity].push(violation)] *)
Definition group_push (g : grouped) (v : violation) : outcome grouped :=
  match severity v with
  | high => Returned (Grouped (group_high g ++ [v]) (group_medium g)
                              (group_low g))
  | medium => Returned (Grouped (group_high g) (group_medium g ++ [v])
                                (group_low g))
  | low => Returned (Grouped (group_high g) (group_medium g)
                             (group_low g ++ [v]))
  | critical =>
      Thrown "TypeError: Cannot read properties of undefined (reading 'push')"
  end.

(** [groupViolationsBySeverity()] *)
Definition groupViolationsBySeverity (this : results) : outcome grouped :=
  for_each group_push (violations this) (Grouped [] [] []).

Record recommendation : Type := Recommendation {
  priority : string;
  recommendation_message : string
}.

Definition push_if {A} (cond : bool) (x : A) (l : list A) : list A :=
  if cond then l ++ [x] else l.

(** [generateRecommendations()].  A missing [modernizationScore]
    compares false with any number. *)
Definition generateRecommendations (this : results)
  : outcome (list recommendation) :=
  if (length (violations this) =? 0)%nat
  then Returned [Recommendation "info"
                   "🎉 Excellent code style! No violations detected."]
  else
    let r := [] in
    let autoFixableCount :=
      length (List.filter autoFixable (violations this)) in
    let r := push_if (0 <? autoFixableCount)%nat
               (Recommendation "high"
                  ("🔧 " ++ count_text autoFixableCount
                   ++ " violations can be auto-fixed with lint:fix")%string)
               r in
    let highSeverityCount :=
      length (List.filter (fun v => bool_decide (severity v = high))
                          (violations this)) in
    let r := push_if (0 <? highSeverityCount)%nat
               (Recommendation "critical"
                  ("🚨 " ++ count_text highSeverityCount
                   ++ " high-severity violations need immediate attention")%string)
               r in
    let r := push_if
               (match metrics this !! "modernizationScore" with
                | Some modernizationScore =>
                    negb (Qle_bool (1 # 2) modernizationScore)
                | None => false
                end)
               (Recommendation "medium"
                  "🔄 Consider modernizing code with ES6+ features (const/let, arrow functions)")
               r in
    categoryGroups ← groupViolationsByCategory this;
    mret (push_if
            (match category_group "naming" categoryGroups with
             | Some naming => (3 <? length naming)%nat
             | None => false
             end)
            (Recommendation "medium"
               "📝 Establish and enforce consistent naming conventions")
            r).

Definition severity_name (s : Severity) : string :=
  match s with
  | critical => "critical"
  | high => "high"
  | medium => "medium"
  | low => "low"
  end.

Definition violation_value (v : violation) : value :=
  VObj [ ("category", VStr (category v));
         ("severity", VStr (severity_name (severity v)));
         ("message", VStr (message v));
         ("autoFixable", VBool (autoFixable v));
         ("line", of_nat (line v));
         ("code", VStr (code v)) ].

Definition recommendation_value (r : recommendation) : value :=
  VObj [ ("priority", VStr (priority r));
         ("message", VStr (recommendation_message r)) ].

(** The object [generateReport] serialises, without its time stamp.
    The suggestions are not part of the results above; their number is
    passed alongside. *)
Definition report (totalSuggestions : nat) (this : results) : outcome value :=
  byCategory ← groupViolationsByCategory this;
  bySeverity ← groupViolationsBySeverity this;
  recommendations ← generateRecommendations this;
  mret (VObj [ ("score", of_Z (score this));
               ("totalViolations", of_nat (length (violations this)));
               ("totalSuggestions", of_nat totalSuggestions);
               ("violationsByCategory",
                VObj (map (fun '(k, vs) => (k, VArr (map violation_value vs)))
                          byCategory));
               ("violationsBySeverity",
                VObj [ ("high", VArr (map violation_value (group_high bySeverity)));
                       ("medium",
                        VArr (map violation_value (group_medium bySeverity)));
                       ("low", VArr (map violation_value (group_low bySeverity))) ]);
               ("autoFixableViolations",
                of_nat (length (List.filter autoFixable (violations this))));
               ("recommendations",
                VArr (map recommendation_value recommendations))
             ]).

(** The object [generateStyleGuideSuggestions] serialises, without its
    time stamp. *)
Definition styleGuide : value :=
  VObj [ ("recommendations",
          VObj [ ("indentation", VStr "Use 2 spaces for indentation");
                 ("naming",
                  VObj [ ("variables",
                          VStr "camelCase for variables and functions");
                         ("constants",
                          VStr "UPPER_SNAKE_CASE for constants");
                         ("classes",
                          VStr "PascalCase for classes and constructors") ]);
                 ("structure",
                  VStr "Always use braces for control statements");
                 ("comparisons",
                  VStr "Use === and !== for strict comparison");
                 ("declarations", VStr "Prefer const and let over var") ]);
         ("enforcements",
          VArr [ VStr "Configure ESLint with appropriate rules";
                 VStr "Set up pre-commit hooks for style checking";
                 VStr "Use Prettier for consistent formatting";
                 VStr "Enable auto-fix on save in IDE" ]) ].

(** [generateReport()]: the report object is built, the overall metrics
    are stored, the report is written and then the style guide.
    [sources] are the contents of the files [calculateOverallMetrics]
    finds and reads. *)
Definition generateReport (sources : list string) (totalSuggestions : nat)
  (w : world) (this : results) : outcome (results * world) :=
  r ← report totalSuggestions this;
  let this := calculateOverallMetrics sources this in
  w ← writeJson w "code-style-review-results.json" r;
  w ← writeJson w "style-guide-suggestions.json" styleGuide;
  mret (this, w).

(** [review(targetPath)], from the contents of the files found and read:
    every file is reviewed, the score computed and the report written.
    An exception is logged and thrown again. *)
Definition review (contents sources : list string) (totalSuggestions : nat)
  (w : world) (this : results) : outcome results * world :=
  let this := fold_left (fun this content => reviewFile content this)
                        contents this in
  let this := calculateScore this in
  match generateReport sources totalSuggestions w this with
  | Returned (this', w') => (Returned this', w')
  | Thrown error => (Thrown error, w)
  end.

Definition extensions : list string := [".js"; ".jsx"; ".ts"; ".tsx"].

Definition skipped_directories : list string :=
  ["node_modules"; ".git"; "coverage"; "dist"].

(** One turn of the loop of [scanDir(dir)] on an entry that can be
    examined.  Here a skipped directory falls through to the test on
    the extension, like a file. *)
Fixpoint scanItem (dir : list string) (item : entry) : list (list string) :=
  match item with
  | Unstattable _ => []
  | Directory name listing =>
      if negb (array_includes skipped_directories name)
      then match listing with
           | Some below => scan_entries (scanItem (dir ++ [name])) below
           | None => []
           end
      else if array_includes extensions (extname name)
           then [dir ++ [name]]
           else []
  | File name =>
      if array_includes extensions (extname name)
      then [dir ++ [name]]
      else []
  end.

(** [scanDir(dir)] once the directory has been listed. *)
Definition scanItems (dir : list string) (items : list entry)
  : list (list string) :=
  scan_entries (scanItem dir) items.

(** [findFilesToReview(targetPath)], on the listing of the target. *)
Definition findFilesToReview (target : option (list entry))
  : list (list string) :=
  match target with
  | Some items => scanItems [] items
  | None => []
  end.
End CodeStyleReviewer.

(* ================================================================== *)
(** * The merge readiness assessor                                     *)
(* ================================================================== *)

Module MergeReadinessAssessor.

Import JS.

(** An entry of [blockers] or [warnings].  The display message, built
    by interpolation, is left out: nothing reads it. *)
Record finding : Type := Finding {
  type : string;
  severity : Severity
}.

(** [this.assessment], without the informational [checks] object. *)
Record assessment : Type := Assessment {
  ready : bool;
  score : Z;
  blockers : list finding;
  warnings : list finding
}.

(** The state the constructor leaves. *)
Definition new : assessment := Assessment false 0 [] [].

Definition push_blocker (cond : bool) (f : finding) (this : assessment)
  : assessment :=
  if cond
  then Assessment (ready this) (score this) (blockers this ++ [f])
                  (warnings this)
  else this.

Definition push_warning (cond : bool) (f : finding) (this : assessment)
  : assessment :=
  if cond
  then Assessment (ready this) (score this) (blockers this)
                  (warnings this ++ [f])
  else this.

(** *** The readers *)

Record testResults : Type := TestResults {
  successRate : value;
  coverage : value;
  failedTests : value;
  skippedTests : value;
  lastRun : value
}.

Record codeQualityResults : Type := CodeQualityResults {
  cq_criticalIssues : value;
  cq_highIssues : value;
  styleScore : value;
  lintErrors : value
}.

Record securityResults : Type := SecurityResults {
  criticalVulnerabilities : value;
  highVulnerabilities : value;
  securityScore : value;
  dependencyIssues : value
}.

Record performanceResults : Type := PerformanceResults {
  perf_criticalIssues : value;
  performanceScore : value;
  regressions : value
}.

Record documentationResults : Type := DocumentationResults {
  readmeUpdated : value;
  apiDocsUpdated : value;
  changelogUpdated : value;
  breakingChanges : value
}.

Record approvalStatus : Type := ApprovalStatus {
  hasRequiredApprovals : value;
  currentApprovals : value;
  requiredApprovals : value;
  requestedChanges : value;
  unresolvedDiscussions : value;
  ciStatus : value
}.

Definition zero : value := VNum 0.

(** A reader's [try] block gives [Some] record when it reaches its
    [return], [None] when the file does not exist, and throws when
    reading, parsing or a property access does. The [catch] is empty, so
    in the last two cases control reaches the defaults below the block. *)
Definition or_defaults {A} (body : outcome (option A)) (defaults : A) : A :=
  match body with
  | Returned (Some r) => r
  | Returned None | Thrown _ => defaults
  end.

(** [report.k1?.k2 || 0] *)
Definition field2 (report : value) (k1 k2 : string) : outcome value :=
  v ← get report k1;
  mret (or (get_opt v k2) zero).

(** [report.k1?.k2?.k3 || 0] *)
Definition field3 (report : value) (k1 k2 k3 : string) : outcome value :=
  v ← get report k1;
  mret (or (get_opt (get_opt v k2) k3) zero).

(** [report.k || 0] *)
Definition field1 (report : value) (k : string) : outcome value :=
  v ← get report k;
  mret (or v zero).

Definition readTestResults (w : world) : testResults :=
  or_defaults
    (if existsSync w "test-analysis-report.json" then
       report ← readJson w "test-analysis-report.json";
       successRate ← field2 report "summary" "successRate";
       coverage ← field2 report "summary" "overallCoverage";
       failedTests ← field2 report "summary" "failedTests";
       skippedTests ← field2 report "summary" "skippedTests";
       lastRun ← get report "timestamp";
       mret (Some (TestResults successRate coverage failedTests skippedTests
                               lastRun))
     else mret None)
    (TestResults zero zero zero zero VNull).

Definition readCodeQualityResults (w : world) : codeQualityResults :=
  or_defaults
    (if existsSync w "code-style-review-results.json" then
       report ← readJson w "code-style-review-results.json";
       criticalIssues ← field3 report "violationsBySeverity" "high" "length";
       highIssues ← field3 report "violationsBySeverity" "medium" "length";
       styleScore ← field1 report "score";
       mret (Some (CodeQualityResults criticalIssues highIssues styleScore
                                      zero))
     else mret None)
    (CodeQualityResults zero zero zero zero).

Definition readSecurityResults (w : world) : securityResults :=
  or_defaults
    (if existsSync w "security-scan-results.json" then
       report ← readJson w "security-scan-results.json";
       criticalVulnerabilities ←
         field3 report "vulnerabilitiesBySeverity" "critical" "length";
       highVulnerabilities ←
         field3 report "vulnerabilitiesBySeverity" "high" "length";
       securityScore ← field1 report "score";
       mret (Some (SecurityResults criticalVulnerabilities highVulnerabilities
                                   securityScore zero))
     else mret None)
    (SecurityResults zero zero zero zero).

Definition readPerformanceResults (w : world) : performanceResults :=
  or_defaults
    (if existsSync w "performance-analysis-results.json" then
       report ← readJson w "performance-analysis-results.json";
       criticalIssues ← field3 report "issuesBySeverity" "critical" "length";
       performanceScore ← field1 report "score";
       mret (Some (PerformanceResults criticalIssues performanceScore zero))
     else mret None)
    (PerformanceResults zero zero zero).

(** No file is read: the record is fixed. *)
Definition readDocumentationResults : documentationResults :=
  DocumentationResults (VBool true) (VBool true) (VBool false) zero.

(** No file is read: the record is fixed. *)
Definition readApprovalStatus : approvalStatus :=
  ApprovalStatus (VBool false) zero (VNum 2) zero zero (VStr "passed").

(** *** The checks

    Each check reads its inputs and pushes onto [blockers] and
    [warnings]; the assessment is threaded through. *)
Section Checks.

(** The host's conversion to numbers of strings, arrays and objects. *)
Variable to_number : value -> option Q.

Notation "v >= n" := (ge_num to_number v n) (only parsing).
Notation "v > n" := (gt_num to_number v n) (only parsing).
Notation "v === n" := (strict_eq_num v n) (at level 70, only parsing).

Definition checkTestResults (w : world) (this : assessment) : assessment :=
  let testResults := readTestResults w in
  let allTestsPassing := successRate testResults === 100%Q in
  let sufficientCoverage := coverage testResults >= 80%Q in
  let this := push_blocker (negb allTestsPassing)
                (Finding "test-failure" critical) this in
  let this := push_blocker (negb sufficientCoverage)
                (Finding "coverage" high) this in
  push_warning (skippedTests testResults > 0%Q)
    (Finding "skipped-tests" low) this.

Definition checkCodeQuality (w : world) (this : assessment) : assessment :=
  let codeQuality := readCodeQualityResults w in
  let noCriticalIssues := cq_criticalIssues codeQuality === 0%Q in
  let noHighIssues := cq_highIssues codeQuality === 0%Q in
  let acceptableStyleScore := styleScore codeQuality >= 70%Q in
  let this := push_blocker (negb noCriticalIssues)
                (Finding "critical-issues" critical) this in
  let this := push_blocker (negb noHighIssues)
                (Finding "high-issues" high) this in
  push_warning (negb acceptableStyleScore)
    (Finding "style-score" medium) this.

Definition checkSecurity (w : world) (this : assessment) : assessment :=
  let security := readSecurityResults w in
  let noCriticalVulns := criticalVulnerabilities security === 0%Q in
  let noHighVulns := highVulnerabilities security === 0%Q in
  let securityScore := securityScore security >= 80%Q in
  let this := push_blocker (negb noCriticalVulns)
                (Finding "security-critical" critical) this in
  let this := push_blocker (negb noHighVulns)
                (Finding "security-high" high) this in
  push_warning (negb securityScore)
    (Finding "security-score" high) this.

Definition checkPerformance (w : world) (this : assessment) : assessment :=
  let performance := readPerformanceResults w in
  let noCriticalPerfIssues := perf_criticalIssues performance === 0%Q in
  let performanceScore := performanceScore performance >= 70%Q in
  let this := push_blocker (negb noCriticalPerfIssues)
                (Finding "performance-critical" high) this in
  push_warning (negb performanceScore)
    (Finding "performance-score" medium) this.

Definition checkDocumentation (this : assessment) : assessment :=
  let documentation := readDocumentationResults in
  let this := push_warning (negb (truthy (readmeUpdated documentation)))
                (Finding "documentation" low) this in
  push_blocker (breakingChanges documentation > 0%Q)
    (Finding "breaking-changes" high) this.

Definition checkApprovals (this : assessment) : assessment :=
  let approvals := readApprovalStatus in
  let hasRequiredApprovals := truthy (hasRequiredApprovals approvals) in
  let noRequestedChanges := requestedChanges approvals === 0%Q in
  let discussionsResolved := unresolvedDiscussions approvals === 0%Q in
  let ciPassed := strict_eq_str (ciStatus approvals) "passed" in
  let this := push_blocker (negb hasRequiredApprovals)
                (Finding "approvals" high) this in
  let this := push_blocker (negb noRequestedChanges)
                (Finding "requested-changes" critical) this in
  let this := push_blocker (negb ciPassed)
                (Finding "ci-failure" critical) this in
  push_warning (negb discussionsResolved)
    (Finding "discussions" medium) this.

Definition runAllChecks (w : world) (this : assessment) : assessment :=
  let this := checkTestResults w this in
  let this := checkCodeQuality w this in
  let this := checkSecurity w this in
  let this := checkPerformance w this in
  let this := checkDocumentation this in
  checkApprovals this.

End Checks.

(** *** The verdict *)

Definition blocker_penalty (s : Severity) : Z :=
  match s with
  | critical => 30
  | high => 20
  | medium => 10
  | low => 5
  end.

(** The [switch] over warnings has no case for [critical]. *)
Definition warning_penalty (s : Severity) : Z :=
  match s with
  | high => 5
  | medium => 3
  | low => 1
  | critical => 0
  end.

(** [calculateReadiness()] *)
Definition calculateReadiness (this : assessment) : assessment :=
  let score :=
    fold_left (fun score blocker => score - blocker_penalty (severity blocker))
              (blockers this) 100 in
  let score :=
    fold_left (fun score warning => score - warning_penalty (severity warning))
              (warnings this) score in
  let score := Z.max 0 score in
  Assessment ((length (blockers this) =? 0)%nat && (80 <=? score)%Z)
             score (blockers this) (warnings this).

(** [getRecommendation()] *)
Definition getRecommendation (this : assessment) : string :=
  if negb (ready this)
  then "PR is not ready for merge. Address blockers and warnings."
  else if (0 <? length (warnings this))%nat
  then "PR is ready for merge but consider addressing warnings."
  else "PR is ready for merge! 🎉".

Definition severity_name (s : Severity) : string :=
  match s with
  | critical => "critical"
  | high => "high"
  | medium => "medium"
  | low => "low"
  end.

Definition finding_value (f : finding) : value :=
  VObj [("type", VStr (type f)); ("severity", VStr (severity_name (severity f)))].

(** The object [generateReport] serialises, without its time stamp and
    the [checks] object. *)
Definition report (this : assessment) : value :=
  VObj [ ("ready", VBool (ready this));
         ("score", VNum (inject_Z (score this)));
         ("blockers", VArr (map finding_value (blockers this)));
         ("warnings", VArr (map finding_value (warnings this)));
         ("summary",
          VObj [ ("totalBlockers", of_nat (length (blockers this)));
                 ("totalWarnings", of_nat (length (warnings this)));
                 ("criticalBlockers",
                  of_nat (length (filter (fun b => severity b = critical)
                                         (blockers this))));
                 ("recommendation", VStr (getRecommendation this)) ]) ].

(** [generateReport()] *)
Definition generateReport (w : world) (this : assessment) : outcome world :=
  writeJson w "merge-readiness-results.json" (report this).

(** [assess()]: the checks, the verdict, the report.  An exception is
    logged and thrown again; the result comes with the working directory
    as the run leaves it. *)
Definition assess (to_number : value -> option Q) (w : world)
  : outcome assessment * world :=
  let this := runAllChecks to_number w new in
  let this := calculateReadiness this in
  match generateReport w this with
  | Returned w' => (Returned this, w')
  | Thrown error => (Thrown error, w)
  end.

End MergeReadinessAssessor.

(* ================================================================== *)
(** * Vocabulary of the properties                                     *)
(* ================================================================== *)

(** A deduction loop: start from a score and subtract a cost per item. *)
Definition deduct {A : Type} (cost : A -> Z) (start : Z) (l : list A) : Z :=
  fold_left (fun score x => score - cost x) l start.

(** Checks only ever push: what was among the blockers stays there. *)
Definition extends_blockers
  (f : MergeReadinessAssessor.assessment -> MergeReadinessAssessor.assessment)
  : Prop :=
  forall this, exists pushed,
    MergeReadinessAssessor.blockers (f this)
    = MergeReadinessAssessor.blockers this ++ pushed.

(** An empty, writable working directory, and a host for which every
    string, array and object converts to [NaN]. *)
Definition empty_directory : JS.world := JS.World ∅ true.
Definition always_NaN (v : JS.value) : option Q := None.

(** All the fields of the six records the readers return. *)
Definition reader_fields (w : JS.world) : list JS.value :=
  let t := MergeReadinessAssessor.readTestResults w in
  let q := MergeReadinessAssessor.readCodeQualityResults w in
  let s := MergeReadinessAssessor.readSecurityResults w in
  let p := MergeReadinessAssessor.readPerformanceResults w in
  let d := MergeReadinessAssessor.readDocumentationResults in
  let a := MergeReadinessAssessor.readApprovalStatus in
  [ MergeReadinessAssessor.successRate t; MergeReadinessAssessor.coverage t;
    MergeReadinessAssessor.failedTests t; MergeReadinessAssessor.skippedTests t;
    MergeReadinessAssessor.lastRun t;
    MergeReadinessAssessor.cq_criticalIssues q;
    MergeReadinessAssessor.cq_highIssues q;
    MergeReadinessAssessor.styleScore q; MergeReadinessAssessor.lintErrors q;
    MergeReadinessAssessor.criticalVulnerabilities s;
    MergeReadinessAssessor.highVulnerabilities s;
    MergeReadinessAssessor.securityScore s;
    MergeReadinessAssessor.dependencyIssues s;
    MergeReadinessAssessor.perf_criticalIssues p;
    MergeReadinessAssessor.performanceScore p;
    MergeReadinessAssessor.regressions p;
    MergeReadinessAssessor.readmeUpdated d;
    MergeReadinessAssessor.apiDocsUpdated d;
    MergeReadinessAssessor.changelogUpdated d;
    MergeReadinessAssessor.breakingChanges d;
    MergeReadinessAssessor.hasRequiredApprovals a;
    MergeReadinessAssessor.currentApprovals a;
    MergeReadinessAssessor.requiredApprovals a;
    MergeReadinessAssessor.requestedChanges a;
    MergeReadinessAssessor.unresolvedDiscussions a;
    MergeReadinessAssessor.ciStatus a ].

(** A zero or false value: [0], [false], or the empty [null]. *)
Definition zero_or_false (v : JS.value) : Prop :=
  v = JS.VNum 0 \/ v = JS.VBool false \/ v = JS.VNull.

Definition report_names : list string :=
  [ "test-analysis-report.json"; "code-style-review-results.json";
    "security-scan-results.json"; "performance-analysis-results.json" ].

Definition reports_absent (w : JS.world) : Prop :=
  Forall (fun name => JS.files w !! name = None) report_names.

(** An end offset lies between the start offset and the end of input. *)
Definition within (input : string) (i j : nat) : Prop :=
  (i <= j <= String.length input)%nat.

(** The line of an offset as the specification words it: one more than
    the number of newline characters before the offset. *)
Definition line_at_offset (content : string) (offset : nat) : nat :=
  S (JS.count_char JS.newline (String.substring 0 offset content)).

(** Two calls on two lines. *)
Definition two_logs : string :=
  "console.log(1)" ++ String JS.newline "console.log(2)".

(** The points a list of findings costs in all. *)
Definition total {A : Type} (cost : A -> Z) (l : list A) : Z :=
  fold_right (fun x acc => cost x + acc) 0 l.

(** The number of lines of a text: [content.split('\n').length]. *)
Definition line_count (content : string) : nat :=
  length (JS.split JS.newline content).

(** The entry the code review pushes for one occurrence of a rule. *)
Definition review_entry (content : string) (r : AICodeReviewer.rule)
  (m : nat * nat) : AICodeReviewer.issue :=
  AICodeReviewer.Issue (AICodeReviewer.rule_severity r)
    (AICodeReviewer.rule_message r)
    (lineNumber content (JS.matched_text content m))
    (AICodeReviewer.rule_source r).




(** A string without lower-case letters at its head and without
    upper-case letters after it. *)
Definition capitalized (s : string) : Prop :=
  match s with
  | EmptyString => True
  | String c rest =>
      JS.is_lower c = false
      /\ Forall (fun d => JS.is_upper d = false) (list_ascii_of_string rest)
  end.

(** What a reader cannot use: no file, a file that cannot be read or
    parsed, or the JSON text [null]. *)
Definition unusable (f : option JS.file) : Prop :=
  f = None \/ f = Some JS.Unparsable \/ f = Some (JS.Json JS.VNull).

(** The assessment a run reaches before it writes its report. *)
Definition verdict (to_number : JS.value -> option Q) (w : JS.world)
  : MergeReadinessAssessor.assessment :=
  MergeReadinessAssessor.calculateReadiness
    (MergeReadinessAssessor.runAllChecks to_number w
       MergeReadinessAssessor.new).

(** The answers of the checks that a perfect set of reports gives. *)
Definition all_checks_pass (to_number : JS.value -> option Q) (w : JS.world)
  : bool :=
  let t := MergeReadinessAssessor.readTestResults w in
  let q := MergeReadinessAssessor.readCodeQualityResults w in
  let s := MergeReadinessAssessor.readSecurityResults w in
  let p := MergeReadinessAssessor.readPerformanceResults w in
  JS.strict_eq_num (MergeReadinessAssessor.successRate t) 100
  && JS.ge_num to_number (MergeReadinessAssessor.coverage t) 80
  && negb (JS.gt_num to_number (MergeReadinessAssessor.skippedTests t) 0)
  && JS.strict_eq_num (MergeReadinessAssessor.cq_criticalIssues q) 0
  && JS.strict_eq_num (MergeReadinessAssessor.cq_highIssues q) 0
  && JS.ge_num to_number (MergeReadinessAssessor.styleScore q) 70
  && JS.strict_eq_num (MergeReadinessAssessor.criticalVulnerabilities s) 0
  && JS.strict_eq_num (MergeReadinessAssessor.highVulnerabilities s) 0
  && JS.ge_num to_number (MergeReadinessAssessor.securityScore s) 80
  && JS.strict_eq_num (MergeReadinessAssessor.perf_criticalIssues p) 0
  && JS.ge_num to_number (MergeReadinessAssessor.performanceScore p) 70.

(** A directory holding four perfect reports. *)
Definition perfect_directory : JS.world :=
  JS.World
    (<["test-analysis-report.json" :=
         JS.Json (JS.VObj [("summary",
                            JS.VObj [("successRate", JS.VNum 100);
                                     ("overallCoverage", JS.VNum 92)]);
                           ("timestamp", JS.VStr "2025-12-17T22:42:07.582Z")])]>
     (<["code-style-review-results.json" :=
          JS.Json (JS.VObj [("score", JS.VNum 96);
                            ("violationsBySeverity",
                             JS.VObj [("high", JS.VArr []);
                                      ("medium", JS.VArr []);
                                      ("low", JS.VArr [JS.VObj []])])])]>
      (<["security-scan-results.json" :=
           JS.Json (JS.VObj [("score", JS.VNum 100);
                             ("vulnerabilitiesBySeverity",
                              JS.VObj [("critical", JS.VArr []);
                                       ("high", JS.VArr [])])])]>
       (<["performance-analysis-results.json" :=
            JS.Json (JS.VObj [("score", JS.VNum 85);
                              ("issuesBySeverity",
                               JS.VObj [("critical", JS.VArr [])])])]>
        ∅))))
    true.

(** An assessment with further findings pushed. *)
Definition add_findings (this : MergeReadinessAssessor.assessment)
  (bs ws : list MergeReadinessAssessor.finding)
  : MergeReadinessAssessor.assessment :=
  MergeReadinessAssessor.Assessment
    (MergeReadinessAssessor.ready this) (MergeReadinessAssessor.score this)
    (MergeReadinessAssessor.blockers this ++ bs)
    (MergeReadinessAssessor.warnings this ++ ws).

(** The findings of a severity, in the order they were found. *)
Definition review_issues_of (s : Severity) (l : list AICodeReviewer.issue)
  : list AICodeReviewer.issue :=
  List.filter (fun i => bool_decide (AICodeReviewer.severity i = s)) l.

Definition perf_issues_of (s : Severity) (l : list PerformanceAnalyzer.issue)
  : list PerformanceAnalyzer.issue :=
  List.filter (fun i => bool_decide (PerformanceAnalyzer.severity i = s)) l.

Definition violations_of (s : Severity) (l : list CodeStyleReviewer.violation)
  : list CodeStyleReviewer.violation :=
  List.filter (fun v => bool_decide (CodeStyleReviewer.severity v = s)) l.

(** The state of a reviewer or analyzer after the files with the given
    contents have gone through it. *)
Definition reviewed (contents : list string) : AICodeReviewer.reviewResults :=
  fold_left (fun this content => AICodeReviewer.analyzeFile content this)
            contents AICodeReviewer.new.

Definition style_reviewed (contents : list string)
  (this : CodeStyleReviewer.results) : CodeStyleReviewer.results :=
  fold_left (fun this content => CodeStyleReviewer.reviewFile content this)
            contents this.

Definition analyzed (contents : list string) : PerformanceAnalyzer.results :=
  fold_left (fun this content => PerformanceAnalyzer.analyzeFile content this)
            contents PerformanceAnalyzer.new.

(** The violations of a category, in the order they were found; none is
    no group at all. *)
Definition violations_in (cat : string) (l : list CodeStyleReviewer.violation)
  : option (list CodeStyleReviewer.violation) :=
  match List.filter (fun v => String.eqb (CodeStyleReviewer.category v) cat) l with
  | [] => None
  | found => Some found
  end.

(** A name with one of the extensions the scripts look for. *)
Definition reviewable (name : string) : bool :=
  JS.array_includes AICodeReviewer.extensions (JS.extname name).

(** A name the code review takes for a test file. *)
Definition is_test_file (name : string) : bool :=
  JS.includes name ".test." || JS.includes name ".spec.".

(** A directory name the scripts do not enter. *)
Definition skipped (name : string) : bool :=
  JS.array_includes AICodeReviewer.skipped_directories name.

(** The last name of a path. *)
Definition basename (path : list string) : string := List.last path "".

(** What it means for a pattern to match the input from one offset to
    another, stated without reference to any search order.  An
    iteration of a starred pattern consumes at least one character. *)
Inductive matches (multiline : bool) (input : string)
  : JS.regex -> nat -> nat -> Prop :=
| matches_empty i : matches multiline input JS.Empty i i
| matches_char c i :
    String.get i input = Some c ->
    matches multiline input (JS.Char c) i (S i)
| matches_dot c i :
    String.get i input = Some c -> JS.is_line_terminator c = false ->
    matches multiline input JS.Dot i (S i)
| matches_class negated items c i :
    String.get i input = Some c ->
    xorb negated (JS.class_mem items c) = true ->
    matches multiline input (JS.Class negated items) i (S i)
| matches_seq r1 r2 i k j :
    matches multiline input r1 i k -> matches multiline input r2 k j ->
    matches multiline input (JS.Seq r1 r2) i j
| matches_alt_l r1 r2 i j :
    matches multiline input r1 i j ->
    matches multiline input (JS.Alt r1 r2) i j
| matches_alt_r r1 r2 i j :
    matches multiline input r2 i j ->
    matches multiline input (JS.Alt r1 r2) i j
| matches_star_done r i : matches multiline input (JS.Star r) i i
| matches_star_more r i k j :
    matches multiline input r i k -> (i < k)%nat ->
    matches multiline input (JS.Star r) k j ->
    matches multiline input (JS.Star r) i j
| matches_bol i :
    (i =? 0)%nat || multiline && JS.preceded_by_terminator input i = true ->
    matches multiline input JS.Bol i i
| matches_eol i :
    (i =? String.length input)%nat
    || multiline && JS.followed_by_terminator input i = true ->
    matches multiline input JS.Eol i i
| matches_word_boundary i :
    xorb (JS.word_before input i) (JS.word_at input i) = true ->
    matches multiline input JS.WordBoundary i i.

(** A character an address part may hold: no white space, no [@]. *)
Definition address_char (c : ascii) : bool :=
  negb (JS.is_space c) && negb (Ascii.eqb c "@").

(** A non-empty string of such characters. *)
Definition address_part (s : string) : Prop :=
  s <> "" /\ Forall (fun c => address_char c = true) (list_ascii_of_string s).

(** Every offset of the input from [a] up to [b] holds a character
    outside [items]. *)
Definition class_run (input : string) (items : list JS.class_item)
    (a b : nat) : Prop :=
  forall k, (a <= k < b)%nat ->
    exists c, String.get k input = Some c
              /\ xorb true (JS.class_mem items c) = true.

(** A value that is not an object: a number, a string, a boolean, [null]
    or [undefined].  The host converts these to numbers, strings and
    dates without running any code of the value's own; on an object or
    an array the conversion calls its [valueOf] and [toString], and
    throws when neither can be called. *)
Definition primitive (v : JS.value) : Prop :=
  match v with
  | JS.VObj _ | JS.VArr _ => False
  | _ => True
  end.


(** A string of code units below 128. *)
Definition ascii_only (s : string) : bool :=
  forallb (fun c => (nat_of_ascii c <? 128)%nat) (list_ascii_of_string s).

(** A violation whose category names a property that every object
    inherits. *)
Definition inherited_category (v : CodeStyleReviewer.violation) : bool :=
  JS.array_includes JS.object_prototype_names (CodeStyleReviewer.category v).


(* ================================================================== *)
(** * Properties                                                       *)
(* ================================================================== *)

(** ** Arithmetic of the deduction loops *)

Section Deductions.

Context {A : Type} (cost : A -> Z).
Hypothesis cost_nonneg : forall x, 0 <= cost x.

Lemma deduct_cons start x l :
  deduct cost start (x :: l) = deduct cost (start - cost x) l.
Proof. reflexivity. Qed.

Lemma deduct_le start l : deduct cost start l <= start.
Proof using cost_nonneg.
  revert start; induction l as [|x l IH]; intros start.
  - unfold deduct; simpl; lia.
  - rewrite deduct_cons. specialize (IH (start - cost x)).
    specialize (cost_nonneg x). lia.
Qed.

Lemma deduct_In start l x :
  In x l -> deduct cost start l <= start - cost x.
Proof using cost_nonneg.
  revert start; induction l as [|y l IH]; intros start [].
  - subst y. rewrite deduct_cons. apply deduct_le.
  - rewrite deduct_cons. specialize (IH (start - cost y) H).
    specialize (cost_nonneg y). lia.
Qed.

End Deductions.

Lemma clamp_bounds (x : Z) : 0 <= Z.max 0 (Z.min 100 x) <= 100.
Proof. lia. Qed.

(** ** Merge readiness *)

Lemma blocker_penalty_nonneg s : 0 <= MergeReadinessAssessor.blocker_penalty s.
Proof. destruct s; simpl; lia. Qed.

Lemma warning_penalty_nonneg s : 0 <= MergeReadinessAssessor.warning_penalty s.
Proof. destruct s; simpl; lia. Qed.

Lemma calculateReadiness_blockers this :
  MergeReadinessAssessor.blockers (MergeReadinessAssessor.calculateReadiness this)
  = MergeReadinessAssessor.blockers this.
Proof. reflexivity. Qed.

Lemma calculateReadiness_ready this :
  MergeReadinessAssessor.ready (MergeReadinessAssessor.calculateReadiness this)
  = (length (MergeReadinessAssessor.blockers this) =? 0)%nat
    && (80 <=? MergeReadinessAssessor.score
                 (MergeReadinessAssessor.calculateReadiness this))%Z.
Proof. reflexivity. Qed.

(** C1.  After [calculateReadiness] the [ready] flag is true exactly when
    the blockers list is empty and the score is at least 80; and a run
    whose blockers contain a critical one is not ready, whatever the
    score. *)
Theorem C1_ready_iff_no_blockers_and_score :
  forall this : MergeReadinessAssessor.assessment,
    let after := MergeReadinessAssessor.calculateReadiness this in
    (MergeReadinessAssessor.ready after = true <->
       length (MergeReadinessAssessor.blockers after) = 0%nat
       /\ 80 <= MergeReadinessAssessor.score after)
    /\ (forall b, In b (MergeReadinessAssessor.blockers this) ->
                  MergeReadinessAssessor.severity b = critical ->
                  MergeReadinessAssessor.ready after = false).
Proof.
  intros this after; subst after; split.
  - rewrite calculateReadiness_ready, calculateReadiness_blockers.
    rewrite andb_true_iff, Nat.eqb_eq, Z.leb_le. tauto.
  - intros b Hin _. rewrite calculateReadiness_ready.
    destruct (MergeReadinessAssessor.blockers this); [destruct Hin|reflexivity].
Qed.

Lemma C1_witness :
  let b := MergeReadinessAssessor.Finding "ci-failure" critical in
  let this := MergeReadinessAssessor.Assessment true 100 [b] [] in
  In b (MergeReadinessAssessor.blockers this)
  /\ MergeReadinessAssessor.severity b = critical
  /\ MergeReadinessAssessor.ready
       (MergeReadinessAssessor.calculateReadiness this) = false.
Proof.
  intros b this. split; [left; reflexivity|]. split; [reflexivity|].
  exact (proj2 (C1_ready_iff_no_blockers_and_score this) b
               (or_introl eq_refl) eq_refl).
Defined.

(** ** The score stays in range *)

Lemma review_penalty_nonneg s : 0 <= AICodeReviewer.penalty s.
Proof. destruct s; simpl; lia. Qed.

(** C2.  Whatever the issues, violations, blockers and warnings, and
    however many positives or optimizations there are, each script's
    score is an integer between 0 and 100.  The style review's bonus
    divides numbers it reads from [metrics]; the statement is for the
    [metrics] the style review can hold, the object the constructor
    leaves or one that [calculateOverallMetrics] stored, with any
    violations. *)
Theorem C2_scores_within_0_100 :
  (forall this, 0 <= AICodeReviewer.score (AICodeReviewer.calculateScore this) <= 100)
  /\ (forall this,
         (CodeStyleReviewer.metrics this = ∅
          \/ exists sources prev,
               CodeStyleReviewer.metrics this
               = CodeStyleReviewer.metrics
                   (CodeStyleReviewer.calculateOverallMetrics sources prev)) ->
         0 <= CodeStyleReviewer.score (CodeStyleReviewer.calculateScore this) <= 100)
  /\ (forall this, 0 <= PerformanceAnalyzer.score (PerformanceAnalyzer.calculateScore this) <= 100)
  /\ (forall this, 0 <= MergeReadinessAssessor.score
                          (MergeReadinessAssessor.calculateReadiness this) <= 100).
Proof.
  repeat split; try (apply clamp_bounds); simpl; try lia.
  set (s1 := fold_left _ (MergeReadinessAssessor.blockers this) 100).
  pose proof (deduct_le (fun b => MergeReadinessAssessor.blocker_penalty
                                    (MergeReadinessAssessor.severity b))
                        (fun b => blocker_penalty_nonneg _)
                        100 (MergeReadinessAssessor.blockers this)) as H1.
  pose proof (deduct_le (fun b => MergeReadinessAssessor.warning_penalty
                                    (MergeReadinessAssessor.severity b))
                        (fun b => warning_penalty_nonneg _)
                        s1 (MergeReadinessAssessor.warnings this)) as H2.
  unfold deduct in H1, H2. fold s1 in H1. lia.
Qed.

Lemma C2_witness :
  0 <= CodeStyleReviewer.score
         (CodeStyleReviewer.calculateScore
            (CodeStyleReviewer.Results 0
               [CodeStyleReviewer.Violation "declarations" medium
                  "Use const or let instead of var" true 1 "var a"]
               ∅)) <= 100.
Proof.
  apply (proj1 (proj2 C2_scores_within_0_100)). left. reflexivity.
Defined.

(** The style review's bonus reads the properties [const], [let], [var],
    [functions] and [arrowFunctions] of [metrics].  Neither the object
    the constructor leaves nor the one [calculateOverallMetrics] stores
    has any of them, so the ratio is 0 / 1 and the bonus is 0. *)
Lemma modernization_bonus_zero contents this :
  CodeStyleReviewer.calculateModernizationBonus CodeStyleReviewer.new = 0
  /\ CodeStyleReviewer.calculateModernizationBonus
       (CodeStyleReviewer.calculateOverallMetrics contents this) = 0.
Proof.
  split; [reflexivity|].
  unfold CodeStyleReviewer.calculateModernizationBonus,
    CodeStyleReviewer.metric, CodeStyleReviewer.calculateOverallMetrics.
  cbn [CodeStyleReviewer.metrics].
  rewrite !lookup_insert_ne by discriminate.
  rewrite !lookup_empty. reflexivity.
Qed.

(** ** Single findings and the baseline *)

(** C5.  One critical finding and nothing else costs exactly the script's
    critical penalty: 15 in the performance analyzer, so the score is 85;
    30 as a merge blocker; and nothing in the code and style reviews,
    whose [switch] has no case for [critical]. *)
Theorem C5_single_critical_finding :
  (forall s0 msg ln code,
      PerformanceAnalyzer.score
        (PerformanceAnalyzer.calculateScore
           (PerformanceAnalyzer.Results s0
              [PerformanceAnalyzer.Issue critical msg ln code] []))
      = 100 - PerformanceAnalyzer.penalty critical
      /\ 100 - PerformanceAnalyzer.penalty critical = 85)
  /\ PerformanceAnalyzer.score
       (PerformanceAnalyzer.calculateScore
          (PerformanceAnalyzer.analyzeFile "document.write(x)"
             PerformanceAnalyzer.new)) = 85
  /\ (forall s0 msg ln pat sugg,
         AICodeReviewer.score
           (AICodeReviewer.calculateScore
              (AICodeReviewer.ReviewResults s0
                 [AICodeReviewer.Issue critical msg ln pat] sugg []))
         = 100 - AICodeReviewer.penalty critical)
  /\ (forall s0 cat msg fixable ln code,
         CodeStyleReviewer.score
           (CodeStyleReviewer.calculateScore
              (CodeStyleReviewer.Results s0
                 [CodeStyleReviewer.Violation cat critical msg fixable ln code]
                 ∅))
         = 100 - CodeStyleReviewer.penalty critical)
  /\ (forall r0 s0 ty,
         MergeReadinessAssessor.score
           (MergeReadinessAssessor.calculateReadiness
              (MergeReadinessAssessor.Assessment r0 s0
                 [MergeReadinessAssessor.Finding ty critical] []))
         = 100 - MergeReadinessAssessor.blocker_penalty critical).
Proof.
  split; [intros; split; reflexivity|].
  split; [vm_compute; reflexivity|].
  repeat split; intros; reflexivity.
Qed.

(** C6.  With no issues and no positives the code review gives the
    baseline score, 100. *)
Theorem C6_code_review_baseline :
  forall s0 sugg,
    AICodeReviewer.score
      (AICodeReviewer.calculateScore (AICodeReviewer.ReviewResults s0 [] sugg []))
    = 100.
Proof. intros; reflexivity. Qed.

(** ** The sample utilities *)

(** C7.  On a fresh calculator, [add(2,3)] then [subtract(5,2)] leave a
    history of two entries, "add" then "subtract"; and [clearHistory]
    leaves an empty history whatever it was before. *)
Theorem C7_calculator_history :
  (let c1 := snd (Utils.add Utils.new 2 3) in
   let c2 := snd (Utils.subtract c1 5 2) in
   length (Utils.getHistory c2) = 2%nat
   /\ map Utils.operation (Utils.getHistory c2) = ["add"; "subtract"])
  /\ (forall c : Utils.Calculator,
         length (Utils.getHistory (Utils.clearHistory c)) = 0%nat).
Proof. split; [split; reflexivity | intros; reflexivity]. Qed.

(** C8.  [validateEmail] accepts "user@example.com" and rejects
    "not-an-email" and "@domain.com". *)
Theorem C8_validateEmail_examples :
  Utils.validateEmail "user@example.com" = true
  /\ Utils.validateEmail "not-an-email" = false
  /\ Utils.validateEmail "@domain.com" = false.
Proof. repeat split; vm_compute; reflexivity. Qed.

(** ** The assessor's inputs and verdict *)

Section Assessor.

Import JS MergeReadinessAssessor.

Variable to_number : value -> option Q.


Lemma blockers_push_blocker cond f this :
  blockers (push_blocker cond f this)
  = blockers this ++ (if cond then [f] else []).
Proof. destruct cond; simpl; [reflexivity | symmetry; apply app_nil_r]. Qed.

Lemma blockers_push_warning cond f this :
  blockers (push_warning cond f this) = blockers this.
Proof. destruct cond; reflexivity. Qed.

Ltac pushes :=
  intros this; cbv zeta;
  rewrite ?blockers_push_warning, ?blockers_push_blocker,
          ?blockers_push_warning, ?blockers_push_blocker;
  rewrite <- ?app_assoc; eexists; reflexivity.

Lemma checkTestResults_extends w :
  extends_blockers (checkTestResults to_number w).
Proof. unfold checkTestResults. pushes. Qed.

Lemma checkCodeQuality_extends w :
  extends_blockers (checkCodeQuality to_number w).
Proof. unfold checkCodeQuality. pushes. Qed.

Lemma checkSecurity_extends w :
  extends_blockers (checkSecurity to_number w).
Proof. unfold checkSecurity. pushes. Qed.

Lemma checkPerformance_extends w :
  extends_blockers (checkPerformance to_number w).
Proof. unfold checkPerformance. pushes. Qed.

(** With the fixed documentation record nothing is pushed at all. *)
Lemma checkDocumentation_id this :
  checkDocumentation to_number this = this.
Proof. reflexivity. Qed.

(** With the fixed approval record exactly one blocker is pushed. *)
Lemma checkApprovals_blockers this :
  blockers (checkApprovals this)
  = blockers this ++ [Finding "approvals" high].
Proof. reflexivity. Qed.

Lemma runAllChecks_blockers w this :
  exists pushed,
    blockers (runAllChecks to_number w this)
    = blockers this ++ pushed ++ [Finding "approvals" high].
Proof.
  unfold runAllChecks. rewrite checkApprovals_blockers, checkDocumentation_id.
  destruct (checkTestResults_extends w this) as [p1 H1].
  destruct (checkCodeQuality_extends w (checkTestResults to_number w this))
    as [p2 H2].
  destruct (checkSecurity_extends w
              (checkCodeQuality to_number w (checkTestResults to_number w this)))
    as [p3 H3].
  destruct (checkPerformance_extends w
              (checkSecurity to_number w
                 (checkCodeQuality to_number w
                    (checkTestResults to_number w this))))
    as [p4 H4].
  exists (p1 ++ p2 ++ p3 ++ p4).
  rewrite H4, H3, H2, H1. rewrite <- !app_assoc. reflexivity.
Qed.

(** What [assess] returns, when it returns, is the assessment after the
    checks and the verdict. *)
Lemma assess_returned w a w' :
  assess to_number w = (Returned a, w') ->
  a = calculateReadiness (runAllChecks to_number w new).
Proof.
  unfold assess. destruct (generateReport w _); intros H; inversion H.
  reflexivity.
Qed.

(** The run goes through whenever the report can be written, whatever
    is or is not in the working directory. *)
Lemma assess_returns w :
  writable w = true ->
  exists w',
    assess to_number w
    = (Returned (calculateReadiness (runAllChecks to_number w new)), w').
Proof.
  intros Hw. unfold assess, generateReport, writeJson. rewrite Hw.
  eexists. reflexivity.
Qed.

End Assessor.


(** C10.  Every run of [assess] ends not ready: the fixed approval
    record makes [checkApprovals] push an "approvals" blocker, so the
    blockers are never empty when [calculateReadiness] runs. *)
Theorem C10_assess_never_ready :
  forall (to_number : JS.value -> option Q) (w : JS.world),
    let final :=
      MergeReadinessAssessor.calculateReadiness
        (MergeReadinessAssessor.runAllChecks to_number w
           MergeReadinessAssessor.new) in
    In (MergeReadinessAssessor.Finding "approvals" high)
       (MergeReadinessAssessor.blockers final)
    /\ MergeReadinessAssessor.ready final = false
    /\ (forall a w',
           MergeReadinessAssessor.assess to_number w = (JS.Returned a, w') ->
           MergeReadinessAssessor.ready a = false).
Proof.
  intros to_number w final.
  destruct (runAllChecks_blockers to_number w MergeReadinessAssessor.new)
    as [pushed Hb].
  assert (Hready : MergeReadinessAssessor.ready final = false).
  { subst final. rewrite calculateReadiness_ready, Hb. simpl.
    destruct pushed; reflexivity. }
  split; [|split].
  - subst final. rewrite calculateReadiness_blockers, Hb. simpl.
    apply in_or_app. right. left. reflexivity.
  - exact Hready.
  - intros a w' Ha. apply assess_returned in Ha. subst a. exact Hready.
Qed.

Lemma C10_witness :
  exists a w',
    MergeReadinessAssessor.assess always_NaN empty_directory
    = (JS.Returned a, w')
    /\ MergeReadinessAssessor.ready a = false.
Proof.
  destruct (assess_returns always_NaN empty_directory eq_refl) as [w' Hw'].
  eexists. exists w'. split; [exact Hw'|].
  exact (proj2 (proj2 (C10_assess_never_ready always_NaN empty_directory))
               _ w' Hw').
Defined.

(** ** Missing reports *)


(** Against C4 as worded.  With every report absent, the fixed
    documentation and approval records still hold [true], [2] and
    ["passed"]: not every field of every reader is zero or false. *)
Lemma C4_readers_not_all_zeroed :
  reports_absent empty_directory
  /\ ~ Forall zero_or_false (reader_fields empty_directory).
Proof.
  split.
  - repeat constructor.
  - intros H. rewrite List.Forall_forall in H.
    assert (Hin : In (JS.VBool true) (reader_fields empty_directory)).
    { vm_compute. do 16 right. left. reflexivity. }
    destruct (H _ Hin) as [E | [E | E]]; discriminate E.
Qed.

Lemma absent_reports_read_primitive w :
  reports_absent w -> Forall primitive (reader_fields w).
Proof.
  unfold reports_absent, report_names. intros H.
  inversion H as [|? ? H1 Ha]; subst. inversion Ha as [|? ? H2 Hb]; subst.
  inversion Hb as [|? ? H3 Hc]; subst.
  inversion Hc as [|? ? H4 _]; subst.
  unfold reader_fields, MergeReadinessAssessor.readTestResults,
    MergeReadinessAssessor.readCodeQualityResults,
    MergeReadinessAssessor.readSecurityResults,
    MergeReadinessAssessor.readPerformanceResults, JS.existsSync.
  rewrite H1, H2, H3, H4. repeat constructor.
Qed.

(** C4, as the code has it.  A reader whose report file is absent
    returns its record of zeros (and [null] for [lastRun]).  The
    documentation and approval readers read no file; their records are
    fixed and are not all zero.  No run fails because of a missing
    report: what the readers return for it are plain numbers and
    [null], and a run whose readers return only such values (no object
    where a number, a string or a date is expected) returns whenever its
    own report can be written. *)
Theorem C4_missing_report_defaults :
  forall (to_number : JS.value -> option Q) (w : JS.world),
    (JS.files w !! "test-analysis-report.json" = None ->
     MergeReadinessAssessor.readTestResults w
     = MergeReadinessAssessor.TestResults
         (JS.VNum 0) (JS.VNum 0) (JS.VNum 0) (JS.VNum 0) JS.VNull)
    /\ (JS.files w !! "code-style-review-results.json" = None ->
        MergeReadinessAssessor.readCodeQualityResults w
        = MergeReadinessAssessor.CodeQualityResults
            (JS.VNum 0) (JS.VNum 0) (JS.VNum 0) (JS.VNum 0))
    /\ (JS.files w !! "security-scan-results.json" = None ->
        MergeReadinessAssessor.readSecurityResults w
        = MergeReadinessAssessor.SecurityResults
            (JS.VNum 0) (JS.VNum 0) (JS.VNum 0) (JS.VNum 0))
    /\ (JS.files w !! "performance-analysis-results.json" = None ->
        MergeReadinessAssessor.readPerformanceResults w
        = MergeReadinessAssessor.PerformanceResults
            (JS.VNum 0) (JS.VNum 0) (JS.VNum 0))
    /\ MergeReadinessAssessor.readDocumentationResults
       = MergeReadinessAssessor.DocumentationResults
           (JS.VBool true) (JS.VBool true) (JS.VBool false) (JS.VNum 0)
    /\ MergeReadinessAssessor.readApprovalStatus
       = MergeReadinessAssessor.ApprovalStatus
           (JS.VBool false) (JS.VNum 0) (JS.VNum 2) (JS.VNum 0) (JS.VNum 0)
           (JS.VStr "passed")
    /\ (reports_absent w -> Forall primitive (reader_fields w))
    /\ (Forall primitive (reader_fields w) ->
        JS.writable w = true ->
        exists a w',
          MergeReadinessAssessor.assess to_number w = (JS.Returned a, w')).
Proof.
  intros to_number w.
  repeat split.
  - intros H. unfold MergeReadinessAssessor.readTestResults, JS.existsSync.
    rewrite H. reflexivity.
  - intros H. unfold MergeReadinessAssessor.readCodeQualityResults, JS.existsSync.
    rewrite H. reflexivity.
  - intros H. unfold MergeReadinessAssessor.readSecurityResults, JS.existsSync.
    rewrite H. reflexivity.
  - intros H. unfold MergeReadinessAssessor.readPerformanceResults, JS.existsSync.
    rewrite H. reflexivity.
  - apply absent_reports_read_primitive.
  - intros _ H. destruct (assess_returns to_number w H) as [w' Hw'].
    eexists. exists w'. exact Hw'.
Qed.

Lemma C4_witness :
  JS.files empty_directory !! "test-analysis-report.json" = None
  /\ Forall primitive (reader_fields empty_directory)
  /\ JS.writable empty_directory = true
  /\ MergeReadinessAssessor.readTestResults empty_directory
     = MergeReadinessAssessor.TestResults
         (JS.VNum 0) (JS.VNum 0) (JS.VNum 0) (JS.VNum 0) JS.VNull
  /\ exists a w',
       MergeReadinessAssessor.assess always_NaN empty_directory
       = (JS.Returned a, w').
Proof.
  pose proof (C4_missing_report_defaults always_NaN empty_directory) as H.
  assert (Hp : Forall primitive (reader_fields empty_directory))
    by (vm_compute; repeat constructor).
  split; [reflexivity|]. split; [exact Hp|]. split; [reflexivity|]. split.
  - exact (proj1 H eq_refl).
  - exact (proj2 (proj2 (proj2 (proj2 (proj2 (proj2 (proj2 H)))))) Hp eq_refl).
Defined.

(** ** The scanners *)

(** A loop that only pushes onto its accumulator appends the same
    elements whatever the accumulator held. *)
Lemma fold_left_pushes {A B : Type} (step : list A -> B -> list A) :
  (forall acc x, step acc x = acc ++ step [] x) ->
  forall l acc, fold_left step l acc = acc ++ fold_left step l [].
Proof.
  intros Hstep l. induction l as [|x l IH]; intros acc; simpl.
  - symmetry. apply app_nil_r.
  - rewrite IH. rewrite (IH (step [] x)). rewrite (Hstep acc x).
    symmetry. apply app_assoc.
Qed.

Lemma fold_left_push_each {A B : Type} (entry : B -> A) (l : list B) acc :
  fold_left (fun acc x => acc ++ [entry x]) l acc = acc ++ map entry l.
Proof.
  revert acc. induction l as [|x l IH]; intros acc; simpl.
  - symmetry. apply app_nil_r.
  - rewrite IH. rewrite <- app_assoc. reflexivity.
Qed.

(** One rule of the code review pushes one entry per occurrence of its
    pattern, in textual order. *)
Lemma review_checkPattern_entries content r issues :
  AICodeReviewer.checkPattern content r issues
  = issues
    ++ map (fun matched =>
              AICodeReviewer.Issue (AICodeReviewer.rule_severity r)
                (AICodeReviewer.rule_message r)
                (lineNumber content matched)
                (AICodeReviewer.rule_source r))
           (JS.match_g false (AICodeReviewer.rule_pattern r) content).
Proof. apply fold_left_push_each. Qed.

Lemma review_checkPatterns_app content patterns issues :
  AICodeReviewer.checkPatterns content patterns issues
  = issues ++ AICodeReviewer.checkPatterns content patterns [].
Proof.
  apply fold_left_pushes. intros acc r.
  rewrite !review_checkPattern_entries. reflexivity.
Qed.

Lemma style_checkPattern_app content cat r violations :
  CodeStyleReviewer.checkPattern content cat r violations
  = violations ++ CodeStyleReviewer.checkPattern content cat r [].
Proof.
  unfold CodeStyleReviewer.checkPattern. rewrite !fold_left_push_each.
  reflexivity.
Qed.

Lemma style_scan_app content table violations :
  CodeStyleReviewer.scan content table violations
  = violations ++ CodeStyleReviewer.scan content table [].
Proof.
  apply fold_left_pushes. intros acc [cat patterns].
  apply fold_left_pushes. intros acc' r. apply style_checkPattern_app.
Qed.

Lemma perf_checkPattern_app content sev r issues :
  PerformanceAnalyzer.checkPattern content sev r issues
  = issues ++ PerformanceAnalyzer.checkPattern content sev r [].
Proof.
  unfold PerformanceAnalyzer.checkPattern. rewrite !fold_left_push_each.
  reflexivity.
Qed.

Lemma perf_scan_app content table issues :
  PerformanceAnalyzer.scan content table issues
  = issues ++ PerformanceAnalyzer.scan content table [].
Proof.
  apply fold_left_pushes. intros acc [sev patterns].
  apply fold_left_pushes. intros acc' r. apply perf_checkPattern_app.
Qed.

(** C9.  A scan is a function of the content and the rules alone: what
    it pushes does not depend on what the array already holds, so a
    second scan of the same content pushes the same entries, in the same
    order and with the same lines, as the first.  And running an
    aggregator again on what it was given leaves the same score. *)
Theorem C9_scan_and_score_deterministic :
  (forall content patterns issues,
      let found := AICodeReviewer.checkPatterns content patterns [] in
      AICodeReviewer.checkPatterns content patterns issues = issues ++ found
      /\ AICodeReviewer.checkPatterns content patterns
           (AICodeReviewer.checkPatterns content patterns issues)
         = issues ++ found ++ found)
  /\ (forall content violations,
         let found := CodeStyleReviewer.checkStylePatterns content [] in
         CodeStyleReviewer.checkStylePatterns content violations
         = violations ++ found
         /\ CodeStyleReviewer.checkStylePatterns content
              (CodeStyleReviewer.checkStylePatterns content violations)
            = violations ++ found ++ found)
  /\ (forall content issues,
         let found :=
           PerformanceAnalyzer.scan content
             PerformanceAnalyzer.performancePatterns [] in
         PerformanceAnalyzer.scan content
           PerformanceAnalyzer.performancePatterns issues = issues ++ found
         /\ PerformanceAnalyzer.scan content
              PerformanceAnalyzer.performancePatterns
              (PerformanceAnalyzer.scan content
                 PerformanceAnalyzer.performancePatterns issues)
            = issues ++ found ++ found)
  /\ (forall this,
         AICodeReviewer.calculateScore (AICodeReviewer.calculateScore this)
         = AICodeReviewer.calculateScore this)
  /\ (forall this,
         CodeStyleReviewer.calculateScore (CodeStyleReviewer.calculateScore this)
         = CodeStyleReviewer.calculateScore this)
  /\ (forall this,
         PerformanceAnalyzer.calculateScore
           (PerformanceAnalyzer.calculateScore this)
         = PerformanceAnalyzer.calculateScore this)
  /\ (forall this,
         MergeReadinessAssessor.calculateReadiness
           (MergeReadinessAssessor.calculateReadiness this)
         = MergeReadinessAssessor.calculateReadiness this).
Proof.
  split; [|split; [|split]].
  - intros content patterns issues found. subst found. split.
    + apply review_checkPatterns_app.
    + rewrite (review_checkPatterns_app content patterns
                 (AICodeReviewer.checkPatterns content patterns issues)).
      rewrite (review_checkPatterns_app content patterns issues).
      symmetry. apply app_assoc.
  - intros content violations found. subst found.
    unfold CodeStyleReviewer.checkStylePatterns. split.
    + apply style_scan_app.
    + rewrite (style_scan_app content _ (CodeStyleReviewer.scan content _ violations)).
      rewrite (style_scan_app content _ violations).
      symmetry. apply app_assoc.
  - intros content issues found. subst found. split.
    + apply perf_scan_app.
    + rewrite (perf_scan_app content _ (PerformanceAnalyzer.scan content _ issues)).
      rewrite (perf_scan_app content _ issues).
      symmetry. apply app_assoc.
  - repeat split; intros this; reflexivity.
Qed.

(** ** Line numbers *)


Lemma split_length c s : length (JS.split c s) = S (JS.count_char c s).
Proof.
  induction s as [|d rest IH]; simpl; [reflexivity|].
  destruct (Ascii.eqb d c); simpl.
  - rewrite IH. reflexivity.
  - destruct (JS.split c rest) as [|piece pieces]; simpl in *; lia.
Qed.

Lemma substring_prefix_min s n :
  String.substring 0 (Nat.min n (String.length s)) s = String.substring 0 n s.
Proof.
  revert n. induction s as [|c s IH]; intros [|n]; simpl; try reflexivity.
  rewrite IH. reflexivity.
Qed.

Lemma substring_to_offset content i :
  JS.substring content 0 (Z.of_nat i) = String.substring 0 i content.
Proof.
  unfold JS.substring, JS.clamp_index.
  replace (Z.to_nat (Z.max 0 (Z.min 0 (Z.of_nat (String.length content)))))
    with O by lia.
  replace (Z.to_nat (Z.max 0 (Z.min (Z.of_nat i)
                                    (Z.of_nat (String.length content)))))
    with (Nat.min i (String.length content)) by lia.
  rewrite Nat.min_0_l, Nat.max_0_l, Nat.sub_0_r.
  apply substring_prefix_min.
Qed.

(** What the scanners report: the line of the first place where the
    matched text occurs in the content. *)
Lemma lineNumber_first_occurrence content matched i :
  String.index 0 matched content = Some i ->
  lineNumber content matched = line_at_offset content i.
Proof.
  intros H. unfold lineNumber, JS.indexOf. rewrite H.
  rewrite split_length, substring_to_offset. reflexivity.
Qed.

(** C3.  In a file that calls [console.log(] on line 1 and again on
    line 2 the pattern occurs at offsets 0 and 15, on lines 1 and 2; the
    scanners push one entry for each occurrence, but both entries carry
    line 1, the line of the first occurrence of the matched text. *)
Theorem C3_repeated_text_reported_on_first_line :
  let pattern := JS.cat [JS.Lit "console.log"; JS.Star JS.ws; JS.Char "("] in
  JS.occurrences false two_logs pattern = [(0, 12); (15, 27)]%nat
  /\ map (fun m => line_at_offset two_logs (fst m))
         (JS.occurrences false two_logs pattern) = [1; 2]%nat
  /\ map AICodeReviewer.line
         (AICodeReviewer.checkPatterns two_logs
            AICodeReviewer.performanceIssues []) = [1; 1]%nat
  /\ map PerformanceAnalyzer.line
         (PerformanceAnalyzer.fa_issues
            (PerformanceAnalyzer.checkPerformancePatterns two_logs
               (PerformanceAnalyzer.FileAnalysis [] []))) = [1; 1]%nat
  /\ map CodeStyleReviewer.line
         (CodeStyleReviewer.checkStylePatterns
            ("var a" ++ String JS.newline "var a") []) = [1; 1]%nat.
Proof. repeat split; vm_compute; reflexivity. Qed.

(** ** Where the matcher finds its matches *)

Lemma get_Some_lt s i c : String.get i s = Some c -> (i < String.length s)%nat.
Proof.
  revert i. induction s as [|d s IH]; intros [|i] H; simpl in *;
    try discriminate; try lia.
  apply IH in H. lia.
Qed.

Lemma flat_map_nil {A B : Type} (f : A -> list B) (l : list A) :
  (forall x, In x l -> f x = []) -> flat_map f l = [].
Proof.
  induction l as [|x l IH]; intros H; simpl; [reflexivity|].
  rewrite (H x (or_introl eq_refl)), IH; [reflexivity|].
  intros y Hy. apply H. right. exact Hy.
Qed.

Lemma flat_map_agree {A B : Type} (f g : A -> list B) (l : list A) :
  (forall x, In x l -> f x = g x) -> flat_map f l = flat_map g l.
Proof.
  induction l as [|x l IH]; intros H; simpl; [reflexivity|].
  rewrite (H x (or_introl eq_refl)), IH; [reflexivity|].
  intros y Hy. apply H. right. exact Hy.
Qed.

Section MatcherBounds.

Variable multiline : bool.
Variable input : string.

Lemma one_within p i j : In j (JS.one input p i) -> within input i j.
Proof.
  unfold JS.one, within. destruct (String.get i input) as [c|] eqn:Hget;
    [|intros []].
  apply get_Some_lt in Hget. destruct (p c); intros H; [|destruct H].
  destruct H as [H|[]]. subst j. lia.
Qed.

Lemma star_ends_within body :
  (forall i j, (i <= String.length input)%nat -> In j (body i) -> within input i j) ->
  forall fuel i j,
    (i <= String.length input)%nat ->
    In j (JS.star_ends body fuel i) -> within input i j.
Proof.
  intros Hbody. induction fuel as [|fuel IH]; intros i j Hi; simpl.
  - intros [H|[]]. subst j. unfold within. lia.
  - rewrite in_app_iff, in_flat_map. intros [[k [Hk Hj]] | [H|[]]].
    + destruct (Nat.ltb_spec i k) as [Hlt|]; [|destruct Hj].
      destruct (Hbody _ _ Hi Hk) as [_ Hk']. apply IH in Hj; [|exact Hk'].
      unfold within in *. lia.
    + subst j. unfold within. lia.
Qed.

Lemma ends_within r :
  forall i j, (i <= String.length input)%nat ->
              In j (JS.ends multiline input r i) -> within input i j.
Proof.
  induction r as [ | c | | negated items | r1 IH1 r2 IH2 | r1 IH1 r2 IH2
                 | r IH | | | ]; intros i j Hi; simpl.
  - intros [H|[]]. subst j. unfold within. lia.
  - apply one_within.
  - apply one_within.
  - apply one_within.
  - rewrite in_flat_map. intros [k [Hk Hj]].
    destruct (IH1 _ _ Hi Hk) as [? Hk']. apply IH2 in Hj; [|exact Hk'].
    unfold within in *. lia.
  - rewrite in_app_iff. intros [H|H]; [apply IH1 | apply IH2]; assumption.
  - apply star_ends_within; assumption.
  - destruct (_ || _); intros H; [|destruct H].
    destruct H as [H|[]]. subst j. unfold within. lia.
  - destruct (_ || _); intros H; [|destruct H].
    destruct H as [H|[]]. subst j. unfold within. lia.
  - destruct (xorb _ _); intros H; [|destruct H].
    destruct H as [H|[]]. subst j. unfold within. lia.
Qed.

Lemma search_from_within r fuel i a e :
  (i + fuel <= String.length input)%nat ->
  JS.search_from multiline input r fuel i = Some (a, e) ->
  (i <= a)%nat /\ within input a e.
Proof.
  revert i. induction fuel as [|fuel IH]; intros i Hi; simpl;
    unfold JS.match_at;
    destruct (JS.ends multiline input r i) as [|j rest] eqn:Hends; simpl.
  - discriminate.
  - intros H. inversion H; subst. split; [lia|].
    apply (ends_within r); [lia|]. rewrite Hends. left. reflexivity.
  - intros H. apply IH in H; [|lia]. destruct H. split; [lia|assumption].
  - intros H. inversion H; subst. split; [lia|].
    apply (ends_within r); [lia|]. rewrite Hends. left. reflexivity.
Qed.

Lemma exec_within r last a e :
  JS.exec multiline input r last = Some (a, e) ->
  (last <= a)%nat /\ within input a e.
Proof.
  unfold JS.exec. destruct (Nat.ltb_spec (String.length input) last);
    [discriminate|].
  apply search_from_within. lia.
Qed.

Lemma match_loop_within r fuel last a e :
  In (a, e) (JS.match_loop multiline input r fuel last) ->
  (last <= a)%nat /\ within input a e.
Proof.
  revert last. induction fuel as [|fuel IH]; intros last; simpl; [intros []|].
  destruct (JS.exec multiline input r last) as [[i k]|] eqn:Hexec; [|intros []].
  apply exec_within in Hexec. destruct Hexec as [Hi Hk].
  intros [H|H].
  - inversion H; subst. split; assumption.
  - apply IH in H. destruct H as [H1 H2]. split; [|exact H2].
    unfold within in Hk. destruct (Nat.eqb_spec k i); lia.
Qed.

(** The fuel of the iteration is enough: more of it changes nothing. *)
Lemma star_ends_fuel body :
  (forall i j, (i <= String.length input)%nat -> In j (body i) ->
               within input i j) ->
  forall fuel i,
    (i <= String.length input)%nat ->
    (String.length input - i <= fuel)%nat ->
    JS.star_ends body (S fuel) i = JS.star_ends body fuel i.
Proof.
  intros Hbody. induction fuel as [|fuel IH]; intros i Hi Hfuel.
  - simpl. rewrite flat_map_nil; [reflexivity|].
    intros j Hj. destruct (Hbody _ _ Hi Hj) as [_ Hle].
    destruct (Nat.ltb_spec i j); [lia | reflexivity].
  - change (JS.star_ends body (S (S fuel)) i)
      with (flat_map (fun j => if (i <? j)%nat
                               then JS.star_ends body (S fuel) j else [])
                     (body i) ++ [i]).
    change (JS.star_ends body (S fuel) i)
      with (flat_map (fun j => if (i <? j)%nat
                               then JS.star_ends body fuel j else [])
                     (body i) ++ [i]).
    f_equal. apply flat_map_agree. intros j Hj.
    destruct (Hbody _ _ Hi Hj) as [_ Hle].
    destruct (Nat.ltb_spec i j); [|reflexivity].
    apply IH; lia.
Qed.

(** So is the fuel of the [match] loop. *)
Lemma match_loop_fuel r fuel last :
  (String.length input < last + fuel)%nat ->
  JS.match_loop multiline input r (S fuel) last
  = JS.match_loop multiline input r fuel last.
Proof.
  revert last. induction fuel as [|fuel IH]; intros last Hfuel.
  - simpl. unfold JS.exec.
    destruct (Nat.ltb_spec (String.length input) last); [reflexivity|lia].
  - change (JS.match_loop multiline input r (S (S fuel)) last)
      with (match JS.exec multiline input r last with
            | None => []
            | Some (i, e) =>
                (i, e) :: JS.match_loop multiline input r (S fuel)
                            (if (e =? i)%nat then S e else e)
            end).
    change (JS.match_loop multiline input r (S fuel) last)
      with (match JS.exec multiline input r last with
            | None => []
            | Some (i, e) =>
                (i, e) :: JS.match_loop multiline input r fuel
                            (if (e =? i)%nat then S e else e)
            end).
    destruct (JS.exec multiline input r last) as [[i e]|] eqn:Hexec;
      [|reflexivity].
    apply exec_within in Hexec. destruct Hexec as [Hi [Hie He]].
    f_equal. apply IH. destruct (Nat.eqb_spec e i); lia.
Qed.

(** Every occurrence lies inside the input. *)
Lemma occurrences_within r a e :
  In (a, e) (JS.occurrences multiline input r) -> within input a e.
Proof. intros H. apply match_loop_within in H. apply H. Qed.

End MatcherBounds.

Lemma length_substring s a n :
  (a + n <= String.length s)%nat ->
  String.length (String.substring a n s) = n.
Proof.
  revert a n. induction s as [|c s IH]; intros [|a] [|n] H; simpl in *;
    try reflexivity; try lia.
  - rewrite (IH O n); lia.
  - apply (IH a O). lia.
  - apply (IH a (S n)). lia.
Qed.

(** A text cut out of the content is found by [indexOf], at its own
    offset or before. *)
Lemma index_of_substring s a n :
  (a + n <= String.length s)%nat ->
  exists i, String.index 0 (String.substring a n s) s = Some i /\ (i <= a)%nat.
Proof.
  intros H. pose proof (length_substring s a n H) as Hlen.
  destruct (String.index 0 (String.substring a n s) s) as [i|] eqn:Hidx.
  - exists i. split; [reflexivity|].
    destruct (Nat.le_gt_cases i a) as [|Hlt]; [assumption|].
    exfalso. apply (index_correct2 _ _ _ _ Hidx a); [lia|lia|].
    rewrite Hlen. reflexivity.
  - exfalso. destruct (String.substring a n s) as [|c t] eqn:Hsub.
    + apply index_correct4 in Hidx. lia.
    + apply (index_correct3 _ a _ _ Hidx); [discriminate|lia|].
      rewrite Hlen, Hsub. reflexivity.
Qed.

Lemma count_prefix_mono c s i j :
  (i <= j)%nat ->
  (JS.count_char c (String.substring 0 i s)
   <= JS.count_char c (String.substring 0 j s))%nat.
Proof.
  revert i j. induction s as [|d s IH]; intros [|i] [|j] H; simpl;
    try lia.
  specialize (IH i j). lia.
Qed.

(** What the scanners do report, for every content, pattern and flag:
    the line of the first place in the content where the matched text
    occurs.  That place is the occurrence itself or an earlier one, so the
    reported line is never beyond the occurrence's own, and it is the
    occurrence's own when the text does not occur before it. *)
Theorem reported_line_is_line_of_first_occurrence :
  forall multiline r content m,
    In m (JS.occurrences multiline content r) ->
    exists first,
      String.index 0 (JS.matched_text content m) content = Some first
      /\ (first <= fst m)%nat
      /\ lineNumber content (JS.matched_text content m)
         = line_at_offset content first
      /\ (line_at_offset content first <= line_at_offset content (fst m))%nat.
Proof.
  intros multiline r content [a e] Hm. simpl.
  apply occurrences_within in Hm. unfold within in Hm.
  destruct (index_of_substring content a (e - a)) as [first [Hidx Hle]];
    [lia|].
  exists first. unfold JS.matched_text. simpl. repeat split.
  - exact Hidx.
  - exact Hle.
  - apply lineNumber_first_occurrence. exact Hidx.
  - unfold line_at_offset. apply le_n_S. apply count_prefix_mono. exact Hle.
Qed.

Lemma reported_line_witness :
  exists first,
    String.index 0 (JS.matched_text two_logs (15, 27)%nat) two_logs = Some first
    /\ (first <= 15)%nat
    /\ lineNumber two_logs (JS.matched_text two_logs (15, 27)%nat)
       = line_at_offset two_logs first
    /\ (line_at_offset two_logs first <= line_at_offset two_logs 15)%nat.
Proof.
  apply (reported_line_is_line_of_first_occurrence false
           (JS.cat [JS.Lit "console.log"; JS.Star JS.ws; JS.Char "("])
           two_logs (15, 27)%nat).
  vm_compute. right. left. reflexivity.
Defined.

(** ** What a scan pushes *)

Lemma review_checkPatterns_cons content r patterns :
  AICodeReviewer.checkPatterns content (r :: patterns) []
  = AICodeReviewer.checkPattern content r []
    ++ AICodeReviewer.checkPatterns content patterns [].
Proof.
  change (AICodeReviewer.checkPatterns content (r :: patterns) [])
    with (AICodeReviewer.checkPatterns content patterns
            (AICodeReviewer.checkPattern content r [])).
  apply review_checkPatterns_app.
Qed.

Lemma review_checkPatterns_entries content patterns :
  AICodeReviewer.checkPatterns content patterns []
  = flat_map
      (fun r => map (review_entry content r)
                    (JS.occurrences false content
                       (AICodeReviewer.rule_pattern r)))
      patterns.
Proof.
  induction patterns as [|r patterns IH]; [reflexivity|].
  rewrite review_checkPatterns_cons, IH, review_checkPattern_entries.
  simpl. unfold JS.match_g. rewrite map_map. reflexivity.
Qed.

(** The code review's scan pushes, rule after rule in list order, one
    entry for each occurrence of the rule's pattern, in textual order;
    there are as many entries as occurrences. *)
Theorem review_scan_one_entry_per_occurrence :
  forall content patterns,
    AICodeReviewer.checkPatterns content patterns []
    = flat_map
        (fun r => map (review_entry content r)
                      (JS.occurrences false content
                         (AICodeReviewer.rule_pattern r)))
        patterns
    /\ length (AICodeReviewer.checkPatterns content patterns [])
       = fold_right
           (fun r n => (length (JS.occurrences false content
                                  (AICodeReviewer.rule_pattern r)) + n)%nat)
           O patterns.
Proof.
  intros content patterns.
  split; [apply review_checkPatterns_entries|].
  rewrite review_checkPatterns_entries.
  induction patterns as [|r patterns IH]; simpl; [reflexivity|].
  rewrite length_app, length_map, IH. reflexivity.
Qed.

(** ** Reported lines stay inside the file *)

Lemma count_prefix_le c s n :
  (JS.count_char c (String.substring 0 n s) <= JS.count_char c s)%nat.
Proof.
  revert n. induction s as [|d s IH]; intros [|n]; simpl; try lia.
  specialize (IH n). lia.
Qed.

Lemma substring_from_start content i :
  exists n, JS.substring content 0 i = String.substring 0 n content.
Proof.
  unfold JS.substring, JS.clamp_index.
  replace (Z.to_nat (Z.max 0 (Z.min 0 (Z.of_nat (String.length content)))))
    with O by lia.
  rewrite Nat.min_0_l, Nat.max_0_l, Nat.sub_0_r. eexists. reflexivity.
Qed.

(** Whatever text is looked up, found or not, the line computed lies
    between 1 and the number of lines of the content. *)
Lemma lineNumber_bounds content matched :
  (1 <= lineNumber content matched <= line_count content)%nat.
Proof.
  unfold lineNumber, line_count.
  destruct (substring_from_start content (JS.indexOf content matched))
    as [n Hn].
  rewrite Hn, !split_length. pose proof (count_prefix_le JS.newline content n).
  lia.
Qed.

(** Every entry a scanner pushes carries a line between 1 and the number
    of lines of the file scanned; this holds for the three scanners. *)
Theorem scanned_lines_within_file :
  forall content,
    (forall patterns i,
        In i (AICodeReviewer.checkPatterns content patterns []) ->
        (1 <= AICodeReviewer.line i <= line_count content)%nat)
    /\ (forall v,
           In v (CodeStyleReviewer.checkStylePatterns content []) ->
           (1 <= CodeStyleReviewer.line v <= line_count content)%nat)
    /\ (forall i,
           In i (PerformanceAnalyzer.fa_issues
                   (PerformanceAnalyzer.checkPerformancePatterns content
                      (PerformanceAnalyzer.FileAnalysis [] []))) ->
           (1 <= PerformanceAnalyzer.line i <= line_count content)%nat).
Proof.
  intros content. split; [|split].
  - intros patterns i Hi.
    rewrite review_checkPatterns_entries in Hi.
    apply in_flat_map in Hi. destruct Hi as [r [_ Hi]].
    apply in_map_iff in Hi. destruct Hi as [m [Hm _]]. subst i.
    apply lineNumber_bounds.
  - unfold CodeStyleReviewer.checkStylePatterns, CodeStyleReviewer.scan.
    generalize CodeStyleReviewer.stylePatterns. intros table.
    assert (Hgen : forall acc v,
               In v (fold_left
                       (fun violations '(cat, patterns) =>
                          fold_left
                            (fun violations r =>
                               CodeStyleReviewer.checkPattern content cat r
                                 violations)
                            patterns violations)
                       table acc) ->
               In v acc
               \/ (1 <= CodeStyleReviewer.line v <= line_count content)%nat).
    { induction table as [|[cat patterns] table IH]; intros acc v Hv;
        [left; exact Hv|].
      simpl in Hv. apply IH in Hv. destruct Hv as [Hv|Hv]; [|right; exact Hv].
      clear IH. revert acc Hv.
      induction patterns as [|r patterns IHp]; intros acc Hv;
        [left; exact Hv|].
      simpl in Hv. apply IHp in Hv. destruct Hv as [Hv|Hv]; [|right; exact Hv].
      unfold CodeStyleReviewer.checkPattern in Hv.
      rewrite fold_left_push_each in Hv. apply in_app_or in Hv.
      destruct Hv as [Hv|Hv]; [left; exact Hv|right].
      apply in_map_iff in Hv. destruct Hv as [m [Hm _]]. subst v.
      apply lineNumber_bounds. }
    intros v Hv. apply Hgen in Hv. destruct Hv as [[]|Hv]. exact Hv.
  - unfold PerformanceAnalyzer.checkPerformancePatterns.
    unfold PerformanceAnalyzer.generateOptimizations.
    cbn [PerformanceAnalyzer.fa_issues]. unfold PerformanceAnalyzer.scan.
    generalize PerformanceAnalyzer.performancePatterns. intros table.
    assert (Hgen : forall acc i,
               In i (fold_left
                       (fun issues '(sev, patterns) =>
                          fold_left
                            (fun issues r =>
                               PerformanceAnalyzer.checkPattern content sev r
                                 issues)
                            patterns issues)
                       table acc) ->
               In i acc
               \/ (1 <= PerformanceAnalyzer.line i <= line_count content)%nat).
    { induction table as [|[sev patterns] table IH]; intros acc i Hi;
        [left; exact Hi|].
      simpl in Hi. apply IH in Hi. destruct Hi as [Hi|Hi]; [|right; exact Hi].
      clear IH. revert acc Hi.
      induction patterns as [|r patterns IHp]; intros acc Hi;
        [left; exact Hi|].
      simpl in Hi. apply IHp in Hi. destruct Hi as [Hi|Hi]; [|right; exact Hi].
      unfold PerformanceAnalyzer.checkPattern in Hi.
      rewrite fold_left_push_each in Hi. apply in_app_or in Hi.
      destruct Hi as [Hi|Hi]; [left; exact Hi|right].
      apply in_map_iff in Hi. destruct Hi as [m [Hm _]]. subst i.
      apply lineNumber_bounds. }
    intros i Hi. apply Hgen in Hi. destruct Hi as [[]|Hi]. exact Hi.
Qed.

Lemma scanned_lines_witness :
  let i := AICodeReviewer.Issue low
             "console.log() detected - remove in production" 1
             "/console\.log\s*\(/" in
  In i (AICodeReviewer.checkPatterns two_logs
          AICodeReviewer.performanceIssues [])
  /\ (1 <= AICodeReviewer.line i <= line_count two_logs)%nat.
Proof.
  intros i.
  assert (Hin : In i (AICodeReviewer.checkPatterns two_logs
                        AICodeReviewer.performanceIssues [])).
  { vm_compute. left. reflexivity. }
  split; [exact Hin|].
  exact (proj1 (scanned_lines_within_file two_logs)
               AICodeReviewer.performanceIssues i Hin).
Defined.

(** ** The calculator's history as a log *)





(** ** [formatString] *)

Lemma upper_char_not_lower c : JS.is_lower (JS.upper_char c) = false.
Proof.
  destruct c as [[] [] [] [] [] [] [] []]; reflexivity.
Qed.

Lemma lower_char_not_upper c : JS.is_upper (JS.lower_char c) = false.
Proof.
  destruct c as [[] [] [] [] [] [] [] []]; reflexivity.
Qed.

Lemma upper_char_fixed c : JS.is_lower c = false -> JS.upper_char c = c.
Proof. unfold JS.upper_char. intros ->. reflexivity. Qed.

Lemma lower_char_fixed c : JS.is_upper c = false -> JS.lower_char c = c.
Proof. unfold JS.lower_char. intros ->. reflexivity. Qed.

Lemma toLowerCase_length s : String.length (JS.toLowerCase s) = String.length s.
Proof.
  induction s as [|c s IH]; simpl; [reflexivity|].
  unfold JS.toLowerCase in IH. rewrite IH. reflexivity.
Qed.

Lemma toLowerCase_no_upper s :
  Forall (fun d => JS.is_upper d = false)
         (list_ascii_of_string (JS.toLowerCase s)).
Proof.
  induction s as [|c s IH]; simpl; constructor;
    [apply lower_char_not_upper | exact IH].
Qed.

Lemma toLowerCase_fixed s :
  Forall (fun d => JS.is_upper d = false) (list_ascii_of_string s) ->
  JS.toLowerCase s = s.
Proof.
  induction s as [|c s IH]; simpl; intros H; [reflexivity|].
  inversion H; subst. unfold JS.toLowerCase in *. simpl.
  rewrite lower_char_fixed, IH; auto.
Qed.

Lemma upper_char_ascii c :
  (nat_of_ascii c <? 128)%nat = true ->
  (nat_of_ascii (JS.upper_char c) <? 128)%nat = true.
Proof.
  destruct c as [[] [] [] [] [] [] [] []]; intros H;
    try discriminate H; reflexivity.
Qed.

Lemma lower_char_ascii c :
  (nat_of_ascii c <? 128)%nat = true ->
  (nat_of_ascii (JS.lower_char c) <? 128)%nat = true.
Proof.
  destruct c as [[] [] [] [] [] [] [] []]; intros H;
    try discriminate H; reflexivity.
Qed.

Lemma toLowerCase_ascii s :
  ascii_only s = true -> ascii_only (JS.toLowerCase s) = true.
Proof.
  unfold ascii_only. induction s as [|c s IH]; simpl; [reflexivity|].
  intros H. apply andb_true_iff in H. destruct H as [Hc Hs].
  apply andb_true_iff. split; [apply lower_char_ascii; exact Hc|].
  apply IH. exact Hs.
Qed.

(** [formatString] throws on anything but a string.  On a string of
    ASCII characters it returns a string of the same length, again
    ASCII, its first character not a lower-case letter and no upper-case
    letter after it; an ASCII string of that shape is returned as it is,
    so formatting twice is formatting once. *)
Theorem formatString_capitalizes :
  (forall v, (forall s, v <> JS.VStr s) ->
             Utils.formatString v = JS.Thrown "Argument must be a string")
  /\ (forall s,
        ascii_only s = true ->
        exists t,
          Utils.formatString (JS.VStr s) = JS.Returned t
          /\ String.length t = String.length s
          /\ ascii_only t = true
          /\ capitalized t
          /\ Utils.formatString (JS.VStr t) = JS.Returned t)
  /\ (forall s, ascii_only s = true -> capitalized s ->
                Utils.formatString (JS.VStr s) = JS.Returned s).
Proof.
  assert (Hfix : forall s, capitalized s ->
                           Utils.formatString (JS.VStr s) = JS.Returned s).
  { intros [|c rest]; simpl; [reflexivity|]. intros [Hc Hrest].
    unfold JS.toUpperCase. simpl.
    rewrite upper_char_fixed by exact Hc.
    rewrite toLowerCase_fixed by exact Hrest. reflexivity. }
  assert (Hcap : forall s, capitalized (JS.toUpperCase (JS.charAt0 s)
                                        ++ JS.toLowerCase (JS.slice1 s))%string).
  { intros [|c rest]; simpl; [exact I|]. split.
    - apply upper_char_not_lower.
    - apply toLowerCase_no_upper. }
  split; [|split].
  - intros v Hv. destruct v; try reflexivity. exfalso. eapply Hv. reflexivity.
  - intros s Hs. eexists. split; [reflexivity|]. split; [|split; [|split]].
    + destruct s as [|c rest]; simpl; [reflexivity|].
      f_equal. apply toLowerCase_length.
    + destruct s as [|c rest]; [reflexivity|].
      unfold ascii_only in Hs. simpl in Hs.
      apply andb_true_iff in Hs. destruct Hs as [Hc Hrest].
      unfold ascii_only. simpl. apply andb_true_iff.
      split; [apply upper_char_ascii; exact Hc|].
      apply toLowerCase_ascii. exact Hrest.
    + apply Hcap.
    + apply Hfix. apply Hcap.
  - intros s _. apply Hfix.
Qed.

Lemma formatString_witness :
  ascii_only "Hello world" = true
  /\ capitalized "Hello world"
  /\ Utils.formatString (JS.VStr "Hello world") = JS.Returned "Hello world".
Proof.
  assert (H : capitalized "Hello world").
  { simpl. split; [reflexivity|]. repeat constructor. }
  split; [reflexivity|]. split; [exact H|].
  exact (proj2 (proj2 formatString_capitalizes) "Hello world" eq_refl H).
Defined.

(** ** Reports that cannot be used *)

Section Readers.

Import JS MergeReadinessAssessor.

Lemma readTestResults_unusable w :
  unusable (files w !! "test-analysis-report.json") ->
  readTestResults w = TestResults zero zero zero zero VNull.
Proof.
  unfold readTestResults, existsSync, readJson.
  intros [H | [H | H]]; rewrite H; reflexivity.
Qed.

Lemma readCodeQualityResults_unusable w :
  unusable (files w !! "code-style-review-results.json") ->
  readCodeQualityResults w = CodeQualityResults zero zero zero zero.
Proof.
  unfold readCodeQualityResults, existsSync, readJson.
  intros [H | [H | H]]; rewrite H; reflexivity.
Qed.

Lemma readSecurityResults_unusable w :
  unusable (files w !! "security-scan-results.json") ->
  readSecurityResults w = SecurityResults zero zero zero zero.
Proof.
  unfold readSecurityResults, existsSync, readJson.
  intros [H | [H | H]]; rewrite H; reflexivity.
Qed.

Lemma readPerformanceResults_unusable w :
  unusable (files w !! "performance-analysis-results.json") ->
  readPerformanceResults w = PerformanceResults zero zero zero.
Proof.
  unfold readPerformanceResults, existsSync, readJson.
  intros [H | [H | H]]; rewrite H; reflexivity.
Qed.

End Readers.

(** A report that exists but cannot be read or parsed, or that holds the
    JSON text [null], is treated exactly like a missing one: the reader
    swallows the exception and returns its zero defaults. *)
Theorem unusable_report_reads_as_defaults :
  forall w : JS.world,
    (unusable (JS.files w !! "test-analysis-report.json") ->
     MergeReadinessAssessor.readTestResults w
     = MergeReadinessAssessor.TestResults
         (JS.VNum 0) (JS.VNum 0) (JS.VNum 0) (JS.VNum 0) JS.VNull)
    /\ (unusable (JS.files w !! "code-style-review-results.json") ->
        MergeReadinessAssessor.readCodeQualityResults w
        = MergeReadinessAssessor.CodeQualityResults
            (JS.VNum 0) (JS.VNum 0) (JS.VNum 0) (JS.VNum 0))
    /\ (unusable (JS.files w !! "security-scan-results.json") ->
        MergeReadinessAssessor.readSecurityResults w
        = MergeReadinessAssessor.SecurityResults
            (JS.VNum 0) (JS.VNum 0) (JS.VNum 0) (JS.VNum 0))
    /\ (unusable (JS.files w !! "performance-analysis-results.json") ->
        MergeReadinessAssessor.readPerformanceResults w
        = MergeReadinessAssessor.PerformanceResults
            (JS.VNum 0) (JS.VNum 0) (JS.VNum 0)).
Proof.
  intros w. repeat split.
  - apply readTestResults_unusable.
  - apply readCodeQualityResults_unusable.
  - apply readSecurityResults_unusable.
  - apply readPerformanceResults_unusable.
Qed.

Lemma unusable_report_witness :
  let w := JS.World (<["test-analysis-report.json" := JS.Unparsable]> ∅) true in
  unusable (JS.files w !! "test-analysis-report.json")
  /\ MergeReadinessAssessor.readTestResults w
     = MergeReadinessAssessor.TestResults
         (JS.VNum 0) (JS.VNum 0) (JS.VNum 0) (JS.VNum 0) JS.VNull.
Proof.
  intros w.
  assert (H : unusable (JS.files w !! "test-analysis-report.json")).
  { right. left. reflexivity. }
  split; [exact H|].
  exact (proj1 (unusable_report_reads_as_defaults w) H).
Defined.

(** ** The outcome of a run *)



(** ** How high a run can score *)

Lemma deduct_app {A : Type} (cost : A -> Z) start l1 l2 :
  deduct cost start (l1 ++ l2) = deduct cost (deduct cost start l1) l2.
Proof. apply fold_left_app. Qed.

Lemma deduct_mono {A : Type} (cost : A -> Z) l start start' :
  start <= start' -> deduct cost start l <= deduct cost start' l.
Proof.
  revert start start'. induction l as [|x l IH]; intros start start' H.
  - exact H.
  - rewrite !deduct_cons. apply IH. lia.
Qed.

Lemma verdict_score to_number w :
  MergeReadinessAssessor.score (verdict to_number w)
  = Z.max 0
      (deduct (fun f => MergeReadinessAssessor.warning_penalty
                          (MergeReadinessAssessor.severity f))
         (deduct (fun f => MergeReadinessAssessor.blocker_penalty
                             (MergeReadinessAssessor.severity f))
            100
            (MergeReadinessAssessor.blockers
               (MergeReadinessAssessor.runAllChecks to_number w
                  MergeReadinessAssessor.new)))
         (MergeReadinessAssessor.warnings
            (MergeReadinessAssessor.runAllChecks to_number w
               MergeReadinessAssessor.new))).
Proof. reflexivity. Qed.

(** No run scores above 80, and none is ready: the approvals blocker is
    always there and costs 20.  The bound is reached: when every check on
    the four reports passes, the verdict is a score of exactly 80 with the
    approvals blocker alone and no warning, and the recommendation still
    says the change is not ready. *)
Theorem assess_score_at_most_80 :
  forall (to_number : JS.value -> option Q) (w : JS.world),
    MergeReadinessAssessor.score (verdict to_number w) <= 80
    /\ MergeReadinessAssessor.getRecommendation (verdict to_number w)
       = "PR is not ready for merge. Address blockers and warnings."
    /\ (all_checks_pass to_number w = true ->
        verdict to_number w
        = MergeReadinessAssessor.Assessment false 80
            [MergeReadinessAssessor.Finding "approvals" high] []).
Proof.
  intros to_number w.
  destruct (runAllChecks_blockers to_number w MergeReadinessAssessor.new)
    as [pushed Hb].
  split; [|split].
  - rewrite verdict_score.
    set (bs := MergeReadinessAssessor.blockers _).
    set (ws := MergeReadinessAssessor.warnings _).
    assert (Hin : In (MergeReadinessAssessor.Finding "approvals" high) bs).
    { subst bs. rewrite Hb. simpl. apply in_or_app. right. left. reflexivity. }
    pose proof (deduct_In
                  (fun f => MergeReadinessAssessor.blocker_penalty
                              (MergeReadinessAssessor.severity f))
                  (fun f => blocker_penalty_nonneg _) 100 bs _ Hin)
      as H1.
    pose proof (deduct_le
                  (fun f => MergeReadinessAssessor.warning_penalty
                              (MergeReadinessAssessor.severity f))
                  (fun f => warning_penalty_nonneg _)
                  (deduct (fun f => MergeReadinessAssessor.blocker_penalty
                                      (MergeReadinessAssessor.severity f))
                          100 bs) ws) as H2.
    simpl in H1. lia.
  - unfold MergeReadinessAssessor.getRecommendation, verdict.
    rewrite calculateReadiness_ready, Hb. simpl.
    destruct pushed; reflexivity.
  - unfold all_checks_pass. rewrite !andb_true_iff, negb_true_iff.
    intros [[[[[[[[[[H1 H2] H3] H4] H5] H6] H7] H8] H9] H10] H11].
    unfold verdict, MergeReadinessAssessor.runAllChecks,
      MergeReadinessAssessor.checkTestResults,
      MergeReadinessAssessor.checkCodeQuality,
      MergeReadinessAssessor.checkSecurity,
      MergeReadinessAssessor.checkPerformance.
    cbv zeta. rewrite H1, H2, H3, H4, H5, H6, H7, H8, H9, H10, H11.
    reflexivity.
Qed.

Lemma assess_score_witness :
  all_checks_pass always_NaN perfect_directory = true
  /\ verdict always_NaN perfect_directory
     = MergeReadinessAssessor.Assessment false 80
         [MergeReadinessAssessor.Finding "approvals" high] [].
Proof.
  assert (H : all_checks_pass always_NaN perfect_directory = true)
    by (vm_compute; reflexivity).
  split; [exact H|].
  exact (proj2 (proj2 (assess_score_at_most_80 always_NaN perfect_directory))
               H).
Defined.

(** With none of the four reports there, every run reaches the same
    verdict: tests failing and coverage insufficient as blockers beside
    the approvals, three score warnings, and 19 points. *)
Theorem assess_without_reports :
  forall (to_number : JS.value -> option Q) (w : JS.world),
    reports_absent w ->
    verdict to_number w
    = MergeReadinessAssessor.Assessment false 19
        [ MergeReadinessAssessor.Finding "test-failure" critical;
          MergeReadinessAssessor.Finding "coverage" high;
          MergeReadinessAssessor.Finding "approvals" high ]
        [ MergeReadinessAssessor.Finding "style-score" medium;
          MergeReadinessAssessor.Finding "security-score" high;
          MergeReadinessAssessor.Finding "performance-score" medium ].
Proof.
  intros to_number w H. unfold reports_absent, report_names in H.
  inversion H as [|? ? H1 H']; subst. inversion H' as [|? ? H2 H'']; subst.
  inversion H'' as [|? ? H3 H''']; subst. inversion H''' as [|? ? H4 _]; subst.
  unfold verdict, MergeReadinessAssessor.runAllChecks,
    MergeReadinessAssessor.checkTestResults,
    MergeReadinessAssessor.checkCodeQuality,
    MergeReadinessAssessor.checkSecurity,
    MergeReadinessAssessor.checkPerformance.
  rewrite (readTestResults_unusable w (or_introl H1)).
  rewrite (readCodeQualityResults_unusable w (or_introl H2)).
  rewrite (readSecurityResults_unusable w (or_introl H3)).
  rewrite (readPerformanceResults_unusable w (or_introl H4)).
  reflexivity.
Qed.

Lemma assess_without_reports_witness :
  reports_absent empty_directory
  /\ MergeReadinessAssessor.score (verdict always_NaN empty_directory) = 19.
Proof.
  assert (H : reports_absent empty_directory) by (repeat constructor).
  split; [exact H|].
  rewrite (assess_without_reports always_NaN empty_directory H). reflexivity.
Defined.

(** ** Running the checks again *)

Lemma add_findings_new this :
  add_findings this [] [] = this.
Proof. destruct this. unfold add_findings. simpl. rewrite !app_nil_r. reflexivity. Qed.

Lemma add_findings_twice this b1 w1 b2 w2 :
  add_findings (add_findings this b1 w1) b2 w2
  = add_findings this (b1 ++ b2) (w1 ++ w2).
Proof. unfold add_findings. simpl. rewrite <- !app_assoc. reflexivity. Qed.

Lemma push_blocker_adds cond f this :
  MergeReadinessAssessor.push_blocker cond f this
  = add_findings this (if cond then [f] else []) [].
Proof.
  destruct cond; simpl.
  - unfold add_findings. rewrite app_nil_r. reflexivity.
  - symmetry. apply add_findings_new.
Qed.

Lemma push_warning_adds cond f this :
  MergeReadinessAssessor.push_warning cond f this
  = add_findings this [] (if cond then [f] else []).
Proof.
  destruct cond; simpl.
  - unfold add_findings. rewrite app_nil_r. reflexivity.
  - symmetry. apply add_findings_new.
Qed.

Lemma runAllChecks_adds to_number w :
  exists bs ws, forall this,
    MergeReadinessAssessor.runAllChecks to_number w this
    = add_findings this bs ws.
Proof.
  eexists. eexists. intros this.
  unfold MergeReadinessAssessor.runAllChecks,
    MergeReadinessAssessor.checkTestResults,
    MergeReadinessAssessor.checkCodeQuality,
    MergeReadinessAssessor.checkSecurity,
    MergeReadinessAssessor.checkPerformance,
    MergeReadinessAssessor.checkDocumentation,
    MergeReadinessAssessor.checkApprovals.
  cbv zeta.
  rewrite ?push_blocker_adds, ?push_warning_adds, ?add_findings_twice.
  rewrite ?push_blocker_adds, ?push_warning_adds, ?add_findings_twice.
  reflexivity.
Qed.

(** The checks never reset, remove or reorder findings: run on an
    assessor that already holds findings they push those of a fresh run
    after them.  So a second [runAllChecks] on the same assessor doubles
    the findings, and the verdict that follows never scores above the
    first. *)
Theorem checks_accumulate :
  forall (to_number : JS.value -> option Q) (w : JS.world)
         (this : MergeReadinessAssessor.assessment),
    let fresh :=
      MergeReadinessAssessor.runAllChecks to_number w
        MergeReadinessAssessor.new in
    MergeReadinessAssessor.runAllChecks to_number w this
    = add_findings this (MergeReadinessAssessor.blockers fresh)
                        (MergeReadinessAssessor.warnings fresh)
    /\ MergeReadinessAssessor.score
         (MergeReadinessAssessor.calculateReadiness
            (MergeReadinessAssessor.runAllChecks to_number w fresh))
       <= MergeReadinessAssessor.score (verdict to_number w).
Proof.
  intros to_number w this fresh.
  destruct (runAllChecks_adds to_number w) as [bs [ws H]].
  assert (Hfresh : fresh = MergeReadinessAssessor.Assessment false 0 bs ws).
  { subst fresh. rewrite H. reflexivity. }
  split.
  - rewrite H, Hfresh. reflexivity.
  - unfold verdict. fold fresh. rewrite (H fresh), Hfresh.
    unfold add_findings, MergeReadinessAssessor.calculateReadiness. simpl.
    fold (deduct (fun f => MergeReadinessAssessor.blocker_penalty
                             (MergeReadinessAssessor.severity f)) 100 (bs ++ bs)).
    fold (deduct (fun f => MergeReadinessAssessor.blocker_penalty
                             (MergeReadinessAssessor.severity f)) 100 bs).
    set (cb := fun f => MergeReadinessAssessor.blocker_penalty
                          (MergeReadinessAssessor.severity f)).
    set (cw := fun f => MergeReadinessAssessor.warning_penalty
                          (MergeReadinessAssessor.severity f)).
    change (Z.max 0 (deduct cw (deduct cb 100 (bs ++ bs)) (ws ++ ws))
            <= Z.max 0 (deduct cw (deduct cb 100 bs) ws)).
    rewrite !deduct_app.
    assert (Hb : deduct cb (deduct cb 100 bs) bs <= deduct cb 100 bs).
    { apply deduct_le. intros f. apply blocker_penalty_nonneg. }
    assert (Hw : deduct cw (deduct cw (deduct cb (deduct cb 100 bs) bs) ws) ws
                 <= deduct cw (deduct cb (deduct cb 100 bs) bs) ws).
    { apply deduct_le. intros f. apply warning_penalty_nonneg. }
    pose proof (deduct_mono cw ws _ _ Hb). lia.
Qed.

(** ** The severities a scan can produce *)

Lemma review_scan_provenance content patterns acc i :
  In i (AICodeReviewer.checkPatterns content patterns acc) ->
  In i acc
  \/ exists r, In r patterns
               /\ AICodeReviewer.severity i = AICodeReviewer.rule_severity r.
Proof.
  revert acc. induction patterns as [|r patterns IH]; intros acc Hi;
    [left; exact Hi|].
  change (AICodeReviewer.checkPatterns content (r :: patterns) acc)
    with (AICodeReviewer.checkPatterns content patterns
            (AICodeReviewer.checkPattern content r acc)) in Hi.
  apply IH in Hi. destruct Hi as [Hi | [r' [Hr' Hs]]].
  - rewrite review_checkPattern_entries in Hi. apply in_app_or in Hi.
    destruct Hi as [Hi|Hi]; [left; exact Hi|right].
    apply in_map_iff in Hi. destruct Hi as [m [Hm _]]. subst i.
    exists r. split; [left; reflexivity|reflexivity].
  - right. exists r'. split; [right; exact Hr'|exact Hs].
Qed.

Lemma style_scan_provenance content table acc v :
  In v (CodeStyleReviewer.scan content table acc) ->
  In v acc
  \/ exists cat patterns r,
       In (cat, patterns) table /\ In r patterns
       /\ CodeStyleReviewer.category v = cat
       /\ CodeStyleReviewer.severity v = CodeStyleReviewer.rule_severity r.
Proof.
  unfold CodeStyleReviewer.scan. revert acc.
  induction table as [|[cat patterns] table IH]; intros acc Hv;
    [left; exact Hv|].
  simpl in Hv. apply IH in Hv.
  destruct Hv as [Hv | [cat' [ps' [r' [Ht [Hr Hs]]]]]].
  - assert (Hinner : forall ps acc',
               In v (fold_left
                       (fun violations r =>
                          CodeStyleReviewer.checkPattern content cat r
                            violations) ps acc') ->
               In v acc'
               \/ exists r, In r ps
                            /\ CodeStyleReviewer.category v = cat
                            /\ CodeStyleReviewer.severity v
                               = CodeStyleReviewer.rule_severity r).
    { clear. induction ps as [|r ps IHp]; intros acc' Hv; [left; exact Hv|].
      simpl in Hv. apply IHp in Hv. destruct Hv as [Hv | [r' [Hr' Hs]]].
      - unfold CodeStyleReviewer.checkPattern in Hv.
        rewrite fold_left_push_each in Hv. apply in_app_or in Hv.
        destruct Hv as [Hv|Hv]; [left; exact Hv|right].
        apply in_map_iff in Hv. destruct Hv as [m [Hm _]]. subst v.
        exists r. split; [left; reflexivity|split; reflexivity].
      - right. exists r'. split; [right; exact Hr'|exact Hs]. }
    apply Hinner in Hv. destruct Hv as [Hv | [r [Hr Hs]]]; [left; exact Hv|].
    right. exists cat, patterns, r. split; [left; reflexivity|].
    split; [exact Hr|exact Hs].
  - right. exists cat', ps', r'. split; [right; exact Ht|].
    split; [exact Hr|exact Hs].
Qed.

Lemma perf_scan_provenance content table acc i :
  In i (PerformanceAnalyzer.scan content table acc) ->
  In i acc
  \/ exists sev patterns,
       In (sev, patterns) table /\ PerformanceAnalyzer.severity i = sev.
Proof.
  unfold PerformanceAnalyzer.scan. revert acc.
  induction table as [|[sev patterns] table IH]; intros acc Hi;
    [left; exact Hi|].
  simpl in Hi. apply IH in Hi.
  destruct Hi as [Hi | [sev' [ps' [Ht Hs]]]].
  - assert (Hinner : forall ps acc',
               In i (fold_left
                       (fun issues r =>
                          PerformanceAnalyzer.checkPattern content sev r issues)
                       ps acc') ->
               In i acc' \/ PerformanceAnalyzer.severity i = sev).
    { clear. induction ps as [|r ps IHp]; intros acc' Hi; [left; exact Hi|].
      simpl in Hi. apply IHp in Hi. destruct Hi as [Hi | Hs].
      - unfold PerformanceAnalyzer.checkPattern in Hi.
        rewrite fold_left_push_each in Hi. apply in_app_or in Hi.
        destruct Hi as [Hi|Hi]; [left; exact Hi|right].
        apply in_map_iff in Hi. destruct Hi as [m [Hm _]]. subst i.
        reflexivity.
      - right. exact Hs. }
    apply Hinner in Hi. destruct Hi as [Hi | Hs]; [left; exact Hi|].
    right. exists sev, patterns. split; [left; reflexivity|exact Hs].
  - right. exists sev', ps'. split; [right; exact Ht|exact Hs].
Qed.

Lemma review_tables_severities r :
  In r (AICodeReviewer.securityIssues ++ AICodeReviewer.performanceIssues
        ++ AICodeReviewer.codeQuality) ->
  AICodeReviewer.rule_severity r <> critical.
Proof.
  intros H.
  assert (Hb : forallb (fun r => negb (bool_decide
                                         (AICodeReviewer.rule_severity r
                                          = critical)))
                       (AICodeReviewer.securityIssues
                        ++ AICodeReviewer.performanceIssues
                        ++ AICodeReviewer.codeQuality) = true)
    by reflexivity.
  rewrite forallb_forall in Hb. specialize (Hb r H).
  apply negb_true_iff, bool_decide_eq_false in Hb. exact Hb.
Qed.

Lemma review_content_severities content i :
  In i (AICodeReviewer.fa_issues (AICodeReviewer.analyzeContent content)) ->
  AICodeReviewer.severity i <> critical.
Proof.
  unfold AICodeReviewer.analyzeContent. cbn [AICodeReviewer.fa_issues].
  intros H.
  apply review_scan_provenance in H. destruct H as [H | [r [Hr Hs]]].
  - apply review_scan_provenance in H. destruct H as [H | [r [Hr Hs]]].
    + apply review_scan_provenance in H. destruct H as [[] | [r [Hr Hs]]].
      rewrite Hs. apply review_tables_severities.
      apply in_or_app. left. exact Hr.
    + rewrite Hs. apply review_tables_severities.
      apply in_or_app. right. apply in_or_app. left. exact Hr.
  - rewrite Hs. apply review_tables_severities.
    apply in_or_app. right. apply in_or_app. right. exact Hr.
Qed.

Lemma style_content_severities content v :
  In v (CodeStyleReviewer.checkStylePatterns content []) ->
  CodeStyleReviewer.severity v = medium \/ CodeStyleReviewer.severity v = low.
Proof.
  unfold CodeStyleReviewer.checkStylePatterns. intros H.
  apply style_scan_provenance in H.
  destruct H as [[] | [cat [ps [r [Ht [Hr [_ Hs]]]]]]].
  assert (Hb : forallb
                 (fun '(_, ps) =>
                    forallb (fun r =>
                               match CodeStyleReviewer.rule_severity r with
                               | medium | low => true
                               | _ => false
                               end) ps)
                 CodeStyleReviewer.stylePatterns = true) by reflexivity.
  rewrite forallb_forall in Hb. specialize (Hb _ Ht). simpl in Hb.
  rewrite forallb_forall in Hb. specialize (Hb _ Hr).
  rewrite Hs. destruct (CodeStyleReviewer.rule_severity r);
    try discriminate; auto.
Qed.

Lemma perf_content_severities content i :
  In i (PerformanceAnalyzer.fa_issues
          (PerformanceAnalyzer.checkPerformancePatterns content
             (PerformanceAnalyzer.FileAnalysis [] []))) ->
  PerformanceAnalyzer.severity i <> low.
Proof.
  unfold PerformanceAnalyzer.checkPerformancePatterns,
    PerformanceAnalyzer.generateOptimizations.
  cbn [PerformanceAnalyzer.fa_issues]. intros H.
  apply perf_scan_provenance in H. destruct H as [[] | [sev [ps [Ht Hs]]]].
  assert (Hb : forallb (fun '(sev, _) => negb (bool_decide (sev = low)))
                       PerformanceAnalyzer.performancePatterns = true)
    by reflexivity.
  rewrite forallb_forall in Hb. specialize (Hb _ Ht). simpl in Hb.
  apply negb_true_iff, bool_decide_eq_false in Hb. rewrite Hs. exact Hb.
Qed.

(** ** What the drivers collect *)

Lemma reviewed_from contents this :
  let final := fold_left (fun this content =>
                            AICodeReviewer.analyzeFile content this)
                         contents this in
  AICodeReviewer.issues final
  = AICodeReviewer.issues this
    ++ flat_map (fun c => AICodeReviewer.fa_issues
                            (AICodeReviewer.analyzeContent c)) contents
  /\ AICodeReviewer.positives final
     = AICodeReviewer.positives this
       ++ flat_map (fun c => AICodeReviewer.fa_positives
                               (AICodeReviewer.analyzeContent c)) contents.
Proof.
  revert this. induction contents as [|c contents IH]; intros this; simpl.
  - rewrite !app_nil_r. split; reflexivity.
  - destruct (IH (AICodeReviewer.analyzeFile c this)) as [H1 H2].
    simpl in H1, H2. rewrite H1, H2. simpl. rewrite <- !app_assoc.
    split; reflexivity.
Qed.

Lemma style_reviewed_from contents this :
  CodeStyleReviewer.violations (style_reviewed contents this)
  = CodeStyleReviewer.violations this
    ++ flat_map (fun c => CodeStyleReviewer.checkStylePatterns c []) contents
  /\ CodeStyleReviewer.metrics (style_reviewed contents this)
     = CodeStyleReviewer.metrics this.
Proof.
  unfold style_reviewed. revert this.
  induction contents as [|c contents IH]; intros this; simpl.
  - rewrite app_nil_r. split; reflexivity.
  - destruct (IH (CodeStyleReviewer.reviewFile c this)) as [H1 H2].
    rewrite H1, H2. simpl. rewrite <- app_assoc. split; reflexivity.
Qed.

Lemma analyzed_from contents this :
  let final := fold_left (fun this content =>
                            PerformanceAnalyzer.analyzeFile content this)
                         contents this in
  PerformanceAnalyzer.issues final
  = PerformanceAnalyzer.issues this
    ++ flat_map (fun c => PerformanceAnalyzer.fa_issues
                            (PerformanceAnalyzer.checkPerformancePatterns c
                               (PerformanceAnalyzer.FileAnalysis [] [])))
                contents
  /\ PerformanceAnalyzer.optimizations final
     = PerformanceAnalyzer.optimizations this
       ++ flat_map (fun c => PerformanceAnalyzer.fa_optimizations
                               (PerformanceAnalyzer.checkPerformancePatterns c
                                  (PerformanceAnalyzer.FileAnalysis [] [])))
                   contents.
Proof.
  revert this. induction contents as [|c contents IH]; intros this; simpl.
  - rewrite !app_nil_r. split; reflexivity.
  - destruct (IH (PerformanceAnalyzer.analyzeFile c this)) as [H1 H2].
    simpl in H1, H2. rewrite H1, H2. simpl. rewrite <- !app_assoc.
    split; reflexivity.
Qed.

(** ** Grouping by severity *)

Lemma review_group_filter l g :
  Forall (fun i => AICodeReviewer.severity i <> critical) l ->
  JS.for_each AICodeReviewer.group_push l g
  = JS.Returned
      (AICodeReviewer.Grouped
         (AICodeReviewer.group_high g ++ review_issues_of high l)
         (AICodeReviewer.group_medium g ++ review_issues_of medium l)
         (AICodeReviewer.group_low g ++ review_issues_of low l)).
Proof.
  revert g. induction l as [|i l IH]; intros g H; simpl.
  - rewrite !app_nil_r. destruct g; reflexivity.
  - inversion H as [|? ? Hi Hl]; subst.
    unfold AICodeReviewer.group_push at 1.
    destruct (AICodeReviewer.severity i) eqn:Hs; [congruence| | |];
      rewrite (IH _ Hl); unfold review_issues_of; simpl;
      rewrite ?Hs; simpl; rewrite <- ?app_assoc; reflexivity.
Qed.

Lemma review_group_throws l g :
  Exists (fun i => AICodeReviewer.severity i = critical) l ->
  exists e, JS.for_each AICodeReviewer.group_push l g = JS.Thrown e.
Proof.
  revert g. induction l as [|i l IH]; intros g H; [inversion H|].
  simpl. unfold AICodeReviewer.group_push at 1.
  destruct (AICodeReviewer.severity i) eqn:Hs;
    try (eexists; reflexivity);
    (inversion H as [? ? Hi | ? ? Hl]; subst; [congruence|]);
    apply IH; exact Hl.
Qed.

Lemma review_groups_length l :
  Forall (fun i => AICodeReviewer.severity i <> critical) l ->
  (length (review_issues_of high l) + length (review_issues_of medium l)
   + length (review_issues_of low l) = length l)%nat.
Proof.
  induction 1 as [|i l Hi Hl IH]; [reflexivity|].
  unfold review_issues_of in *. simpl.
  destruct (AICodeReviewer.severity i); [congruence| | |]; simpl; lia.
Qed.

(** The code review's grouping puts every issue under its severity, in
    the order found, and loses none.  It has no group for [critical]: an
    issue of that severity makes it throw.  After a review it never
    throws, since no rule of the review has that severity. *)
Theorem review_grouping :
  (forall this,
      Forall (fun i => AICodeReviewer.severity i <> critical)
             (AICodeReviewer.issues this) ->
      AICodeReviewer.groupIssuesBySeverity this
      = JS.Returned
          (AICodeReviewer.Grouped
             (review_issues_of high (AICodeReviewer.issues this))
             (review_issues_of medium (AICodeReviewer.issues this))
             (review_issues_of low (AICodeReviewer.issues this)))
      /\ (length (review_issues_of high (AICodeReviewer.issues this))
          + length (review_issues_of medium (AICodeReviewer.issues this))
          + length (review_issues_of low (AICodeReviewer.issues this))
          = length (AICodeReviewer.issues this))%nat)
  /\ (forall this,
         Exists (fun i => AICodeReviewer.severity i = critical)
                (AICodeReviewer.issues this) ->
         exists e, AICodeReviewer.groupIssuesBySeverity this = JS.Thrown e)
  /\ (forall contents,
         exists g,
           AICodeReviewer.groupIssuesBySeverity
             (AICodeReviewer.performReview contents) = JS.Returned g).
Proof.
  split; [|split].
  - intros this H. split.
    + unfold AICodeReviewer.groupIssuesBySeverity.
      rewrite (review_group_filter _ _ H). reflexivity.
    + apply review_groups_length. exact H.
  - intros this H. apply review_group_throws. exact H.
  - intros contents. eexists.
    unfold AICodeReviewer.groupIssuesBySeverity.
    apply review_group_filter.
    unfold AICodeReviewer.performReview. cbn [AICodeReviewer.calculateScore
                                              AICodeReviewer.issues].
    rewrite (proj1 (reviewed_from contents AICodeReviewer.new)). simpl.
    apply List.Forall_forall. intros i Hi. apply in_flat_map in Hi.
    destruct Hi as [c [_ Hi]]. eapply review_content_severities. exact Hi.
Qed.

Lemma review_grouping_witness :
  let this := AICodeReviewer.ReviewResults 0
                [AICodeReviewer.Issue critical "m" 1 "p"] [] [] in
  Exists (fun i => AICodeReviewer.severity i = critical)
         (AICodeReviewer.issues this)
  /\ exists e, AICodeReviewer.groupIssuesBySeverity this = JS.Thrown e.
Proof.
  intros this.
  assert (H : Exists (fun i => AICodeReviewer.severity i = critical)
                     (AICodeReviewer.issues this)).
  { left. reflexivity. }
  split; [exact H|].
  exact (proj1 (proj2 review_grouping) this H).
Defined.

Lemma style_group_filter l g :
  Forall (fun v => CodeStyleReviewer.severity v <> critical) l ->
  JS.for_each CodeStyleReviewer.group_push l g
  = JS.Returned
      (CodeStyleReviewer.Grouped
         (CodeStyleReviewer.group_high g ++ violations_of high l)
         (CodeStyleReviewer.group_medium g ++ violations_of medium l)
         (CodeStyleReviewer.group_low g ++ violations_of low l)).
Proof.
  revert g. induction l as [|v l IH]; intros g H; simpl.
  - rewrite !app_nil_r. destruct g; reflexivity.
  - inversion H as [|? ? Hv Hl]; subst.
    unfold CodeStyleReviewer.group_push at 1.
    destruct (CodeStyleReviewer.severity v) eqn:Hs; [congruence| | |];
      rewrite (IH _ Hl); unfold violations_of; simpl;
      rewrite ?Hs; simpl; rewrite <- ?app_assoc; reflexivity.
Qed.

Lemma perf_group_filter l g :
  Forall (fun i => PerformanceAnalyzer.severity i <> low) l ->
  JS.for_each PerformanceAnalyzer.group_push l g
  = JS.Returned
      (PerformanceAnalyzer.Grouped
         (PerformanceAnalyzer.group_critical g ++ perf_issues_of critical l)
         (PerformanceAnalyzer.group_high g ++ perf_issues_of high l)
         (PerformanceAnalyzer.group_medium g ++ perf_issues_of medium l)).
Proof.
  revert g. induction l as [|i l IH]; intros g H; simpl.
  - rewrite !app_nil_r. destruct g; reflexivity.
  - inversion H as [|? ? Hi Hl]; subst.
    unfold PerformanceAnalyzer.group_push at 1.
    destruct (PerformanceAnalyzer.severity i) eqn:Hs; [| | |congruence];
      rewrite (IH _ Hl); unfold perf_issues_of; simpl;
      rewrite ?Hs; simpl; rewrite <- ?app_assoc; reflexivity.
Qed.

(** ** Grouping by category *)

Lemma for_each_app {A S : Type} (body : S -> A -> JS.outcome S) l1 l2 s :
  JS.for_each body (l1 ++ l2) s
  = match JS.for_each body l1 s with
    | JS.Returned s' => JS.for_each body l2 s'
    | JS.Thrown e => JS.Thrown e
    end.
Proof.
  revert s. induction l1 as [|x l1 IH]; intros s; simpl; [reflexivity|].
  destruct (body s x); [apply IH|reflexivity].
Qed.

Lemma category_group_snoc k k' l grouped :
  CodeStyleReviewer.category_group k (grouped ++ [(k', l)])
  = match CodeStyleReviewer.category_group k grouped with
    | Some found => Some found
    | None => if String.eqb k' k then Some l else None
    end.
Proof.
  induction grouped as [|[k0 vs] grouped IH]; simpl; [reflexivity|].
  destruct (String.eqb k0 k); [reflexivity|exact IH].
Qed.

Lemma category_group_push k k' v grouped :
  CodeStyleReviewer.category_group k
    (CodeStyleReviewer.category_push k' v grouped)
  = if String.eqb k' k
    then option_map (fun l => l ++ [v])
                    (CodeStyleReviewer.category_group k grouped)
    else CodeStyleReviewer.category_group k grouped.
Proof.
  induction grouped as [|[k0 vs] grouped IH]; simpl.
  - destruct (String.eqb k' k); reflexivity.
  - destruct (String.eqb_spec k0 k') as [E1|N1]; simpl;
      destruct (String.eqb_spec k0 k) as [E2|N2]; simpl;
      destruct (String.eqb_spec k' k) as [E3|N3]; simpl;
      subst; try congruence; try reflexivity.
Qed.

Lemma violations_in_snoc cat p v :
  violations_in cat (p ++ [v])
  = if String.eqb (CodeStyleReviewer.category v) cat
    then Some (match violations_in cat p with
               | Some found => found ++ [v]
               | None => [v]
               end)
    else violations_in cat p.
Proof.
  unfold violations_in. rewrite List.filter_app. simpl.
  destruct (String.eqb (CodeStyleReviewer.category v) cat).
  - destruct (List.filter _ p); reflexivity.
  - rewrite app_nil_r. reflexivity.
Qed.

(** Without a category that names an inherited property the loop runs
    to its end, and what it built holds under each category the
    violations of that category. *)
Lemma style_categories_grouped l :
  Forall (fun v => inherited_category v = false) l ->
  exists grouped,
    JS.for_each CodeStyleReviewer.group_by_category l [] = JS.Returned grouped
    /\ forall cat,
        CodeStyleReviewer.category_group cat grouped = violations_in cat l.
Proof.
  induction l as [|v l IH] using rev_ind; intros H.
  - exists []. split; reflexivity.
  - apply Forall_app in H. destruct H as [Hl Hv].
    inversion Hv as [|? ? Hown _]; subst.
    destruct (IH Hl) as [grouped [Hrun Hgroups]].
    rewrite for_each_app, Hrun. cbn [JS.for_each].
    unfold CodeStyleReviewer.group_by_category.
    unfold inherited_category in Hown.
    destruct (CodeStyleReviewer.category_group
                (CodeStyleReviewer.category v) grouped) as [found|] eqn:Hg.
    + eexists. split; [reflexivity|]. intros cat.
      rewrite violations_in_snoc, category_group_push.
      destruct (String.eqb_spec (CodeStyleReviewer.category v) cat) as [E|N].
      * subst cat. rewrite Hg. simpl. rewrite <- Hgroups, Hg. reflexivity.
      * apply Hgroups.
    + rewrite Hown. eexists. split; [reflexivity|]. intros cat.
      rewrite violations_in_snoc, category_group_push, category_group_snoc.
      destruct (String.eqb_spec (CodeStyleReviewer.category v) cat) as [E|N].
      * subst cat. rewrite Hg. simpl. rewrite <- Hgroups, Hg. reflexivity.
      * rewrite Hgroups. destruct (violations_in cat l); reflexivity.
Qed.

(** The first violation whose category names an inherited property stops
    the loop: no array was ever made under such a name. *)
Lemma style_categories_throw l :
  forall grouped,
    (forall k found,
        CodeStyleReviewer.category_group k grouped = Some found ->
        JS.array_includes JS.object_prototype_names k = false) ->
    Exists (fun v => inherited_category v = true) l ->
    exists e,
      JS.for_each CodeStyleReviewer.group_by_category l grouped = JS.Thrown e.
Proof.
  induction l as [|v l IH]; intros grouped Hinv Hex;
    [inversion Hex|].
  cbn [JS.for_each].
  destruct (CodeStyleReviewer.group_by_category grouped v) as [grouped'|e]
    eqn:Hstep; [|eexists; reflexivity].
  unfold CodeStyleReviewer.group_by_category in Hstep.
  destruct (CodeStyleReviewer.category_group
              (CodeStyleReviewer.category v) grouped) as [found|] eqn:Hg.
  - injection Hstep as <-.
    assert (Hown : inherited_category v = false) by exact (Hinv _ _ Hg).
    apply IH.
    + intros k found' Hk. rewrite category_group_push in Hk.
      destruct (String.eqb_spec (CodeStyleReviewer.category v) k) as [E|N].
      * subst k. exact Hown.
      * exact (Hinv _ _ Hk).
    + inversion Hex as [? ? Hv|? ? Hrest]; subst; [congruence|exact Hrest].
  - destruct (JS.array_includes JS.object_prototype_names
                (CodeStyleReviewer.category v)) eqn:Hown; [discriminate|].
    injection Hstep as <-.
    apply IH.
    + intros k found' Hk.
      rewrite category_group_push, category_group_snoc in Hk.
      destruct (String.eqb_spec (CodeStyleReviewer.category v) k) as [E|N].
      * subst k. exact Hown.
      * destruct (CodeStyleReviewer.category_group k grouped) eqn:Hk';
          [exact (Hinv _ _ Hk')|discriminate].
    + inversion Hex as [? ? Hv|? ? Hrest]; subst; [|exact Hrest].
      unfold inherited_category in Hv. congruence.
Qed.

Lemma style_content_categories content v :
  In v (CodeStyleReviewer.checkStylePatterns content []) ->
  inherited_category v = false.
Proof.
  unfold CodeStyleReviewer.checkStylePatterns. intros H.
  apply style_scan_provenance in H.
  destruct H as [[] | [cat [ps [r [Ht [_ [Hc _]]]]]]].
  assert (Hb : forallb
                 (fun '(cat, _) =>
                    negb (JS.array_includes JS.object_prototype_names cat))
                 CodeStyleReviewer.stylePatterns = true) by reflexivity.
  rewrite forallb_forall in Hb. specialize (Hb _ Ht). simpl in Hb.
  unfold inherited_category. rewrite Hc.
  apply negb_true_iff. exact Hb.
Qed.

Lemma style_reviewed_categories contents :
  Forall (fun v => inherited_category v = false)
         (CodeStyleReviewer.violations
            (style_reviewed contents CodeStyleReviewer.new)).
Proof.
  rewrite (proj1 (style_reviewed_from contents CodeStyleReviewer.new)).
  simpl. apply List.Forall_forall. intros v H.
  apply in_flat_map in H. destruct H as [c [_ H]].
  eapply style_content_categories. exact H.
Qed.

(** Grouping by category loses and invents nothing, when it returns:
    under each category the report lists exactly the violations of that
    category, in the order they were found, and a category without
    violations has no entry.  It returns unless a category names a
    property that [{}] inherits ([toString], [constructor], ...); then
    it throws.  After a review it always returns: the categories are
    those of the rule table. *)
Theorem style_grouping_by_category :
  (forall this,
      Forall (fun v => inherited_category v = false)
             (CodeStyleReviewer.violations this) ->
      exists grouped,
        CodeStyleReviewer.groupViolationsByCategory this
        = JS.Returned grouped
        /\ forall cat,
            CodeStyleReviewer.category_group cat grouped
            = violations_in cat (CodeStyleReviewer.violations this))
  /\ (forall this,
         Exists (fun v => inherited_category v = true)
                (CodeStyleReviewer.violations this) ->
         exists e,
           CodeStyleReviewer.groupViolationsByCategory this = JS.Thrown e)
  /\ (forall contents,
         exists grouped,
           CodeStyleReviewer.groupViolationsByCategory
             (style_reviewed contents CodeStyleReviewer.new)
           = JS.Returned grouped).
Proof.
  split; [|split].
  - intros this H. apply style_categories_grouped. exact H.
  - intros this H. apply style_categories_throw; [|exact H].
    intros k found Hk. discriminate Hk.
  - intros contents.
    destruct (style_categories_grouped _ (style_reviewed_categories contents))
      as [grouped [H _]].
    exists grouped. exact H.
Qed.

Lemma style_grouping_witness :
  let this := CodeStyleReviewer.Results 0
                [CodeStyleReviewer.Violation "toString" low "m" false 1 "c"]
                ∅ in
  Exists (fun v => inherited_category v = true)
         (CodeStyleReviewer.violations this)
  /\ exists e, CodeStyleReviewer.groupViolationsByCategory this = JS.Thrown e.
Proof.
  intros this.
  assert (H : Exists (fun v => inherited_category v = true)
                     (CodeStyleReviewer.violations this)).
  { left. reflexivity. }
  split; [exact H|].
  exact (proj1 (proj2 style_grouping_by_category) this H).
Defined.

Lemma style_recommendations_returned this :
  Forall (fun v => inherited_category v = false)
         (CodeStyleReviewer.violations this) ->
  exists r, CodeStyleReviewer.generateRecommendations this = JS.Returned r.
Proof.
  intros H. unfold CodeStyleReviewer.generateRecommendations.
  destruct (length (CodeStyleReviewer.violations this) =? 0)%nat;
    [eexists; reflexivity|].
  unfold CodeStyleReviewer.groupViolationsByCategory.
  destruct (style_categories_grouped _ H) as [grouped [Hrun _]].
  rewrite Hrun. eexists. reflexivity.
Qed.

(** ** Reports written by one script and read by another *)

Lemma or_of_nat n : JS.or (JS.of_nat n) MergeReadinessAssessor.zero = JS.of_nat n.
Proof. destruct n; reflexivity. Qed.

Lemma or_of_Z z : JS.or (JS.of_Z z) MergeReadinessAssessor.zero = JS.of_Z z.
Proof. destruct z; reflexivity. Qed.

Lemma style_reviewed_severities contents v :
  In v (CodeStyleReviewer.violations
          (style_reviewed contents CodeStyleReviewer.new)) ->
  CodeStyleReviewer.severity v = medium \/ CodeStyleReviewer.severity v = low.
Proof.
  rewrite (proj1 (style_reviewed_from contents CodeStyleReviewer.new)).
  simpl. intros H. apply in_flat_map in H. destruct H as [c [_ H]].
  eapply style_content_severities. exact H.
Qed.

Lemma violations_of_none s l :
  Forall (fun v => CodeStyleReviewer.severity v <> s) l ->
  violations_of s l = [].
Proof.
  induction 1 as [|v l Hv Hl IH]; [reflexivity|].
  unfold violations_of in *. simpl.
  rewrite bool_decide_eq_false_2 by exact Hv. exact IH.
Qed.

Lemma style_report_read_back sources n w this :
  JS.writable w = true ->
  Forall (fun v => CodeStyleReviewer.severity v <> critical)
         (CodeStyleReviewer.violations this) ->
  Forall (fun v => inherited_category v = false)
         (CodeStyleReviewer.violations this) ->
  exists w',
    CodeStyleReviewer.generateReport sources n w this
    = JS.Returned (CodeStyleReviewer.calculateOverallMetrics sources this, w')
    /\ MergeReadinessAssessor.readCodeQualityResults w'
       = MergeReadinessAssessor.CodeQualityResults
           (JS.of_nat (length (violations_of high
                                 (CodeStyleReviewer.violations this))))
           (JS.of_nat (length (violations_of medium
                                 (CodeStyleReviewer.violations this))))
           (JS.of_Z (CodeStyleReviewer.score this))
           (JS.VNum 0).
Proof.
  intros Hw Hsev Hcat.
  destruct (style_recommendations_returned this Hcat) as [r Hr].
  destruct (style_categories_grouped _ Hcat) as [grouped [Hrun _]].
  unfold CodeStyleReviewer.generateReport, CodeStyleReviewer.report,
    CodeStyleReviewer.groupViolationsBySeverity,
    CodeStyleReviewer.groupViolationsByCategory.
  rewrite Hr, Hrun, (style_group_filter _ _ Hsev).
  destruct w as [files writable]. simpl in Hw. subst writable.
  unfold JS.writeJson. cbn.
  eexists. split; [reflexivity|].
  unfold MergeReadinessAssessor.readCodeQualityResults, JS.existsSync,
    JS.readJson.
  cbn [JS.files].
  rewrite lookup_insert_ne by discriminate. rewrite lookup_insert_eq.
  cbn. rewrite !length_map, !or_of_nat, or_of_Z. reflexivity.
Qed.

Lemma strict_eq_num_of_nat n :
  JS.strict_eq_num (JS.of_nat n) 0 = (n =? 0)%nat.
Proof. destruct n; reflexivity. Qed.

(** The style review's report as the merge assessor reads it.  Whatever
    the reviewer holds (short of a [critical] violation, for which its
    grouping by severity has no place, and of a category that names an
    inherited property, on which its grouping by category throws), the
    report is written and the assessor takes the report's [high]
    violations for its critical issues, the [medium] ones for its high
    issues and the score for the style score.  After a review the first
    count is always 0, no rule of the review being [high]: the assessor
    never raises the critical-issues blocker on a style report, and
    raises the high-issues blocker exactly when the review found a
    [medium] violation. *)
Theorem style_report_feeds_assessor :
  (forall sources n w this,
      JS.writable w = true ->
      Forall (fun v => CodeStyleReviewer.severity v <> critical)
             (CodeStyleReviewer.violations this) ->
      Forall (fun v => inherited_category v = false)
             (CodeStyleReviewer.violations this) ->
      exists this' w',
        CodeStyleReviewer.generateReport sources n w this
        = JS.Returned (this', w')
        /\ MergeReadinessAssessor.readCodeQualityResults w'
           = MergeReadinessAssessor.CodeQualityResults
               (JS.of_nat (length (violations_of high
                                     (CodeStyleReviewer.violations this))))
               (JS.of_nat (length (violations_of medium
                                     (CodeStyleReviewer.violations this))))
               (JS.of_Z (CodeStyleReviewer.score this))
               (JS.VNum 0))
  /\ (forall contents sources n w,
         JS.writable w = true ->
         exists this' w',
           CodeStyleReviewer.review contents sources n w CodeStyleReviewer.new
           = (JS.Returned this', w')
           /\ MergeReadinessAssessor.readCodeQualityResults w'
              = MergeReadinessAssessor.CodeQualityResults
                  (JS.VNum 0)
                  (JS.of_nat (length (violations_of medium
                                        (CodeStyleReviewer.violations this'))))
                  (JS.of_Z (CodeStyleReviewer.score this'))
                  (JS.VNum 0)
           /\ forall to_number a,
               MergeReadinessAssessor.blockers
                 (MergeReadinessAssessor.checkCodeQuality to_number w' a)
               = MergeReadinessAssessor.blockers a
                 ++ (if (length (violations_of medium
                                   (CodeStyleReviewer.violations this'))
                         =? 0)%nat
                     then []
                     else [MergeReadinessAssessor.Finding "high-issues" high])).
Proof.
  split.
  - intros sources n w this Hw Hsev Hcat.
    destruct (style_report_read_back sources n w this Hw Hsev Hcat)
      as [w' [H1 H2]].
    eexists. exists w'. split; [exact H1|exact H2].
  - intros contents sources n w Hw.
    set (this := CodeStyleReviewer.calculateScore
                   (style_reviewed contents CodeStyleReviewer.new)).
    assert (Hml : Forall (fun v => CodeStyleReviewer.severity v = medium
                                   \/ CodeStyleReviewer.severity v = low)
                         (CodeStyleReviewer.violations this)).
    { apply List.Forall_forall. intros v Hv.
      apply (style_reviewed_severities contents). exact Hv. }
    assert (Hsev : Forall (fun v => CodeStyleReviewer.severity v <> critical)
                          (CodeStyleReviewer.violations this)).
    { eapply List.Forall_impl; [|exact Hml]. intros v [H|H]; rewrite H; discriminate. }
    assert (Hhigh : violations_of high (CodeStyleReviewer.violations this) = []).
    { apply violations_of_none. eapply List.Forall_impl; [|exact Hml].
      intros v [H|H]; rewrite H; discriminate. }
    assert (Hcat : Forall (fun v => inherited_category v = false)
                          (CodeStyleReviewer.violations this))
      by exact (style_reviewed_categories contents).
    destruct (style_report_read_back sources n w this Hw Hsev Hcat)
      as [w' [H1 H2]].
    exists (CodeStyleReviewer.calculateOverallMetrics sources this), w'.
    split; [|split].
    + unfold CodeStyleReviewer.review. fold (style_reviewed contents
                                               CodeStyleReviewer.new).
      fold this. rewrite H1. reflexivity.
    + rewrite H2, Hhigh. reflexivity.
    + intros to_number a. unfold MergeReadinessAssessor.checkCodeQuality.
      cbv zeta. rewrite blockers_push_warning, !blockers_push_blocker.
      rewrite H2, Hhigh. cbn [MergeReadinessAssessor.cq_criticalIssues
                              MergeReadinessAssessor.cq_highIssues].
      rewrite !strict_eq_num_of_nat. simpl.
      rewrite app_nil_r.
      destruct (length _ =? 0)%nat; reflexivity.
Qed.

Lemma style_report_witness :
  exists this' w',
    CodeStyleReviewer.review ["var a = 1"] [] 0 empty_directory
      CodeStyleReviewer.new = (JS.Returned this', w')
    /\ MergeReadinessAssessor.cq_highIssues
         (MergeReadinessAssessor.readCodeQualityResults w')
       = JS.of_nat (length (violations_of medium
                              (CodeStyleReviewer.violations this'))).
Proof.
  destruct (proj2 style_report_feeds_assessor ["var a = 1"] [] 0%nat
              empty_directory eq_refl) as [this' [w' [H1 [H2 _]]]].
  exists this', w'. split; [exact H1|]. rewrite H2. reflexivity.
Defined.

Lemma ge_num_of_Z to_number z n :
  JS.ge_num to_number (JS.of_Z z) (inject_Z n) = (n <=? z)%Z.
Proof.
  unfold JS.ge_num, JS.of_Z, JS.ToNumber, Qle_bool, inject_Z. simpl.
  rewrite !Z.mul_1_r. reflexivity.
Qed.

Lemma warnings_push_blocker cond f this :
  MergeReadinessAssessor.warnings
    (MergeReadinessAssessor.push_blocker cond f this)
  = MergeReadinessAssessor.warnings this.
Proof. destruct cond; reflexivity. Qed.

Lemma warnings_push_warning cond f this :
  MergeReadinessAssessor.warnings
    (MergeReadinessAssessor.push_warning cond f this)
  = MergeReadinessAssessor.warnings this ++ (if cond then [f] else []).
Proof. destruct cond; simpl; [reflexivity | symmetry; apply app_nil_r]. Qed.

Lemma analyzed_severities contents i :
  In i (PerformanceAnalyzer.issues (analyzed contents)) ->
  PerformanceAnalyzer.severity i <> low.
Proof.
  unfold analyzed.
  rewrite (proj1 (analyzed_from contents PerformanceAnalyzer.new)).
  simpl. intros H. apply in_flat_map in H. destruct H as [c [_ H]].
  eapply perf_content_severities. exact H.
Qed.

(** The performance report as the merge assessor reads it.  An analysis
    always gets its report written when the directory can be written to
    (no rule has the severity its grouping lacks), and the assessor then
    reads from it the number of critical issues found and the score.  So
    the performance-critical blocker is raised exactly when the analysis
    found a critical issue, and the performance-score warning exactly
    when the score is below 70. *)
Theorem performance_report_feeds_assessor :
  forall contents w,
    JS.writable w = true ->
    exists w',
      let this := PerformanceAnalyzer.calculateScore (analyzed contents) in
      let criticals :=
        length (perf_issues_of critical (PerformanceAnalyzer.issues this)) in
      PerformanceAnalyzer.analyze contents w = (JS.Returned this, w')
      /\ MergeReadinessAssessor.readPerformanceResults w'
         = MergeReadinessAssessor.PerformanceResults
             (JS.of_nat criticals) (JS.of_Z (PerformanceAnalyzer.score this))
             (JS.VNum 0)
      /\ forall to_number a,
          MergeReadinessAssessor.blockers
            (MergeReadinessAssessor.checkPerformance to_number w' a)
          = MergeReadinessAssessor.blockers a
            ++ (if (criticals =? 0)%nat then []
                else [MergeReadinessAssessor.Finding "performance-critical"
                        high])
          /\ MergeReadinessAssessor.warnings
               (MergeReadinessAssessor.checkPerformance to_number w' a)
             = MergeReadinessAssessor.warnings a
               ++ (if (70 <=? PerformanceAnalyzer.score this)%Z then []
                   else [MergeReadinessAssessor.Finding "performance-score"
                           medium]).
Proof.
  intros contents w Hw.
  set (this := PerformanceAnalyzer.calculateScore (analyzed contents)).
  assert (Hsev : Forall (fun i => PerformanceAnalyzer.severity i <> low)
                        (PerformanceAnalyzer.issues this)).
  { apply List.Forall_forall. intros i Hi.
    apply (analyzed_severities contents). exact Hi. }
  assert (Hwrite : exists w',
             PerformanceAnalyzer.generateReport
               (map PerformanceAnalyzer.calculateFileMetrics contents) w this
             = JS.Returned w'
             /\ MergeReadinessAssessor.readPerformanceResults w'
                = MergeReadinessAssessor.PerformanceResults
                    (JS.of_nat (length (perf_issues_of critical
                                          (PerformanceAnalyzer.issues this))))
                    (JS.of_Z (PerformanceAnalyzer.score this)) (JS.VNum 0)).
  { unfold PerformanceAnalyzer.generateReport, PerformanceAnalyzer.report,
      PerformanceAnalyzer.groupIssuesBySeverity.
    rewrite (perf_group_filter _ _ Hsev).
    destruct w as [files writable]. simpl in Hw. subst writable.
    unfold JS.writeJson. cbn.
    eexists. split; [reflexivity|].
    unfold MergeReadinessAssessor.readPerformanceResults, JS.existsSync,
      JS.readJson.
    cbn [JS.files]. rewrite lookup_insert_eq.
    cbn. rewrite !length_map, !or_of_nat, or_of_Z. reflexivity. }
  destruct Hwrite as [w' [H1 H2]]. exists w'. cbv zeta. fold this.
  split; [|split].
  - unfold PerformanceAnalyzer.analyze. fold (analyzed contents). fold this.
    rewrite H1. reflexivity.
  - exact H2.
  - intros to_number a. unfold MergeReadinessAssessor.checkPerformance.
    cbv zeta.
    rewrite blockers_push_warning, blockers_push_blocker,
      warnings_push_warning, warnings_push_blocker.
    rewrite H2. cbn [MergeReadinessAssessor.perf_criticalIssues
                     MergeReadinessAssessor.performanceScore].
    rewrite strict_eq_num_of_nat.
    change 70%Q with (inject_Z 70). rewrite ge_num_of_Z.
    split.
    + destruct (_ =? 0)%nat; reflexivity.
    + destruct (70 <=? _)%Z; reflexivity.
Qed.

Lemma performance_report_witness :
  exists w',
    PerformanceAnalyzer.analyze ["document.write(x)"] empty_directory
    = (JS.Returned (PerformanceAnalyzer.calculateScore
                      (analyzed ["document.write(x)"])), w')
    /\ MergeReadinessAssessor.perf_criticalIssues
         (MergeReadinessAssessor.readPerformanceResults w')
       = JS.VNum 1.
Proof.
  destruct (performance_report_feeds_assessor ["document.write(x)"]
              empty_directory eq_refl) as [w' [H1 [H2 _]]].
  exists w'. split; [exact H1|]. rewrite H2. vm_compute. reflexivity.
Defined.

(** ** Scores as sums *)

Lemma deduct_total {A : Type} (cost : A -> Z) l start :
  deduct cost start l = start - total cost l.
Proof.
  revert start. induction l as [|x l IH]; intros start.
  - unfold deduct, total. simpl. lia.
  - rewrite deduct_cons, IH. unfold total. simpl. lia.
Qed.

Lemma total_nonneg {A : Type} (cost : A -> Z) l :
  (forall x, 0 <= cost x) -> 0 <= total cost l.
Proof.
  intros H. induction l as [|x l IH]; unfold total in *; simpl; [lia|].
  specialize (H x). lia.
Qed.

Lemma total_Permutation {A : Type} (cost : A -> Z) l l' :
  Permutation l l' -> total cost l = total cost l'.
Proof.
  induction 1; unfold total in *; simpl; lia.
Qed.

Lemma style_penalty_nonneg s : 0 <= CodeStyleReviewer.penalty s.
Proof. destruct s; simpl; lia. Qed.

Lemma perf_penalty_nonneg s : 0 <= PerformanceAnalyzer.penalty s.
Proof. destruct s; simpl; lia. Qed.

Lemma modernization_bonus_reads_metrics a b :
  CodeStyleReviewer.metrics a = CodeStyleReviewer.metrics b ->
  CodeStyleReviewer.calculateModernizationBonus a
  = CodeStyleReviewer.calculateModernizationBonus b.
Proof.
  unfold CodeStyleReviewer.calculateModernizationBonus,
    CodeStyleReviewer.metric.
  intros ->. reflexivity.
Qed.

(** The style score never gets its bonus.  The bonus is computed from
    properties of [metrics] that neither the constructor nor
    [calculateOverallMetrics] ever sets, so in every state the reviewer
    reaches, on a first review or a later one, the score is 100 less the
    penalties of the violations, and 0 when that is negative. *)
Theorem style_score_has_no_bonus :
  forall this,
    (CodeStyleReviewer.metrics this = ∅
     \/ exists sources prev,
          CodeStyleReviewer.metrics this
          = CodeStyleReviewer.metrics
              (CodeStyleReviewer.calculateOverallMetrics sources prev)) ->
    CodeStyleReviewer.calculateModernizationBonus this = 0
    /\ CodeStyleReviewer.score (CodeStyleReviewer.calculateScore this)
       = Z.max 0
           (100 - total (fun v => CodeStyleReviewer.penalty
                                    (CodeStyleReviewer.severity v))
                        (CodeStyleReviewer.violations this)).
Proof.
  intros this H.
  assert (Hbonus : CodeStyleReviewer.calculateModernizationBonus this = 0).
  { destruct H as [H | [sources [prev H]]].
    - rewrite (modernization_bonus_reads_metrics this CodeStyleReviewer.new H).
      reflexivity.
    - rewrite (modernization_bonus_reads_metrics this _ H).
      apply modernization_bonus_zero. }
  split; [exact Hbonus|].
  unfold CodeStyleReviewer.calculateScore. cbn [CodeStyleReviewer.score].
  rewrite Hbonus.
  change (fold_left _ (CodeStyleReviewer.violations this) 100)
    with (deduct (fun v => CodeStyleReviewer.penalty
                             (CodeStyleReviewer.severity v))
                 100 (CodeStyleReviewer.violations this)).
  rewrite deduct_total.
  pose proof (total_nonneg
                (fun v => CodeStyleReviewer.penalty
                            (CodeStyleReviewer.severity v))
                (CodeStyleReviewer.violations this)
                (fun v => style_penalty_nonneg _)).
  simpl. lia.
Qed.

Lemma style_score_witness :
  let this :=
    CodeStyleReviewer.calculateOverallMetrics ["const f = () => { let z }"]
      (style_reviewed ["var a = 1"] CodeStyleReviewer.new) in
  CodeStyleReviewer.score (CodeStyleReviewer.calculateScore this) = 95.
Proof.
  intros this.
  rewrite (proj2 (style_score_has_no_bonus this
                    (or_intror (ex_intro _ _ (ex_intro _ _ eq_refl))))).
  vm_compute. reflexivity.
Defined.

(** The scores do not depend on the order in which the files are gone
    through: going through the same files in another order gives the
    same score in the code review, the style review and the performance
    analysis. *)
Theorem scores_ignore_file_order :
  forall contents contents',
    Permutation contents contents' ->
    AICodeReviewer.score (AICodeReviewer.performReview contents)
    = AICodeReviewer.score (AICodeReviewer.performReview contents')
    /\ CodeStyleReviewer.score
         (CodeStyleReviewer.calculateScore
            (style_reviewed contents CodeStyleReviewer.new))
       = CodeStyleReviewer.score
           (CodeStyleReviewer.calculateScore
              (style_reviewed contents' CodeStyleReviewer.new))
    /\ PerformanceAnalyzer.score
         (PerformanceAnalyzer.calculateScore (analyzed contents))
       = PerformanceAnalyzer.score
           (PerformanceAnalyzer.calculateScore (analyzed contents')).
Proof.
  intros contents contents' Hp. split; [|split].
  - unfold AICodeReviewer.performReview, AICodeReviewer.calculateScore.
    cbn [AICodeReviewer.score].
    destruct (reviewed_from contents AICodeReviewer.new) as [Hi Hpos].
    destruct (reviewed_from contents' AICodeReviewer.new) as [Hi' Hpos'].
    cbv zeta in Hi, Hpos, Hi', Hpos'. rewrite Hi, Hpos, Hi', Hpos'. simpl.
    change (fold_left _ ?l 100)
      with (deduct (fun i => AICodeReviewer.penalty (AICodeReviewer.severity i))
                   100 l).
    rewrite !deduct_total.
    rewrite (total_Permutation _ _ _ (Permutation_flat_map _ Hp)).
    rewrite (Permutation_length (Permutation_flat_map _ Hp)).
    reflexivity.
  - unfold CodeStyleReviewer.calculateScore. cbn [CodeStyleReviewer.score].
    destruct (style_reviewed_from contents CodeStyleReviewer.new) as [Hv Hm].
    destruct (style_reviewed_from contents' CodeStyleReviewer.new) as [Hv' Hm'].
    rewrite (modernization_bonus_reads_metrics _ CodeStyleReviewer.new Hm).
    rewrite (modernization_bonus_reads_metrics _ CodeStyleReviewer.new Hm').
    rewrite Hv, Hv'. simpl.
    change (fold_left _ ?l 100)
      with (deduct (fun v => CodeStyleReviewer.penalty
                               (CodeStyleReviewer.severity v)) 100 l).
    rewrite !deduct_total.
    rewrite (total_Permutation _ _ _ (Permutation_flat_map _ Hp)).
    reflexivity.
  - unfold PerformanceAnalyzer.calculateScore, analyzed.
    cbn [PerformanceAnalyzer.score].
    destruct (analyzed_from contents PerformanceAnalyzer.new) as [Hi Ho].
    destruct (analyzed_from contents' PerformanceAnalyzer.new) as [Hi' Ho'].
    cbv zeta in Hi, Ho, Hi', Ho'. rewrite Hi, Ho, Hi', Ho'. simpl.
    change (fold_left _ ?l 100)
      with (deduct (fun i => PerformanceAnalyzer.penalty
                               (PerformanceAnalyzer.severity i)) 100 l).
    rewrite !deduct_total.
    rewrite (total_Permutation _ _ _ (Permutation_flat_map _ Hp)).
    rewrite (Permutation_length (Permutation_flat_map _ Hp)).
    reflexivity.
Qed.

Lemma scores_ignore_file_order_witness :
  AICodeReviewer.score (AICodeReviewer.performReview ["eval(x)"; "var a = 1"])
  = AICodeReviewer.score (AICodeReviewer.performReview ["var a = 1"; "eval(x)"]).
Proof.
  exact (proj1 (scores_ignore_file_order ["eval(x)"; "var a = 1"]
                  ["var a = 1"; "eval(x)"] (perm_swap _ _ _))).
Defined.

(** ** File metrics *)

Lemma filter_length_le {A : Type} (p : A -> bool) l :
  (length (List.filter p l) <= length l)%nat.
Proof. induction l as [|x l IH]; simpl; [lia|]. destruct (p x); simpl; lia. Qed.

Lemma filter_length_mono {A : Type} (p q : A -> bool) l :
  (forall x, p x = true -> q x = true) ->
  (length (List.filter p l) <= length (List.filter q l))%nat.
Proof.
  intros H. induction l as [|x l IH]; simpl; [lia|].
  destruct (p x) eqn:Hp.
  - rewrite (H x Hp). simpl. lia.
  - destruct (q x); simpl; lia.
Qed.

Lemma prefix_nonempty p s c :
  String.prefix (String c p) s = true -> (0 < String.length s)%nat.
Proof. destruct s; simpl; [discriminate|lia]. Qed.

Lemma commentLine_nonEmpty line :
  AICodeReviewer.commentLine line = true ->
  AICodeReviewer.nonEmptyLine line = true.
Proof.
  unfold AICodeReviewer.commentLine, AICodeReviewer.nonEmptyLine,
    JS.startsWith.
  rewrite !orb_true_iff. intros [[H|H]|H];
    apply prefix_nonempty in H; apply Nat.ltb_lt; exact H.
Qed.

(** The metrics of a file are coherent: it has at least one line, no
    more non-empty lines than lines, no more comment lines than
    non-empty lines (a comment line is never blank), and a comment ratio
    between 0 and 1 that is a genuine quotient: the division by zero that
    [|| 0] guards against happens only when both counts are 0. *)
Theorem review_metrics_coherent :
  forall content,
    let m := AICodeReviewer.calculateMetrics content in
    (1 <= AICodeReviewer.totalLines m)%nat
    /\ (AICodeReviewer.commentLines m <= AICodeReviewer.codeLines m)%nat
    /\ (AICodeReviewer.codeLines m <= AICodeReviewer.totalLines m)%nat
    /\ AICodeReviewer.totalLines m = line_count content
    /\ (0 <= AICodeReviewer.commentRatio m)%Q
    /\ (AICodeReviewer.commentRatio m <= 1)%Q
    /\ (AICodeReviewer.codeLines m = 0%nat ->
        AICodeReviewer.commentLines m = 0%nat).
Proof.
  intros content m. subst m. unfold AICodeReviewer.calculateMetrics.
  cbn [AICodeReviewer.totalLines AICodeReviewer.codeLines
       AICodeReviewer.commentLines AICodeReviewer.commentRatio].
  set (lines := JS.split JS.newline content).
  pose proof (filter_length_mono AICodeReviewer.commentLine
                AICodeReviewer.nonEmptyLine lines commentLine_nonEmpty) as Hc.
  pose proof (filter_length_le AICodeReviewer.nonEmptyLine lines) as Hn.
  set (c := length (List.filter AICodeReviewer.commentLine lines)) in *.
  set (n := length (List.filter AICodeReviewer.nonEmptyLine lines)) in *.
  repeat split; try lia.
  - subst lines. rewrite split_length. lia.
  - destruct (Nat.eqb_spec n 0); [apply Qle_refl|].
    apply Qle_shift_div_l.
    + unfold Qlt. simpl. lia.
    + rewrite Qmult_0_l. unfold Qle. simpl. lia.
  - destruct (Nat.eqb_spec n 0); [unfold Qle; simpl; lia|].
    apply Qle_shift_div_r.
    + unfold Qlt. simpl. lia.
    + rewrite Qmult_1_l. unfold Qle. simpl. lia.
Qed.

Lemma review_metrics_witness :
  AICodeReviewer.commentLines (AICodeReviewer.calculateMetrics "") = 0%nat.
Proof.
  destruct (review_metrics_coherent "") as (_ & _ & _ & _ & _ & _ & H).
  apply H. reflexivity.
Defined.







(** ** Which files the scripts find *)

Lemma entry_induction (P : JS.entry -> Prop) :
  (forall name, P (JS.File name)) ->
  (forall name, P (JS.Unstattable name)) ->
  (forall name, P (JS.Directory name None)) ->
  (forall name below, Forall P below -> P (JS.Directory name (Some below))) ->
  forall e, P e.
Proof.
  intros HF HU HN HS. fix IH 1. intros [name | name [below|] | name].
  - apply HF.
  - apply HS. induction below as [|e below IHb]; constructor;
      [apply IH | exact IHb].
  - apply HN.
  - apply HU.
Qed.

Lemma scan_entries_In scan items p :
  In p (JS.scan_entries scan items) ->
  exists e, In e items /\ In p (scan e).
Proof.
  induction items as [|e items IH]; simpl; [intros []|].
  destruct e as [name | name listing | name].
  - intros H. apply in_app_or in H. destruct H as [H|H].
    + eexists. split; [left; reflexivity|exact H].
    + destruct (IH H) as [e' [He' Hp]]. exists e'.
      split; [right; exact He' | exact Hp].
  - intros H. apply in_app_or in H. destruct H as [H|H].
    + eexists. split; [left; reflexivity|exact H].
    + destruct (IH H) as [e' [He' Hp]]. exists e'.
      split; [right; exact He' | exact Hp].
  - intros [].
Qed.

Lemma scan_entries_filter (f : list string -> bool) scanA scanS items :
  Forall (fun e => scanA e = List.filter f (scanS e)) items ->
  JS.scan_entries scanA items = List.filter f (JS.scan_entries scanS items).
Proof.
  induction 1 as [|e items He Hitems IH]; [reflexivity|].
  simpl. destruct e; try reflexivity;
    rewrite List.filter_app, He, IH; reflexivity.
Qed.

Lemma scan_entries_cut scan before name after :
  JS.scan_entries scan (before ++ JS.Unstattable name :: after)
  = JS.scan_entries scan before.
Proof.
  induction before as [|e before IH]; simpl; [reflexivity|].
  destruct e; try reflexivity; rewrite IH; reflexivity.
Qed.

Lemma skipped_not_reviewable name :
  skipped name = true -> reviewable name = false.
Proof.
  unfold skipped, JS.array_includes. simpl.
  rewrite !orb_true_iff. intros [H|[H|[H|[H|H]]]]; try discriminate;
    apply String.eqb_eq in H; subst; reflexivity.
Qed.

Lemma style_scanItem_found e :
  forall dir p,
    In p (CodeStyleReviewer.scanItem dir e) ->
    exists below name,
      p = dir ++ below ++ [name]
      /\ Forall (fun d => skipped d = false) below
      /\ reviewable name = true.
Proof.
  induction e as [name | name | name | name below IH] using entry_induction;
    intros dir p Hp; cbn [CodeStyleReviewer.scanItem] in Hp.
  - change (JS.array_includes CodeStyleReviewer.extensions (JS.extname name))
      with (reviewable name) in Hp.
    destruct (reviewable name) eqn:Hr;
      [|destruct Hp]. destruct Hp as [Hp|[]]. subst p.
    exists [], name. split; [reflexivity|]. split; [constructor|exact Hr].
  - destruct Hp.
  - change (JS.array_includes CodeStyleReviewer.skipped_directories name)
      with (skipped name) in Hp.
    change (JS.array_includes CodeStyleReviewer.extensions (JS.extname name))
      with (reviewable name) in Hp.
    destruct (skipped name) eqn:Hs; cbn [negb] in Hp; [|destruct Hp].
    rewrite (skipped_not_reviewable _ Hs) in Hp. destruct Hp.
  - change (JS.array_includes CodeStyleReviewer.skipped_directories name)
      with (skipped name) in Hp.
    change (JS.array_includes CodeStyleReviewer.extensions (JS.extname name))
      with (reviewable name) in Hp.
    destruct (skipped name) eqn:Hs; cbn [negb] in Hp.
    + rewrite (skipped_not_reviewable _ Hs) in Hp. destruct Hp.
    + apply scan_entries_In in Hp. destruct Hp as [e [He Hp]].
      rewrite List.Forall_forall in IH.
      destruct (IH e He _ _ Hp) as [below' [n [Hpath [Hdirs Hn]]]].
      exists (name :: below'), n. split; [|split].
      * rewrite Hpath. rewrite <- app_assoc. reflexivity.
      * constructor; [exact Hs|exact Hdirs].
      * exact Hn.
Qed.

Lemma review_scanItem_filter e :
  forall dir,
    AICodeReviewer.scanItem dir e
    = List.filter (fun p => negb (is_test_file (basename p)))
                  (CodeStyleReviewer.scanItem dir e).
Proof.
  induction e as [name | name | name | name below IH] using entry_induction;
    intros dir; cbn [AICodeReviewer.scanItem CodeStyleReviewer.scanItem].
  - fold (reviewable name).
    change (JS.array_includes CodeStyleReviewer.extensions (JS.extname name))
      with (reviewable name).
    destruct (reviewable name); cbn [andb List.filter]; [|reflexivity].
    unfold basename. rewrite last_last. unfold is_test_file.
    destruct (JS.includes name ".test."); cbn [negb orb andb];
      [reflexivity|].
    destruct (JS.includes name ".spec."); reflexivity.
  - reflexivity.
  - fold (skipped name).
    change (JS.array_includes CodeStyleReviewer.skipped_directories name)
      with (skipped name).
    change (JS.array_includes CodeStyleReviewer.extensions (JS.extname name))
      with (reviewable name).
    destruct (skipped name) eqn:Hs; cbn [negb]; [|reflexivity].
    rewrite (skipped_not_reviewable _ Hs). reflexivity.
  - fold (skipped name).
    change (JS.array_includes CodeStyleReviewer.skipped_directories name)
      with (skipped name).
    change (JS.array_includes CodeStyleReviewer.extensions (JS.extname name))
      with (reviewable name).
    destruct (skipped name) eqn:Hs; cbn [negb].
    + rewrite (skipped_not_reviewable _ Hs). reflexivity.
    + apply scan_entries_filter. eapply List.Forall_impl; [|exact IH].
      intros e He. apply He.
Qed.

(** What the three scripts find in a directory tree.  The style review
    and the performance analysis find the same files: every path found
    ends in a name with one of the four extensions and passes through no
    directory named [node_modules], [.git], [coverage] or [dist].  The
    code review finds the same files in the same order, less those whose
    name contains [.test.] or [.spec.]. *)
Theorem scripts_find_source_files :
  forall target,
    PerformanceAnalyzer.findFiles target
    = CodeStyleReviewer.findFilesToReview target
    /\ (forall p,
           In p (CodeStyleReviewer.findFilesToReview target) ->
           reviewable (basename p) = true
           /\ Forall (fun d => skipped d = false) (removelast p))
    /\ AICodeReviewer.findFilesToReview target
       = List.filter (fun p => negb (is_test_file (basename p)))
                     (CodeStyleReviewer.findFilesToReview target).
Proof.
  intros [items|];
    [|split; [reflexivity | split; [intros q [] | reflexivity]]].
  split; [reflexivity|]. split.
  - intros p Hp. simpl in Hp. unfold CodeStyleReviewer.scanItems in Hp.
    apply scan_entries_In in Hp. destruct Hp as [e [_ Hp]].
    apply style_scanItem_found in Hp.
    destruct Hp as [below [name [Hpath [Hdirs Hname]]]]. simpl in Hpath.
    subst p. unfold basename. rewrite last_last, removelast_last.
    split; assumption.
  - simpl. unfold AICodeReviewer.scanItems, CodeStyleReviewer.scanItems.
    apply scan_entries_filter. apply List.Forall_forall. intros e _.
    apply review_scanItem_filter.
Qed.

Lemma scripts_find_witness :
  let target :=
    Some [ JS.Directory "node_modules" (Some [JS.File "x.js"]);
           JS.Directory "src" (Some [JS.File "a.ts"; JS.File "a.test.ts"]) ] in
  In ["src"; "a.test.ts"] (CodeStyleReviewer.findFilesToReview target)
  /\ reviewable (basename ["src"; "a.test.ts"]) = true
  /\ AICodeReviewer.findFilesToReview target = [["src"; "a.ts"]].
Proof.
  intros target.
  assert (H : In ["src"; "a.test.ts"]
                 (CodeStyleReviewer.findFilesToReview target)).
  { vm_compute. right. left. reflexivity. }
  split; [exact H|]. split.
  - exact (proj1 (proj1 (proj2 (scripts_find_source_files target)) _ H)).
  - vm_compute. reflexivity.
Defined.

(** One entry that cannot be examined (a dangling link, say) ends the
    scan of its directory: the entries listed after it are never looked
    at, in any of the scripts; what was found before it is kept, and the
    scan goes on in the directory above. *)
Theorem unexaminable_entry_hides_the_rest :
  forall dir before name after,
    AICodeReviewer.scanItems dir (before ++ JS.Unstattable name :: after)
    = AICodeReviewer.scanItems dir before
    /\ CodeStyleReviewer.scanItems dir (before ++ JS.Unstattable name :: after)
       = CodeStyleReviewer.scanItems dir before
    /\ PerformanceAnalyzer.scanItems dir (before ++ JS.Unstattable name :: after)
       = PerformanceAnalyzer.scanItems dir before.
Proof.
  intros dir before name after. repeat split; apply scan_entries_cut.
Qed.

(** ** The matcher finds exactly the matches *)

Section MatcherAdequacy.

Variable multiline : bool.
Variable input : string.

Lemma one_In p i j :
  In j (JS.one input p i)
  <-> exists c, String.get i input = Some c /\ p c = true /\ j = S i.
Proof.
  unfold JS.one. destruct (String.get i input) as [c|]; [|split].
  - destruct (p c) eqn:Hp; split.
    + intros [H|[]]. exists c. auto.
    + intros [c' [Hc [_ Hj]]]. left. auto.
    + intros [].
    + intros [c' [Hc [Hp' _]]]. congruence.
  - intros [].
  - intros [c [Hc _]]. discriminate.
Qed.

Lemma star_ends_enough body :
  (forall i j, (i <= String.length input)%nat -> In j (body i) ->
               within input i j) ->
  forall fuel i,
    (i <= String.length input)%nat ->
    (String.length input - i <= fuel)%nat ->
    JS.star_ends body fuel i
    = JS.star_ends body (String.length input - i) i.
Proof.
  intros Hbody fuel i Hi Hfuel.
  replace fuel with ((fuel - (String.length input - i))
                     + (String.length input - i))%nat by lia.
  induction (fuel - (String.length input - i))%nat as [|d IH]; [reflexivity|].
  simpl plus. rewrite (star_ends_fuel input body Hbody); [exact IH|exact Hi|lia].
Qed.

Lemma star_ends_sound body r :
  (forall i j, In j (body i) -> matches multiline input r i j) ->
  forall fuel i j,
    In j (JS.star_ends body fuel i) ->
    matches multiline input (JS.Star r) i j.
Proof.
  intros Hbody. induction fuel as [|fuel IH]; intros i j; simpl.
  - intros [H|[]]. subst. constructor.
  - rewrite in_app_iff, in_flat_map. intros [[k [Hk Hj]] | [H|[]]].
    + destruct (Nat.ltb_spec i k) as [Hlt|]; [|destruct Hj].
      eapply matches_star_more; [apply Hbody; exact Hk | exact Hlt |].
      apply IH. exact Hj.
    + subst. constructor.
Qed.

Lemma ends_sound r :
  forall i j, In j (JS.ends multiline input r i) ->
              matches multiline input r i j.
Proof.
  induction r as [ | c | | negated items | r1 IH1 r2 IH2 | r1 IH1 r2 IH2
                 | r IH | | | ]; intros i j; simpl.
  - intros [H|[]]. subst. constructor.
  - rewrite one_In. intros [c' [Hc [Hp Hj]]]. subst j.
    apply Ascii.eqb_eq in Hp. subst c'. constructor. exact Hc.
  - rewrite one_In. intros [c' [Hc [Hp Hj]]]. subst j.
    apply negb_true_iff in Hp. econstructor; eassumption.
  - rewrite one_In. intros [c' [Hc [Hp Hj]]]. subst j.
    econstructor; eassumption.
  - rewrite in_flat_map. intros [k [Hk Hj]].
    econstructor; [apply IH1; exact Hk | apply IH2; exact Hj].
  - rewrite in_app_iff. intros [H|H];
      [apply matches_alt_l, IH1 | apply matches_alt_r, IH2]; exact H.
  - apply star_ends_sound. exact IH.
  - destruct (_ || _) eqn:Hb; intros H; [|destruct H].
    destruct H as [H|[]]. subst. constructor. exact Hb.
  - destruct (_ || _) eqn:Hb; intros H; [|destruct H].
    destruct H as [H|[]]. subst. constructor. exact Hb.
  - destruct (xorb _ _) eqn:Hb; intros H; [|destruct H].
    destruct H as [H|[]]. subst. constructor. exact Hb.
Qed.

Lemma ends_complete r i j :
  matches multiline input r i j ->
  (i <= String.length input)%nat ->
  In j (JS.ends multiline input r i).
Proof.
  induction 1 as [ i | c i Hc | c i Hc Ht | negated items c i Hc Hp
                 | r1 r2 i k j H1 IH1 H2 IH2 | r1 r2 i j H IH
                 | r1 r2 i j H IH | r i | r i k j H1 IH1 Hlt H2 IH2
                 | i Hb | i Hb | i Hb ]; intros Hi; simpl.
  - left. reflexivity.
  - apply one_In. exists c. rewrite Ascii.eqb_refl. auto.
  - apply one_In. exists c. rewrite Ht. auto.
  - apply one_In. exists c. auto.
  - apply in_flat_map. exists k. split; [apply IH1; exact Hi|].
    apply IH2. apply (ends_within multiline input r1 i k Hi). apply IH1.
    exact Hi.
  - apply in_or_app. left. apply IH. exact Hi.
  - apply in_or_app. right. apply IH. exact Hi.
  - destruct (String.length input - i)%nat; simpl.
    + left. reflexivity.
    + apply in_or_app. right. left. reflexivity.
  - specialize (IH1 Hi).
    assert (Hk : (k <= String.length input)%nat)
      by (apply (ends_within multiline input r i k Hi IH1)).
    specialize (IH2 Hk). simpl in IH2.
    destruct (String.length input - i)%nat as [|m] eqn:Hm; [lia|].
    simpl. apply in_or_app. left. apply in_flat_map. exists k.
    split; [exact IH1|].
    destruct (Nat.ltb_spec i k); [|lia].
    rewrite (star_ends_enough (JS.ends multiline input r)
               (ends_within multiline input r) m k Hk); [exact IH2|lia].
  - rewrite Hb. left. reflexivity.
  - rewrite Hb. left. reflexivity.
  - rewrite Hb. left. reflexivity.
Qed.

(** The matcher lists exactly the ends of the matches. *)
Lemma ends_matches r i j :
  (i <= String.length input)%nat ->
  In j (JS.ends multiline input r i) <-> matches multiline input r i j.
Proof.
  intros Hi. split; [apply ends_sound | intros H; apply ends_complete; assumption].
Qed.

Lemma search_from_Some r fuel i :
  (exists m, JS.search_from multiline input r fuel i = Some m)
  <-> exists k, (i <= k <= i + fuel)%nat
                /\ JS.ends multiline input r k <> [].
Proof.
  revert i. induction fuel as [|fuel IH]; intros i; simpl;
    unfold JS.match_at;
    destruct (JS.ends multiline input r i) as [|j rest] eqn:Hends; simpl.
  - split; [intros [m H]; discriminate|].
    intros [k [Hk Hne]]. replace k with i in Hne by lia. congruence.
  - split; [|eexists; reflexivity]. intros _. exists i.
    split; [lia|]. rewrite Hends. discriminate.
  - rewrite IH. split.
    + intros [k [Hk Hne]]. exists k. split; [lia|exact Hne].
    + intros [k [Hk Hne]]. exists k. split; [|exact Hne].
      destruct (Nat.eq_dec k i); [subst; congruence|lia].
  - split; [|eexists; reflexivity]. intros _. exists i.
    split; [lia|]. rewrite Hends. discriminate.
Qed.

End MatcherAdequacy.

(** [test] succeeds exactly when the pattern matches somewhere. *)
Lemma test_matches r input :
  JS.test r input = true
  <-> exists i j, (i <= String.length input)%nat
                  /\ matches false input r i j.
Proof.
  unfold JS.test, JS.exec. simpl.
  rewrite Nat.sub_0_r.
  pose proof (search_from_Some false input r (String.length input) 0) as H.
  split.
  - intros Ht.
    destruct (JS.search_from false input r (String.length input) 0) as [m|]
      eqn:Hs; [|discriminate].
    destruct (proj1 H (ex_intro _ m eq_refl)) as [k [Hk Hne]].
    destruct (JS.ends false input r k) as [|j rest] eqn:He; [congruence|].
    exists k, j. split; [lia|]. apply ends_sound. rewrite He. left.
    reflexivity.
  - intros [i [j [Hi Hm]]].
    destruct (proj2 H) as [m Hs].
    + exists i. split; [lia|]. intros He.
      pose proof (ends_complete false input r i j Hm Hi) as Hin.
      rewrite He in Hin. destruct Hin.
    + rewrite Hs. reflexivity.
Qed.

(** ** Addresses accepted by [validateEmail] *)

Lemma get_lookup s k : String.get k s = list_ascii_of_string s !! k.
Proof.
  revert k. induction s as [|c s IH]; intros [|k]; simpl; try reflexivity.
  apply IH.
Qed.

Lemma length_list_ascii s :
  length (list_ascii_of_string s) = String.length s.
Proof. induction s as [|c s IH]; simpl; congruence. Qed.

Lemma append_cons c (s t : string) :
  (String c s ++ t)%string = String c (s ++ t).
Proof. reflexivity. Qed.

Lemma string_of_list_ascii_app l1 l2 :
  string_of_list_ascii (l1 ++ l2)
  = (string_of_list_ascii l1 ++ string_of_list_ascii l2)%string.
Proof.
  induction l1 as [|c l1 IH]; [reflexivity|].
  simpl. rewrite append_cons. congruence.
Qed.

Lemma list_ascii_of_string_app s1 s2 :
  list_ascii_of_string (s1 ++ s2)%string
  = list_ascii_of_string s1 ++ list_ascii_of_string s2.
Proof.
  induction s1 as [|c s1 IH]; [reflexivity|].
  rewrite append_cons. simpl. congruence.
Qed.

Lemma address_char_class c :
  xorb true (JS.class_mem [JS.CSpace; JS.CChar "@"] c) = address_char c.
Proof.
  unfold address_char, JS.class_mem. simpl.
  destruct (JS.is_space c), (Ascii.eqb c "@"); reflexivity.
Qed.

Section ClassRuns.

Variable multiline : bool.
Variable input : string.
Variable items : list JS.class_item.

Lemma class_star a b :
  matches multiline input (JS.Star (JS.Class true items)) a b
  <-> (a <= b)%nat /\ class_run input items a b.
Proof.
  split.
  - intros H. remember (JS.Star (JS.Class true items)) as r eqn:Hr.
    induction H; try discriminate.
    + split; [lia|]. intros k Hk. lia.
    + injection Hr as ->.
      match goal with Hc : matches _ _ (JS.Class _ _) _ _ |- _ =>
        inversion Hc; subst end.
      destruct IHmatches2 as [Hle Hrun]; [reflexivity|].
      split; [lia|]. intros k' Hk'.
      destruct (Nat.eq_dec k' i) as [->|]; [eauto|].
      apply Hrun. lia.
  - intros [Hle Hrun]. remember (b - a)%nat as n eqn:Hn.
    revert a Hle Hrun Hn. induction n as [|n IH]; intros a Hle Hrun Hn.
    + replace b with a by lia. constructor.
    + destruct (Hrun a) as [c [Hc Hp]]; [lia|].
      apply matches_star_more with (k := S a); [|lia|].
      * econstructor; eassumption.
      * apply IH; [lia| |lia]. intros k Hk. apply Hrun. lia.
Qed.

Lemma class_plus a b :
  matches multiline input (JS.Plus (JS.Class true items)) a b
  <-> (a < b)%nat /\ class_run input items a b.
Proof.
  unfold JS.Plus. split.
  - intros H. inversion H as [ | | | |r1 r2 i k j H1 H2| | | | | | | ]; subst.
    inversion H1; subst. apply class_star in H2. destruct H2 as [Hle Hrun].
    split; [lia|]. intros k' Hk'.
    destruct (Nat.eq_dec k' a) as [->|]; [eauto|].
    apply Hrun. lia.
  - intros [Hlt Hrun]. destruct (Hrun a) as [c [Hc Hp]]; [lia|].
    apply matches_seq with (k := S a); [econstructor; eassumption|].
    apply class_star. split; [lia|]. intros k Hk. apply Hrun. lia.
Qed.

End ClassRuns.

Lemma part_of_run input a n :
  (0 < n)%nat -> (a + n <= String.length input)%nat ->
  class_run input [JS.CSpace; JS.CChar "@"] a (a + n) ->
  address_part
    (string_of_list_ascii (take n (drop a (list_ascii_of_string input)))).
Proof.
  intros Hn Hlen Hrun. split.
  - intros He. apply (f_equal String.length) in He.
    rewrite <- length_list_ascii, list_ascii_of_string_of_list_ascii in He.
    rewrite length_take, length_drop, length_list_ascii in He.
    simpl in He. lia.
  - rewrite list_ascii_of_string_of_list_ascii.
    apply Forall_lookup_2. intros k c Hk.
    apply lookup_take_Some in Hk. destruct Hk as [Hk Hlt].
    rewrite lookup_drop in Hk.
    destruct (Hrun (a + k)%nat) as [c' [Hc Hp]]; [lia|].
    rewrite get_lookup in Hc. rewrite address_char_class in Hp. congruence.
Qed.

Lemma run_of_part pre s post :
  address_part s ->
  class_run (pre ++ s ++ post) [JS.CSpace; JS.CChar "@"]
    (String.length pre) (String.length pre + String.length s).
Proof.
  intros [_ Hall] k Hk. rewrite get_lookup, !list_ascii_of_string_app.
  rewrite lookup_app_r by (rewrite length_list_ascii; lia).
  rewrite lookup_app_l by (rewrite !length_list_ascii; lia).
  rewrite length_list_ascii.
  destruct (lookup_lt_is_Some_2 (list_ascii_of_string s)
              (k - String.length pre)) as [c Hc];
    [rewrite length_list_ascii; lia|].
  exists c. split; [exact Hc|]. rewrite address_char_class.
  exact (proj1 (Forall_lookup _ _) Hall _ _ Hc).
Qed.

Lemma get_after pre c post :
  String.get (String.length pre) (pre ++ String c post) = Some c.
Proof.
  induction pre as [|d pre IH]; [reflexivity|].
  rewrite append_cons. exact IH.
Qed.

Lemma length_append s1 s2 :
  String.length (s1 ++ s2) = (String.length s1 + String.length s2)%nat.
Proof.
  induction s1 as [|c s1 IH]; [reflexivity|].
  rewrite append_cons. simpl. congruence.
Qed.

Lemma append_assoc (s1 s2 s3 : string) :
  (s1 ++ (s2 ++ s3) = (s1 ++ s2) ++ s3)%string.
Proof.
  induction s1 as [|c s1 IH]; [reflexivity|].
  rewrite !append_cons. congruence.
Qed.

Lemma append_empty (s : string) : (s ++ "")%string = s.
Proof.
  induction s as [|c s IH]; [reflexivity|].
  rewrite append_cons. congruence.
Qed.

(** An address of ASCII characters is accepted exactly when it reads
    [local@domain.tld], each of the three parts non-empty and free of
    white space and of [@].  Nothing else about the address is examined:
    the domain may itself contain dots, and the parts may hold any other
    character. *)
Theorem validateEmail_shape email :
  ascii_only email = true ->
  Utils.validateEmail email = true
  <-> exists local domain tld,
        address_part local /\ address_part domain /\ address_part tld
        /\ email = (local ++ "@" ++ domain ++ "." ++ tld)%string.
Proof.
  intros _. unfold Utils.validateEmail. rewrite test_matches.
  unfold Utils.emailRegex. cbn [JS.cat]. split.
  - intros [i [j [Hi H]]].
    inversion H as [ | | | |? ? ? k0 ? Hbol H0| | | | | | | ]; subst.
    inversion Hbol as [ | | | | | | | | |? Hb| | ]; subst.
    rewrite orb_false_r in Hb. apply Nat.eqb_eq in Hb. subst k0.
    inversion H0 as [ | | | |? ? ? a1 ? Hlocal H1| | | | | | | ]; subst.
    inversion H1 as [ | | | |? ? ? k1 ? Hat H2| | | | | | | ]; subst.
    inversion Hat as [ |? ? Hgat| | | | | | | | | | ]; subst.
    inversion H2 as [ | | | |? ? ? a2 ? Hdomain H3| | | | | | | ]; subst.
    inversion H3 as [ | | | |? ? ? k2 ? Hdot H4| | | | | | | ]; subst.
    inversion Hdot as [ |? ? Hgdot| | | | | | | | | | ]; subst.
    inversion H4 as [ | | | |? ? ? a3 ? Htld Heol| | | | | | | ]; subst.
    inversion Heol as [ | | | | | | | | | |? He| ]; subst.
    rewrite orb_false_r in He. apply Nat.eqb_eq in He. subst j.
    apply class_plus in Hlocal, Hdomain, Htld.
    destruct Hlocal as [Hl1 Hl2], Hdomain as [Hd1 Hd2], Htld as [Ht1 Ht2].
    set (l := list_ascii_of_string email).
    exists (string_of_list_ascii (take a1 (drop 0 l))),
      (string_of_list_ascii (take (a2 - S a1) (drop (S a1) l))),
      (string_of_list_ascii (take (String.length email - S a2) (drop (S a2) l))).
    pose proof (get_Some_lt _ _ _ Hgdot) as Hlt.
    split; [apply part_of_run; [lia|lia|exact Hl2]|].
    split; [apply part_of_run; [lia|lia|];
            replace (S a1 + (a2 - S a1))%nat with a2 by lia; exact Hd2|].
    split; [apply part_of_run; [lia|lia|];
            replace (S a2 + (String.length email - S a2))%nat
              with (String.length email) by lia; exact Ht2|].
    rewrite get_lookup in Hgat, Hgdot. fold l in Hgat, Hgdot.
    change ("@" ++ ?s)%string with (String "@" s).
    change ("." ++ ?s)%string with (String "." s).
    transitivity (string_of_list_ascii l);
      [symmetry; apply string_of_list_ascii_of_string|].
    change (String "." ?s) with (string_of_list_ascii ["."%char] ++ s)%string.
    change (String "@" ?s) with (string_of_list_ascii ["@"%char] ++ s)%string.
    rewrite <- !string_of_list_ascii_app. f_equal.
    rewrite drop_0.
    rewrite (take_ge (drop (S a2) l))
      by (rewrite length_drop; unfold l; rewrite length_list_ascii; lia).
    simpl. rewrite <- (drop_S l "."%char a2 Hgdot).
    replace (drop a2 l) with (drop (a2 - S a1) (drop (S a1) l))
      by (rewrite drop_drop; f_equal; lia).
    rewrite take_drop. rewrite <- (drop_S l "@"%char a1 Hgat).
    rewrite take_drop. reflexivity.
  - intros [local [domain [tld [Hl [Hd [Ht ->]]]]]].
    exists 0%nat.
    exists (String.length (local ++ "@" ++ domain ++ "." ++ tld)).
    split; [lia|].
    set (email := (local ++ "@" ++ domain ++ "." ++ tld)%string).
    pose (a1 := String.length local).
    pose (a2 := (S a1 + String.length domain)%nat).
    assert (Hlen : String.length email = (S a2 + String.length tld)%nat).
    { unfold email, a2, a1. rewrite !length_append. simpl. lia. }
    assert (Hnonempty : forall s, address_part s -> (0 < String.length s)%nat).
    { intros [|c s] [Hne _]; [congruence|simpl; lia]. }
    apply matches_seq with (k := 0%nat); [constructor; reflexivity|].
    apply matches_seq with (k := a1).
    { apply class_plus. split; [apply Hnonempty; exact Hl|].
      exact (run_of_part "" local _ Hl). }
    apply matches_seq with (k := S a1).
    { constructor. apply get_after. }
    apply matches_seq with (k := a2).
    { apply class_plus. split; [pose proof (Hnonempty _ Hd); unfold a2; lia|].
      pose proof (run_of_part (local ++ "@") domain ("." ++ tld) Hd) as Hrun.
      rewrite length_append in Hrun. simpl in Hrun.
      replace (String.length local + 1)%nat with (S a1) in Hrun
        by (unfold a1; lia).
      unfold email. rewrite append_assoc. exact Hrun. }
    apply matches_seq with (k := S a2).
    { constructor. unfold email.
      rewrite (append_assoc local), (append_assoc (local ++ "@")).
      replace a2 with (String.length ((local ++ "@") ++ domain))
        by (unfold a2, a1; rewrite !length_append; simpl; lia).
      apply get_after. }
    apply matches_seq with (k := String.length email).
    { apply class_plus. split; [pose proof (Hnonempty _ Ht); lia|].
      pose proof (run_of_part (local ++ "@" ++ domain ++ ".") tld "" Ht)
        as Hrun.
      rewrite Hlen.
      replace (String.length (local ++ "@" ++ domain ++ "."))
        with (S a2) in Hrun
        by (unfold a2, a1; rewrite !length_append; simpl; lia).
      unfold email.
      replace (local ++ "@" ++ domain ++ "." ++ tld)%string
        with ((local ++ "@" ++ domain ++ ".") ++ tld ++ "")%string;
        [exact Hrun|].
      rewrite !append_assoc.
      rewrite append_empty.
      rewrite <- !append_assoc. reflexivity. }
    constructor. rewrite Nat.eqb_refl. reflexivity.
Qed.

Lemma validateEmail_shape_witness :
  ascii_only "first.last@mail.example.org" = true
  /\ Utils.validateEmail "first.last@mail.example.org" = true.
Proof.
  split; [reflexivity|].
  apply (proj2 (validateEmail_shape "first.last@mail.example.org" eq_refl)).
  exists "first.last", "mail.example", "org".
  repeat split; try discriminate;
    repeat (constructor; try reflexivity).
Defined.

(** ** Names with a source extension *)

Lemma last_dot_app s t :
  JS.last_dot (s ++ t)
  = match JS.last_dot t with
    | Some i => Some (String.length s + i)%nat
    | None => JS.last_dot s
    end.
Proof.
  induction s as [|c s IH];
    [change ("" ++ t)%string with t; destruct (JS.last_dot t); reflexivity|].
  rewrite append_cons. simpl. rewrite IH.
  destruct (JS.last_dot t); reflexivity.
Qed.

Lemma last_dot_lt s i : JS.last_dot s = Some i -> (i < String.length s)%nat.
Proof.
  revert i. induction s as [|c s IH]; intros i; simpl; [discriminate|].
  destruct (JS.last_dot s) as [j|].
  - intros [= <-]. specialize (IH j eq_refl). lia.
  - destruct (Ascii.eqb c "."); [intros [= <-]; lia|discriminate].
Qed.

Lemma substring_append_right s t :
  String.substring (String.length s) (String.length t) (s ++ t) = t.
Proof.
  induction s as [|c s IH].
  - change ("" ++ t)%string with t. simpl.
    induction t as [|d t IHt]; simpl; [reflexivity|].
    rewrite IHt. reflexivity.
  - rewrite append_cons. simpl. exact IH.
Qed.

Lemma substring_all s : String.substring 0 (String.length s) s = s.
Proof. induction s as [|c s IH]; simpl; congruence. Qed.

Lemma substring_split s n :
  (n <= String.length s)%nat ->
  s = (String.substring 0 n s
       ++ String.substring n (String.length s - n) s)%string.
Proof.
  revert n. induction s as [|c s IH]; intros [|n] Hn.
  - reflexivity.
  - simpl in Hn. lia.
  - rewrite Nat.sub_0_r, substring_all. reflexivity.
  - simpl. rewrite append_cons. f_equal. apply IH. simpl in Hn. lia.
Qed.

(** A name has one of the four extensions exactly when it is a
    non-empty stem followed by the extension. *)
Lemma reviewable_shape name :
  reviewable name = true
  <-> exists stem ext,
        stem <> "" /\ In ext AICodeReviewer.extensions
        /\ name = (stem ++ ext)%string.
Proof.
  unfold reviewable, JS.array_includes. rewrite existsb_exists. split.
  - intros [ext [Hin Heq]]. apply String.eqb_eq in Heq.
    unfold JS.extname in Heq.
    destruct (JS.last_dot name) as [[|i]|] eqn:Hdot;
      try (subst ext; simpl in Hin; intuition discriminate).
    destruct (String.eqb name "..");
      [subst ext; simpl in Hin; intuition discriminate|].
    pose proof (last_dot_lt _ _ Hdot) as Hlt.
    exists (String.substring 0 (S i) name), ext.
    split; [|split; [exact Hin|]].
    + intros He. apply (f_equal String.length) in He.
      rewrite length_substring in He by lia. discriminate.
    + rewrite <- Heq. apply substring_split. lia.
  - intros [stem [ext [Hstem [Hin ->]]]]. exists ext. split; [exact Hin|].
    apply String.eqb_eq. unfold JS.extname. rewrite last_dot_app.
    assert (Hext : JS.last_dot ext = Some O /\ (3 <= String.length ext)%nat).
    { simpl in Hin.
      destruct Hin as [<-|[<-|[<-|[<-|[]]]]]; split; simpl; try reflexivity; lia. }
    destruct Hext as [-> Hlen]. rewrite Nat.add_0_r.
    destruct (String.length stem) as [|n] eqn:Hn;
      [destruct stem; [congruence|discriminate]|].
    destruct (String.eqb_spec (stem ++ ext) "..") as [He|_].
    + apply (f_equal String.length) in He. rewrite length_append in He.
      simpl in He. lia.
    + rewrite length_append, Hn.
      replace (S n + String.length ext - S n)%nat with (String.length ext)
        by lia.
      rewrite <- Hn. apply substring_append_right.
Qed.

(** Which files the scripts take for source files: a file is found
    exactly when its name is a non-empty stem followed by [.js], [.jsx],
    [.ts] or [.tsx].  A name that is nothing but the extension is not
    found. *)
Theorem source_file_names dir name :
  In (dir ++ [name]) (CodeStyleReviewer.scanItem dir (JS.File name))
  <-> exists stem ext,
        stem <> "" /\ In ext [".js"; ".jsx"; ".ts"; ".tsx"]
        /\ name = (stem ++ ext)%string.
Proof.
  rewrite <- (reviewable_shape name). unfold reviewable.
  cbn [CodeStyleReviewer.scanItem].
  change CodeStyleReviewer.extensions with AICodeReviewer.extensions.
  destruct (JS.array_includes AICodeReviewer.extensions (JS.extname name)).
  - split; [reflexivity|]. intros _. left. reflexivity.
  - split; [intros []|discriminate].
Qed.

Lemma source_file_names_witness :
  In ["src"; "index.tsx"]
     (CodeStyleReviewer.scanItem ["src"] (JS.File "index.tsx")).
Proof.
  apply (proj2 (source_file_names ["src"] "index.tsx")).
  exists "index", ".tsx".
  split; [discriminate|]. split; [|reflexivity].
  right. right. right. left. reflexivity.
Defined.
